(** * CHAMP Kd estimation: a shallow embedding of [champ/kd.py]

    The module fits dissociation constants (Kd) to fluorescence intensities
    measured over a titration series.  This development embeds the two
    classes of the module, [KdFitIA] (the estimation engine) and [IAKdData]
    (the reader of its result files), and proves properties of them.

    Conventions of the embedding.
    - The module is Python 3 code (it contains an f-string and the package
      declares Python 3.7): [print] is a function that returns [None] and
      [map] returns an iterator.  Both facts are part of the model.
    - Numbers come in two layers.  The estimation engine and the reader
      are embedded with floats read as real numbers ([R]); rounding,
      overflow, infinities and NaN are outside that layer, whose theorems
      concern exceptions, the order of effects, dictionaries, lists and
      text.  The functions whose result is a computed number ([theta],
      [Iobs] and the 90% test of [find_Imax], the two ABA helpers) are
      embedded a second time over IEEE 754 binary64 numbers, in the module
      [Binary64], and what is proved of their values is proved there.
    - Exceptions are values: a computation returns [res A], either [Ok a] or
      [Raise e].  Output on stdout is threaded explicitly where the code
      prints.
    - Collaborators that are not part of the module (scipy, numpy's random
      generator, the intensity array [IA], the helpers [misc] and
      [seqtools], the builtins [float] and [str] on floats) are fields of
      interface classes; the code is embedded over any implementation. *)

From Stdlib Require Import Floats.
From Stdlib Require Import Reals Lra Lia List String Ascii Bool FunctionalExtensionality.
From stdpp Require Import base option list strings pretty gmap.
Import ListNotations.
Open Scope string_scope.

(** ** A fragment of the Python runtime *)

Inductive exn : Type :=
| AssertionError (msg : option string)
| AttributeError (msg : string)
| TypeError (msg : string)
| ValueError
| IndexError
| KeyError (key : string)
| StopIteration
| ZeroDivisionError.

Inductive res (A : Type) : Type :=
| Ok (a : A)
| Raise (e : exn).
Arguments Ok {A} a.
Arguments Raise {A} e.

Definition res_bind {A B : Type} (f : A → res B) (m : res A) : res B :=
  match m with
  | Ok a => f a
  | Raise e => Raise e
  end.

#[global] Instance res_ret : MRet res := @Ok.
#[global] Instance res_mbind : MBind res := @res_bind.

Definition py_assert (b : bool) (msg : option string) : res unit :=
  if b then Ok tt else Raise (AssertionError msg).

(** [l[i]] for a non-negative index. *)
Definition py_index {A : Type} (l : list A) (i : nat) : res A :=
  match l !! i with
  | Some a => Ok a
  | None => Raise IndexError
  end.

(** [d[k]] on a dict with string keys. *)
Definition py_getitem {A : Type} (d : gmap string A) (k : string) : res A :=
  match d !! k with
  | Some a => Ok a
  | None => Raise (KeyError k)
  end.

(** [d[k]] on a dict keyed by a pair of names. *)
Definition py_getitem2 {A : Type} (d : gmap (string * string) A) (k : string * string) : res A :=
  match d !! k with
  | Some a => Ok a
  | None => Raise (KeyError ("('" +:+ k.1 +:+ "', '" +:+ k.2 +:+ "')"))
  end.

(** [enumerate(l)]. *)
Definition enumerate {A : Type} (l : list A) : list (nat * A) := zip (seq 0 (length l)) l.

(** [for x in l: body], the body run for its outcome on an accumulator. *)
Fixpoint py_for {A S : Type} (body : S → A → res S) (l : list A) (s : S) : res S :=
  match l with
  | [] => Ok s
  | a :: l' => s' ← body s a; py_for body l' s'
  end.

(** [[f(x) for x in l]] where [f] may raise. *)
Fixpoint py_comprehension {A B : Type} (f : A → res B) (l : list A) : res (list B) :=
  match l with
  | [] => Ok []
  | a :: l' => b ← f a; bs ← py_comprehension f l'; Ok (b :: bs)
  end.

(** *** Strings

    Strings are sequences of code points below 256. *)

Definition LF : ascii := ascii_of_nat 10.
Definition TAB : ascii := ascii_of_nat 9.
Definition nl : string := String LF "".
Definition tab : string := String TAB "".

(** [str.isspace] on one character: the whitespace of Python 3 strings. *)
Definition is_space (c : ascii) : bool :=
  let n := nat_of_ascii c in
  ((9 <=? n) && (n <=? 13) || (28 <=? n) && (n <=? 32) || (n =? 133) || (n =? 160))%nat.

Definition is_empty (s : string) : bool :=
  match s with "" => true | String _ _ => false end.

(** [s.startswith(p)]. *)
Definition startswith (s p : string) : bool := String.prefix p s.

Fixpoint lstrip (s : string) : string :=
  match s with
  | "" => ""
  | String c s' => if is_space c then lstrip s' else s
  end.

Fixpoint rstrip (s : string) : string :=
  match s with
  | "" => ""
  | String c s' =>
      let r := rstrip s' in
      if (is_space c && is_empty r)%bool then "" else String c r
  end.

(** [s.strip()]. *)
Definition strip (s : string) : string := rstrip (lstrip s).

Definition cons_nonempty (w : string) (ws : list string) : list string :=
  if is_empty w then ws else w :: ws.

(** The run of non-space characters [s] starts with, and the fields after it. *)
Fixpoint fields (s : string) : string * list string :=
  match s with
  | "" => ("", [])
  | String c s' =>
      let '(w, ws) := fields s' in
      if is_space c then ("", cons_nonempty w ws) else (String c w, ws)
  end.

(** [s.split()]: the maximal runs of non-space characters. *)
Definition split_ws (s : string) : list string :=
  let '(w, ws) := fields s in cons_nonempty w ws.

(** [s.split(sep)] for a non-empty [sep], scanning left to right; [skip]
    counts the characters of a matched separator still to pass over. *)
Fixpoint split_sep_from (sep : string) (skip : nat) (s : string) : string * list string :=
  match s with
  | "" => ("", [])
  | String c s' =>
      match skip with
      | S k => split_sep_from sep k s'
      | O =>
          if startswith s sep then
            let '(w, ws) := split_sep_from sep (String.length sep - 1) s' in
            ("", w :: ws)
          else
            let '(w, ws) := split_sep_from sep 0 s' in
            (String c w, ws)
      end
  end.

Definition split_sep (sep s : string) : list string :=
  let '(w, ws) := split_sep_from sep 0 s in w :: ws.

(** [sep.join(l)]. *)
Definition join (sep : string) (l : list string) : string := String.concat sep l.

(** [s.replace(' ', '_')], one character for another. *)
Fixpoint replace_char (a b : ascii) (s : string) : string :=
  match s with
  | "" => ""
  | String c s' => String (if Ascii.eqb c a then b else c) (replace_char a b s')
  end.

(** The lines a text file yields when iterated: each up to and including its
    line feed, the last one possibly without.  The text is the decoded one,
    in which every line ending is a line feed. *)
Fixpoint first_line (s : string) : string * list string :=
  match s with
  | "" => ("", [])
  | String c s' =>
      let '(l, ls) := first_line s' in
      if Ascii.eqb c LF then (nl, cons_nonempty l ls) else (String c l, ls)
  end.

Definition file_lines (s : string) : list string :=
  let '(l, ls) := first_line s in cons_nonempty l ls.

(** [next(f)] on the lines still to be read. *)
Definition next_line (f : list string) : res (string * list string) :=
  match f with
  | [] => Raise StopIteration
  | l :: f' => Ok (l, f')
  end.

(** [os.path.join(dir, name)] on POSIX paths. *)
Fixpoint endswith_slash (s : string) : bool :=
  match s with
  | "" => false
  | String c "" => Ascii.eqb c "/"
  | String _ s' => endswith_slash s'
  end.

Definition os_path_join (dir name : string) : string :=
  if startswith name "/" then name
  else if is_empty dir || endswith_slash dir then dir +:+ name
  else dir +:+ "/" +:+ name.

(** The values a [print(...)] expression and a string literal evaluate to. *)
Inductive pyval : Type :=
| PyNone
| PyStr (s : string).

(** [print(s)] writes [s] and a newline to stdout and evaluates to [None]. *)
Definition py_print (s : string) (stdout : list string) : pyval * list string :=
  (PyNone, (stdout ++ [s +:+ nl])%list).

(** [sys.stdout.write(s)]. *)
Definition stdout_write (s : string) (stdout : list string) : list string :=
  (stdout ++ [s])%list.

(** [str.format] with positional [{}] fields: each [{}] is replaced by the
    next argument; [IndexError] when the arguments run out. *)
Fixpoint str_format (s : string) (args : list string) : res string :=
  match s with
  | String "{" (String "}" s'') =>
      match args with
      | [] => Raise IndexError
      | a :: args' => r ← str_format s'' args'; Ok (a +:+ r)
      end
  | String c s' => r ← str_format s' args; Ok (String c r)
  | "" => Ok ""
  end.

(** The bound method [v.format]: strings have it, [None] has no attributes. *)
Definition getattr_format (v : pyval) : res (list string → res string) :=
  match v with
  | PyStr s => Ok (str_format s)
  | PyNone => Raise (AttributeError "'NoneType' object has no attribute 'format'")
  end.

(** *** Arithmetic *)

Open Scope R_scope.

(** [a / b] on Python floats: division by zero raises.  (Where an operand
    is a numpy scalar Python gives [inf] or [nan] instead; the properties
    below are stated for divisors that are not zero.) *)
Definition py_div (a b : R) : res R :=
  if Req_dec_T b 0 then Raise ZeroDivisionError else Ok (a / b).

(** [sum] and [np.sum] of a vector. *)
Definition Rsum (l : list R) : R := foldr Rplus 0 l.

(** [np.std(l)]: the population standard deviation ([ddof = 0]) of a list
    that is not empty (numpy answers NaN for an empty one). *)
Definition np_mean (l : list R) : R := Rsum l / INR (length l).
Definition np_std (l : list R) : R :=
  sqrt (np_mean (map (λ v, (v - np_mean l) ^ 2) l)).

(** The column count numpy broadcasts two row lengths to. *)
Definition np_broadcast_cols (n m : nat) : res nat :=
  if (n =? m)%nat then Ok n
  else if (n =? 1)%nat then Ok m
  else if (m =? 1)%nat then Ok n
  else Raise ValueError.

(** Entry [j] of a row stretched to a broadcast width. *)
Definition np_entry (row : list R) (j : nat) : R :=
  match row with
  | [v] => v
  | _ => nth j row 0
  end.

(** An elementwise operation on two rows, broadcast to a common width. *)
Definition np_rows (f : R → R → R) (a b : list R) : res (list R) :=
  n ← np_broadcast_cols (length a) (length b);
  Ok (map (λ j, f (np_entry a j) (np_entry b j)) (seq 0 n)).

(** ** Collaborators outside the module *)

(** The builtins [float] on a string ([None] stands for its [ValueError])
    and [str] on a float. *)
Class Builtins := {
  py_float : string → option R;
  py_str : R → string;
}.

(** An Imin or Imax value as the code passes it around: one scalar, one
    value per concentration, or (for [Imax_ML]) a dict keyed by Imin name. *)
Inductive profile : Type :=
| Scalar (x : R)
| PerConc (l : list R)
| ByImin (d : gmap string (list R)).

(** Modelled from the spec: [misc.list_if_scalar] is not among the sources;
    a baseline or saturation profile is "either one scalar or one value per
    concentration", and the helper turns the scalar into [n] copies. *)
Definition list_if_scalar (p : profile) (n : nat) : res (list R) :=
  match p with
  | Scalar x => Ok (replicate n x)
  | PerConc l => Ok l
  | ByImin _ => Raise (TypeError "not a scalar or a list")
  end.

(** numpy's generator: a state, and [np.random.choice(np.arange(n), size=k,
    replace=True)], which draws [k] indices below [n]. *)
Class Numpy := {
  rng : Type;
  random_choice : nat → nat → rng → res (list nat) * rng;
  random_choice_spec : ∀ n k g, (0 < n)%nat →
    ∃ idxs, (random_choice n k g).1 = Ok idxs ∧ length idxs = k ∧ Forall (λ i, (i < n)%nat) idxs;
}.

(** What [scipy.optimize.minimize] returns. *)
Module OptimizeResult.
Record t := { x : list R; success : bool }.
End OptimizeResult.

(** scipy: [curve_fit(f, xdata, ydata)] returns the fitted parameters of a
    model with [n] of them, and [minimize(f, x0, method='powell')] the
    outcome of a direction-set search from [x0]. *)
Class Scipy := {
  curve_fit : nat → (R → list R → res R) → list R → list R → res (list R);
  minimize : (list R → res R) → list R → res OptimizeResult.t;
}.

(** [minimize] calls the objective at [x0] before anything else, so an
    exception the objective raises there is what [minimize] raises. *)
Definition minimize_starts_at_x0 `{Scipy} : Prop :=
  ∀ (f : list R → res R) (x0 : list R) (e : exn), f x0 = Raise e → minimize f x0 = Raise e.

(** [seqtools.mm_names(target, seq)], a printable name of a sequence. *)
Class Seqtools := { mm_names : string → string → string }.

(** The world the estimation runs in: the random generator and stdout. *)
Record world `{Numpy} := { gen : rng; stdout : list string }.

(** State and exception monad over the world; an exception keeps the
    effects that happened before it. *)
Definition M `{Numpy} (A : Type) : Type := world → res A * world.

#[global] Instance M_ret `{Numpy} : MRet M := λ A a w, (Ok a, w).
#[global] Instance M_bind `{Numpy} : MBind M := λ A B f m w,
  match m w with
  | (Ok a, w') => f a w'
  | (Raise e, w') => (Raise e, w')
  end.

Definition lift `{Numpy} {A : Type} (r : res A) : M A := λ w, (r, w).

Definition M_print `{Numpy} (s : string) : M pyval := λ w,
  let '(v, out) := py_print s (stdout w) in (Ok v, {| gen := gen w; stdout := out |}).

Definition M_stdout_write `{Numpy} (s : string) : M unit := λ w,
  (Ok tt, {| gen := gen w; stdout := stdout_write s (stdout w) |}).

Definition M_random_choice `{Numpy} (n k : nat) : M (list nat) := λ w,
  let '(r, g) := random_choice n k (gen w) in (r, {| gen := g; stdout := stdout w |}).

Fixpoint M_for `{Numpy} {A S : Type} (body : S → A → M S) (l : list A) (s : S) : M S :=
  match l with
  | [] => mret s
  | a :: l' => s' ← body s a; M_for body l' s'
  end.

(** [[f() for _ in range(n)]]. *)
Fixpoint M_repeat `{Numpy} {A : Type} (n : nat) (f : M A) : M (list A) :=
  match n with
  | O => mret []
  | S n' => a ← f; l ← M_repeat n' f; mret (a :: l)
  end.

(** ** The intensity array [IA]

    Modelled from the spec: the class of [IA] is not among the sources.  It
    "supplies concentration list, target/negative-control sequence
    identifiers, and per-sequence per-concentration intensity pools plus
    robust summary statistics (mode, median, stdev)"; its attributes and
    methods below are the ones [kd.py] uses.  A pool entry may be absent
    ([None]) in the list-of-lists form; the array form holds the readings
    that are present. *)
Module IntensityArray.
Record t `{Numpy} := {
  course_trait_name : string;
  course_trait_list : list R;
  course_len : nat;
  target : string;
  neg_control_target : string;
  seqs : list string;
  nseqs : nat;
  intensity_loarr_given_seq : gmap string (list (list R));
  intensity_lol_given_seq : gmap string (list (list (option R)));
  modes_given_seq : string → res (list R);
  stdevs_given_seq : string → res (list R);
  medians_given_seq : string → res (list R);
  all_trait_and_inten_vals_given_seq : string → nat → res (list R * list R);
  all_normalized_trait_and_inten_vals_given_seq :
    string → profile → profile → nat → bool → M (list R * list R);
}.
End IntensityArray.

(** ** class KdFitIA *)
Module KdFitIA.
Section KdFitIA.
Context `{Numpy} `{Scipy} `{Seqtools} `{Builtins}.

(** The attributes [__init__] sets. *)
Record t := {
  IA : IntensityArray.t;
  concentrations : list R;
  nM_concentrations : list R;
  target : string;
  neg_control_target : string;
  max_clust : nat;
  Imin_names : list string;
  Imax_names : list string;
}.

Definition init (IA : IntensityArray.t) (max_clust : nat) : res t :=
  _ ← py_assert (String.eqb (IntensityArray.course_trait_name IA) "concentration_pM")
                (Some (IntensityArray.course_trait_name IA));
  Ok {| IA := IA;
        concentrations := IntensityArray.course_trait_list IA;
        nM_concentrations := map (λ conc, conc / 1000) (IntensityArray.course_trait_list IA);
        target := IntensityArray.target IA;
        neg_control_target := IntensityArray.neg_control_target IA;
        max_clust := max_clust;
        Imin_names := ["Imin_const"];
        Imax_names := ["Imax_adjusted"] |}.

(** The attributes [find_Imin_and_background_noise] sets.  A dict keyed by
    concentration is kept as the list of its assignments (a later one for
    the same key replaces an earlier one). *)
Record Imin_attrs := {
  Imin_neg_cont : list R;
  Imin_const : R;
  Imin_given_conc : list (R * R);
  Imin_stdev : list R;
  Imin_stdev_given_conc : list (R * R);
}.

Definition find_Imin_and_background_noise (self : t) : res Imin_attrs :=
  Imin_neg_cont ← IntensityArray.modes_given_seq (IA self) (neg_control_target self);
  Imin_const ← py_index Imin_neg_cont 0;
  Imin_stdev ← IntensityArray.stdevs_given_seq (IA self) (neg_control_target self);
  Ok {| Imin_neg_cont := Imin_neg_cont;
        Imin_const := Imin_const;
        Imin_given_conc := zip (concentrations self) Imin_neg_cont;
        Imin_stdev := Imin_stdev;
        Imin_stdev_given_conc := zip (concentrations self) Imin_stdev |}.

(** The attributes [find_Imax] sets. *)
Record Imax_attrs := {
  Imax_const : R;
  Imax_adjusted : list R;
  Imax_given_conc : list (R * R);
}.

(** [theta] of [model_logL], over the reals; [Binary64.KdFitIA.theta] is
    the function in binary64. *)
Definition theta (x Kd : R) : res R :=
  q ← py_div Kd x;
  py_div 1 (1 + q).

(** [np.tile(base, (n, 1)) + np.multiply(thetas, np.tile(scale, (n, 1)))]
    for a matrix [thetas] of [n] rows and [ncols] columns. *)
Definition np_affine (base : list R) (thetas : list (list R)) (ncols : nat)
    (scale : list R) : res (list (list R)) :=
  w ← np_broadcast_cols ncols (length scale);
  _ ← np_broadcast_cols (length base) w;
  py_comprehension (λ row, prod ← np_rows Rmult row scale; np_rows Rplus base prod) thetas.

(** [m[i, j]]. *)
Definition np_index2 (m : list (list R)) (i j : nat) : res R :=
  row ← py_index m i;
  py_index row j.

(** [[inten_list[idx] for idx in bootstrap_idxs if inten_list[idx] is not None]]. *)
Definition bootstrap_sample (inten_list : list (option R)) (bootstrap_idxs : list nat)
    : res (list R) :=
  picked ← py_comprehension (py_index inten_list) bootstrap_idxs;
  Ok (omap (λ reading : option R, reading) (picked : list (option R))).

(** One concentration's term of the log-likelihood:
    [-len(arr) * log(sigma) - 1/(2 sigma^2) * sum((arr - yhat)^2)]. *)
Definition gauss_term (inten_arr : list R) (sigma yhat : R) : R :=
  - INR (length inten_arr) * ln sigma
  - 1 / (2 * sigma ^ 2) * Rsum (map (λ v, (v - yhat) ^ 2) inten_arr).

(** The readings [model_logL] uses for one concentration. *)
Definition cluster_readings (max_clust : nat) (bootstrap_idxs : option (list nat))
    (inten_arr : list R) (inten_list : list (option R)) : res (list R) :=
  match bootstrap_idxs with
  | Some idxs => bootstrap_sample inten_list idxs
  | None => Ok (take max_clust inten_arr)
  end.

Definition repr_list (l : list R) : string := "[" +:+ join ", " (map py_str l) +:+ "]".

Definition model_logL (self : t) (imin : Imin_attrs) (imax : Imax_attrs)
    (seqs : list string) (Kds Imin_list Imax_list sigma_consts : list R) (sigI : R)
    (max_clust_arg : option nat) (bootstrap_idxs : option (list nat)) : res R :=
  _ ← match bootstrap_idxs with
      | Some _ =>
          py_assert (length seqs =? 1)%nat
            (Some "Bootstrapping can only be performed on one seq at a time.")
      | None => Ok tt
      end;
  let max_clust := default (max_clust self) max_clust_arg in
  _ ← py_assert (length Imax_list =? length (concentrations self))%nat
        (Some (repr_list Imax_list));
  thetas ← py_comprehension
             (λ Kd, py_comprehension (λ conc, theta conc Kd) (concentrations self)) Kds;
  sigma_clusts ← np_affine (Imin_stdev imin) thetas (length Imax_list) sigma_consts;
  yhat ← np_affine Imin_list thetas (length Imax_list) Imax_list;
  logL ← py_for
           (λ logL '(sidx, seq),
              loarr ← py_getitem (IntensityArray.intensity_loarr_given_seq (IA self)) seq;
              lol ← py_getitem (IntensityArray.intensity_lol_given_seq (IA self)) seq;
              py_for
                (λ logL '(cidx, (inten_arr, inten_list)),
                   arr ← cluster_readings max_clust bootstrap_idxs inten_arr inten_list;
                   sigma ← np_index2 sigma_clusts sidx cidx;
                   y ← np_index2 yhat sidx cidx;
                   Ok (logL + gauss_term arr sigma y))
                (enumerate (zip loarr lol)) logL)
           (enumerate seqs) 0;
  Ok (logL
      + (- INR (length Imax_list) * ln sigI
         - 1 / (2 * sigI ^ 2) * Rsum (map (λ v, (v - Imax_const imax) ^ 2) Imax_list))).

(** The [AttributeError] of [getattr(self, name)], and of [self.name], on an
    estimator that has no attribute [name]. *)
Definition no_attribute (name : string) : exn :=
  AttributeError ("'KdFitIA' object has no attribute '" +:+ name +:+ "'").

(** [getattr(self, Imin_name)] for the names [add_Imin_type] admits. *)
Definition getattr_Imin (imin : Imin_attrs) (Imin_name : string) : res profile :=
  if String.eqb Imin_name "Imin_const" then Ok (Scalar (Imin_const imin))
  else if String.eqb Imin_name "Imin_neg_cont" then Ok (PerConc (Imin_neg_cont imin))
  else Raise (no_attribute Imin_name).

(** [Iobs] of [curve_fit_Kd]. *)
Definition Iobs_normalized (x Kd : R) : res R :=
  q ← py_div Kd x;
  py_div 1 (1 + q).

Definition Iobs_normalized_model (x : R) (params : list R) : res R :=
  match params with
  | [Kd] => Iobs_normalized x Kd
  | _ => Raise (TypeError "Iobs() takes 2 positional arguments")
  end.

Definition curve_fit_Kd (self : t) (seq : string) (Imin Imax : profile)
    (max_clust_arg : option nat) (bootstrap : bool) : M R :=
  let max_clust := default (max_clust self) max_clust_arg in
  '(all_concentrations, all_intensities) ←
     IntensityArray.all_normalized_trait_and_inten_vals_given_seq (IA self)
       seq Imin Imax max_clust bootstrap;
  popt ← lift (curve_fit 1 Iobs_normalized_model all_concentrations all_intensities);
  lift (py_index popt 0).

(** A sequence object as Python 3 has it: a list, or the iterator that
    [map(f, l)] returns, which has no [__getitem__]. *)
Inductive seq_obj : Type :=
| ListObj (l : list R)
| MapObj (f : R → R) (l : list R).

Definition py_map (f : R → R) (l : list R) : seq_obj := MapObj f l.

Definition not_subscriptable : exn := TypeError "'map' object is not subscriptable".

(** [o[lo:hi]] and [o[i]]. *)
Definition py_slice (o : seq_obj) (lo hi : nat) : res (list R) :=
  match o with
  | ListObj l => Ok (take (hi - lo) (drop lo l))
  | MapObj _ _ => Raise not_subscriptable
  end.

Definition py_item (o : seq_obj) (i : nat) : res R :=
  match o with
  | ListObj l => py_index l i
  | MapObj _ _ => Raise not_subscriptable
  end.

(** The unpacking [params[:idx1], params[idx1:idx2], params[idx2:idx3],
    params[idx3]] that [fit_Imax_ML_given_Imin] performs twice. *)
Definition unpack_params (params : seq_obj) (idx1 idx2 idx3 : nat)
    : res (list R * list R * list R * R) :=
  Kds ← py_slice params 0 idx1;
  Imax_list ← py_slice params idx1 idx2;
  sig_cs ← py_slice params idx2 idx3;
  sigI ← py_item params idx3;
  Ok (Kds, Imax_list, sig_cs, sigI).

(** [neg_log_L] of [fit_Imax_ML_given_Imin]. *)
Definition joint_neg_log_L (self : t) (imin : Imin_attrs) (imax : Imax_attrs)
    (ML_seqs : list string) (Imin_list : list R) (idx1 idx2 idx3 : nat)
    (params : list R) : res R :=
  let params := py_map Rabs params in
  '(Kds, Imax_list, sig_cs, sigI) ← unpack_params params idx1 idx2 idx3;
  logL ← model_logL self imin imax ML_seqs Kds Imin_list Imax_list sig_cs sigI None None;
  Ok (- logL).

(** [x0] of [fit_Imax_ML_given_Imin]. *)
Definition joint_x0 (self : t) (imin : Imin_attrs) (imax : Imax_attrs)
    (ML_seqs : list string) : M (list R) :=
  Kd0 ← M_for (λ acc seq,
                 Kd ← curve_fit_Kd self seq (Scalar (Imin_const imin))
                        (Scalar (Imax_const imax)) None false;
                 mret (acc ++ [Kd])%list)
          ML_seqs [];
  mret (Kd0
        ++ Imax_adjusted imax
        ++ replicate (IntensityArray.course_len (IA self)) 1
        ++ [(Imax_const imax - Imin_const imin) / 10])%list.

Definition fit_Imax_ML_given_Imin (self : t) (imin : Imin_attrs) (imax : Imax_attrs)
    (ML_seqs : list string) (Imin : profile) : M (list R * list R * list R * R) :=
  let idx1 := length ML_seqs in
  let idx2 := (idx1 + IntensityArray.course_len (IA self))%nat in
  let idx3 := (idx2 + IntensityArray.course_len (IA self))%nat in
  Imin_list ← lift (list_if_scalar Imin (length (concentrations self)));
  x0 ← joint_x0 self imin imax ML_seqs;
  _ ← lift (py_assert (length x0 =? idx3 + 1)%nat None);
  res ← lift (minimize (joint_neg_log_L self imin imax ML_seqs Imin_list idx1 idx2 idx3) x0);
  let params := py_map Rabs (OptimizeResult.x res) in
  lift (unpack_params params idx1 idx2 idx3).

(** The attributes [fit_Imax_ML] sets, dicts keyed by Imin name. *)
Record ML_attrs := {
  Imax_ML : gmap string (list R);
  sigma_consts : gmap string (list R);
  sigma_I : gmap string R;
}.

Definition fit_Imax_ML (self : t) (imin : Imin_attrs) (imax : Imax_attrs)
    (ML_seqs : list string) : M ML_attrs :=
  M_for (λ ml Imin_name,
           Imin ← lift (getattr_Imin imin Imin_name);
           '(Kds, Imax_list, sig_cs, sigI) ← fit_Imax_ML_given_Imin self imin imax ML_seqs Imin;
           mret {| Imax_ML := <[Imin_name := Imax_list]> (Imax_ML ml);
                   sigma_consts := <[Imin_name := sig_cs]> (sigma_consts ml);
                   sigma_I := <[Imin_name := sigI]> (sigma_I ml) |})
    (Imin_names self)
    {| Imax_ML := ∅; sigma_consts := ∅; sigma_I := ∅ |}.

(** [float(a)] of an array: defined for one element. *)
Definition float_of_array (a : list R) : res R :=
  match a with
  | [v] => Ok v
  | _ => Raise (TypeError "only size-1 arrays can be converted to Python scalars")
  end.

(** The index vector a bootstrapped [ML_fit_Kd] draws. *)
Definition draw_bootstrap_idxs (self : t) (seq : string) (max_clust : nat) : M (list nat) :=
  lol ← lift (py_getitem (IntensityArray.intensity_lol_given_seq (IA self)) seq);
  first ← lift (py_index lol 0);
  let len_inten_list := length first in
  M_random_choice len_inten_list (Nat.min len_inten_list max_clust).

(** [neg_log_L] of [ML_fit_Kd]. *)
Definition single_neg_log_L (self : t) (imin : Imin_attrs) (imax : Imax_attrs)
    (ml : ML_attrs) (seq Imin_name : string) (Imin_list : list R)
    (bootstrap_idxs : option (list nat)) (params : list R) : res R :=
  Kd ← float_of_array params;
  Imax_list ← py_getitem (Imax_ML ml) Imin_name;
  sig_cs ← py_getitem (sigma_consts ml) Imin_name;
  sigI ← py_getitem (sigma_I ml) Imin_name;
  logL ← model_logL self imin imax [seq] [Kd] Imin_list Imax_list sig_cs sigI
           None bootstrap_idxs;
  Ok (- logL).

Definition failure_warning : string := nl +:+ "Warning: Failure on {} ({})".

(** [ML_fit_Kd] from the statement after its [if bootstrap] block on, for
    the index vector that block has bound. *)
Definition ML_fit_Kd_with (self : t) (imin : Imin_attrs) (imax : Imax_attrs) (ml : ML_attrs)
    (seq Imin_name : string) (bootstrap_idxs : option (list nat)) : M R :=
  Imin ← lift (getattr_Imin imin Imin_name);
  Imin_list ← lift (list_if_scalar Imin (length (concentrations self)));
  res ← lift (minimize
                (single_neg_log_L self imin imax ml seq Imin_name Imin_list bootstrap_idxs)
                [20]);
  _ ← (if negb (OptimizeResult.success res)
       then
         printed ← M_print failure_warning;
         format ← lift (getattr_format printed);
         _ ← lift (format [seq; mm_names (target self) seq]);
         mret tt
       else mret tt);
  lift (float_of_array (OptimizeResult.x res)).

Definition ML_fit_Kd (self : t) (imin : Imin_attrs) (imax : Imax_attrs) (ml : ML_attrs)
    (seq Imin_name : string) (max_clust_arg : option nat) (bootstrap : bool) : M R :=
  let max_clust := default (max_clust self) max_clust_arg in
  bootstrap_idxs ← (if bootstrap
                    then idxs ← draw_bootstrap_idxs self seq max_clust; mret (Some idxs)
                    else mret None);
  ML_fit_Kd_with self imin imax ml seq Imin_name bootstrap_idxs.

(** [add_Imin_type] and [add_Imax_type]. *)
Definition add_Imin_type (self : t) (Imin_name : string) : res t :=
  _ ← py_assert (bool_decide (Imin_name ∈ ["Imin_const"; "Imin_neg_cont"])) (Some Imin_name);
  Ok {| IA := IA self; concentrations := concentrations self;
        nM_concentrations := nM_concentrations self; target := target self;
        neg_control_target := neg_control_target self; max_clust := max_clust self;
        Imin_names := if bool_decide (Imin_name ∈ Imin_names self) then Imin_names self
                      else (Imin_names self ++ [Imin_name])%list;
        Imax_names := Imax_names self |}.

Definition add_Imax_type (self : t) (Imax_name : string) : res t :=
  _ ← py_assert (bool_decide (Imax_name ∈ ["Imax_const"; "Imax_adjusted"; "Imax_ML"]))
        (Some Imax_name);
  Ok {| IA := IA self; concentrations := concentrations self;
        nM_concentrations := nM_concentrations self; target := target self;
        neg_control_target := neg_control_target self; max_clust := max_clust self;
        Imin_names := Imin_names self;
        Imax_names := if bool_decide (Imax_name ∈ Imax_names self) then Imax_names self
                      else (Imax_names self ++ [Imax_name])%list |}.

(** The two fit methods a strategy pair dispatches to. *)
Inductive fit_func : Type :=
| curve_fit_Kd_method
| ML_fit_Kd_method.

(** The attributes [setup_for_fit] sets, dicts keyed by
    [(Imin_name, Imax_name)]. *)
Record fit_attrs := {
  fit_func_given_Imin_max_names : gmap (string * string) fit_func;
  Imin_max_pairs_given_names : gmap (string * string) (profile * profile);
}.

(** [getattr(self, Imax_name)] for the names [add_Imax_type] admits;
    [Imax_ML] exists once [fit_Imax_ML] has run. *)
Definition getattr_Imax (imax : Imax_attrs) (ml : option ML_attrs) (Imax_name : string)
    : res profile :=
  if String.eqb Imax_name "Imax_const" then Ok (Scalar (Imax_const imax))
  else if String.eqb Imax_name "Imax_adjusted" then Ok (PerConc (Imax_adjusted imax))
  else if String.eqb Imax_name "Imax_ML" then
    match ml with
    | Some ml => Ok (ByImin (Imax_ML ml))
    | None => Raise (no_attribute Imax_name)
    end
  else Raise (no_attribute Imax_name).

Definition setup_for_fit (self : t) (imin : Imin_attrs) (imax : Imax_attrs)
    (ml : option ML_attrs) (current : option fit_attrs) (force : bool) : res fit_attrs :=
  match current, force with
  | Some fa, false => Ok fa
  | _, _ =>
      fa ← py_for
             (λ fa '(Imin_name, Imax_name),
                Imin ← getattr_Imin imin Imin_name;
                Imax ← getattr_Imax imax ml Imax_name;
                Ok {| fit_func_given_Imin_max_names :=
                        <[(Imin_name, Imax_name) := curve_fit_Kd_method]>
                          (fit_func_given_Imin_max_names fa);
                      Imin_max_pairs_given_names :=
                        <[(Imin_name, Imax_name) := (Imin, Imax)]>
                          (Imin_max_pairs_given_names fa) |})
             (list_prod (Imin_names self) (Imax_names self))
             {| fit_func_given_Imin_max_names := ∅; Imin_max_pairs_given_names := ∅ |};
      if bool_decide ("Imax_ML" ∈ Imax_names self) then
        py_for
          (λ fa Imin_name,
             Imin ← getattr_Imin imin Imin_name;
             by_imin ← match ml with
                       | Some ml => Ok (Imax_ML ml)
                       | None => Raise (no_attribute "Imax_ML")
                       end;
             Imax ← py_getitem by_imin Imin_name;
             Ok {| fit_func_given_Imin_max_names :=
                     <[(Imin_name, "Imax_ML") := ML_fit_Kd_method]>
                       (fit_func_given_Imin_max_names fa);
                   Imin_max_pairs_given_names :=
                     <[(Imin_name, "Imax_ML") := (Imin, PerConc Imax)]>
                       (Imin_max_pairs_given_names fa) |})
          (Imin_names self) fa
      else Ok fa
  end.

(** [sorted(d.items())] for a dict keyed by a pair of names: tuples compare
    by their first component, then their second, strings by code point. *)
Definition names_leb (a b : string * string) : bool :=
  match String.compare a.1 b.1 with
  | Lt => true
  | Gt => false
  | Eq => String.leb a.2 b.2
  end.

Fixpoint insert_sorted {V : Type} (kv : string * string * V) (l : list (string * string * V))
    : list (string * string * V) :=
  match l with
  | [] => [kv]
  | kv' :: l' => if names_leb kv.1 kv'.1 then kv :: l else kv' :: insert_sorted kv l'
  end.

Definition sorted_items {V : Type} (d : gmap (string * string) V)
    : list (string * string * V) :=
  foldr insert_sorted [] (map_to_list d).

(** [ABA] of [fit_all_Kds], over the reals; [Binary64.KdFitIA.ABA] is the
    function in binary64. *)
Definition ABA (Kd neg_cont_Kd : R) : R := ln neg_cont_Kd - ln Kd.

(** The attributes [fit_all_Kds] sets, dicts keyed by the strategy pair. *)
Record results := {
  Kds : gmap (string * string) (list R);
  Kd_errors : gmap (string * string) (list R);
  ABAs : gmap (string * string) (list R);
  ABA_errors : gmap (string * string) (list R);
}.

(** [fit_func(seq, Imin=Imin, Imax=Imax, Imin_name=Imin_name, bootstrap=b)]:
    each method takes the keywords it names and ignores the others. *)
Definition call_fit_func (self : t) (imin : Imin_attrs) (imax : Imax_attrs)
    (ml : option ML_attrs) (f : fit_func) (seq : string) (Imin Imax : profile)
    (Imin_name : string) (bootstrap : bool) : M R :=
  match f with
  | curve_fit_Kd_method => curve_fit_Kd self seq Imin Imax None bootstrap
  | ML_fit_Kd_method =>
      match ml with
      | Some ml => ML_fit_Kd self imin imax ml seq Imin_name None bootstrap
      | None => lift (Raise (no_attribute "Imax_ML"))
      end
  end.

(** [d[names_tup].append(v)]. *)
Definition append_to (d : gmap (string * string) (list R)) (names_tup : string * string)
    (v : R) : res (gmap (string * string) (list R)) :=
  l ← py_getitem2 d names_tup;
  Ok (<[names_tup := (l ++ [v])%list]> d).

(** The body of the loop of [fit_all_Kds] over the sequences, for the fit
    function [fit] of the strategy pair [names_tup]. *)
Definition fit_seq (fit : string → bool → M R) (num_bootstraps : nat)
    (names_tup : string * string) (neg_control_Kd : R) (r : results)
    (i_seq : nat * string) : M results :=
  let '(i, seq) := i_seq in
  _ ← (if (i mod 100 =? 0)%nat then M_stdout_write "." else mret tt);
  Kd ← fit seq false;
  bs_Kds ← M_repeat num_bootstraps (fit seq true);
  kds ← lift (append_to (Kds r) names_tup Kd);
  kd_errors ← lift (append_to (Kd_errors r) names_tup (np_std bs_Kds));
  abas ← lift (append_to (ABAs r) names_tup (ABA Kd neg_control_Kd));
  let bs_ABAs := map (λ kkd, ABA kkd neg_control_Kd) bs_Kds in
  aba_errors ← lift (append_to (ABA_errors r) names_tup (np_std bs_ABAs));
  mret {| Kds := kds; Kd_errors := kd_errors; ABAs := abas; ABA_errors := aba_errors |}.

(** The loop of [fit_all_Kds] over the strategy pairs. *)
Definition fit_pairs (self : t) (imin : Imin_attrs) (imax : Imax_attrs)
    (ml : option ML_attrs) (fa : fit_attrs) (num_bootstraps : nat) (r : results) : M results :=
  M_for
    (λ r '(names_tup, (Imin, Imax)),
       _ ← M_print (nl +:+ " {names_tup}");
       let Imin_name := names_tup.1 in
       f ← lift (py_getitem2 (fit_func_given_Imin_max_names fa) names_tup);
       let fit := λ seq bootstrap,
         call_fit_func self imin imax ml f seq Imin Imax Imin_name bootstrap in
       neg_control_Kd ← fit (neg_control_target self) false;
       M_for (fit_seq fit num_bootstraps names_tup neg_control_Kd)
         (enumerate (IntensityArray.seqs (IA self))) r)
    (sorted_items (Imin_max_pairs_given_names fa)) r.

Definition seqs_banner : string := "{} Seqs, '.'={}" +:+ nl.

(** [fit_all_Kds].  The columns are returned when the method returns; what
    an interrupted run has already appended is not kept. *)
Definition fit_all_Kds (self : t) (imin : Imin_attrs) (imax : Imax_attrs)
    (ml : option ML_attrs) (current : option fit_attrs) (num_bootstraps : nat)
    : M (fit_attrs * results) :=
  fa ← lift (setup_for_fit self imin imax ml current false);
  let empty := (λ _ : fit_func, @nil R) <$> fit_func_given_Imin_max_names fa in
  let r := {| Kds := empty; Kd_errors := empty; ABAs := empty; ABA_errors := empty |} in
  let dot_val := 100%nat in
  printed ← M_print seqs_banner;
  format ← lift (getattr_format printed);
  _ ← lift (format [pretty (IntensityArray.nseqs (IA self)); pretty dot_val]);
  r ← fit_pairs self imin imax ml fa num_bootstraps r;
  mret (fa, r).

(** The text [write_results] writes to the file of one strategy pair. *)
Definition profile_line (row : R * R * R) : string :=
  let '(conc, imin, imax) := row in
  join tab (map py_str [conc; imin; imax]) +:+ nl.

Definition result_line (row : string * R * R * R * R) : string :=
  let '(seq, Kd, Kd_err, ABA, ABA_err) := row in
  join tab (seq :: map py_str [Kd; Kd_err; ABA; ABA_err]).

Definition out_zipper (seqs : list string) (kds kd_errors abas aba_errors : list R)
    : list (string * R * R * R * R) :=
  zip (zip (zip (zip seqs kds) kd_errors) abas) aba_errors.

Definition results_text (self : t) (Imin Imax : list R)
    (kds kd_errors abas aba_errors : list R) : string :=
  ("# Target: " +:+ target self +:+ nl)
  +:+ ("# Neg Control: " +:+ neg_control_target self +:+ nl)
  +:+ ("# Concentration" +:+ tab +:+ "Imin" +:+ tab +:+ "Imax" +:+ nl)
  +:+ String.concat "" (map profile_line (zip (zip (concentrations self) Imin) Imax))
  +:+ (join tab ["# Seq"; "Kd (pM)"; "Kd error"; "ABA (kB T)"; "ABA error"] +:+ nl)
  +:+ join nl (map result_line
                 (out_zipper (IntensityArray.seqs (IA self)) kds kd_errors abas aba_errors)).

(** [write_results(out_dir, bname)]: the files written, in order, each with
    its path and its content. *)
Definition write_results (self : t) (fa : fit_attrs) (r : results) (out_dir bname : string)
    : res (list (string * string)) :=
  py_comprehension
    (λ '(names_tup, (Imin, Imax)),
       let '(Imin_name, Imax_name) := names_tup in
       Imin ← list_if_scalar Imin (length (concentrations self));
       Imax ← list_if_scalar Imax (length (concentrations self));
       let out_fname :=
         bname +:+ "_" +:+ replace_char " " "_" Imin_name
               +:+ "_" +:+ replace_char " " "_" Imax_name +:+ "_Kds_and_ABAs.txt" in
       let out_fpath := os_path_join out_dir out_fname in
       kds ← py_getitem2 (Kds r) names_tup;
       kd_errors ← py_getitem2 (Kd_errors r) names_tup;
       abas ← py_getitem2 (ABAs r) names_tup;
       aba_errors ← py_getitem2 (ABA_errors r) names_tup;
       Ok (out_fpath, results_text self Imin Imax kds kd_errors abas aba_errors))
    (sorted_items (Imin_max_pairs_given_names fa)).

End KdFitIA.
End KdFitIA.

(** ** class IAKdData *)
Module IAKdData.
Section IAKdData.
Context `{Builtins}.

Record t := {
  concentrations : list R;
  Imin : list R;
  Imax : list R;
  Kd : gmap string R;
  Kd_error : gmap string R;
  ABA : gmap string R;
  ABA_error : gmap string R;
  target : string;
  neg_control_target : string;
  neg_control_Kd : R;
  log_neg_control_Kd : R;
  target_ABA : R;
}.

(** [map(float, words)], consumed by an unpacking assignment. *)
Definition floats (words : list string) : res (list R) :=
  py_comprehension
    (λ w, match py_float w with
          | Some v => Ok v
          | None => Raise ValueError
          end)
    words.

(** The [while] loop over the concentration lines: [line] is the line in
    hand and [f] the lines not yet read. *)
Fixpoint read_profile (line : string) (f : list string) (acc : list R * list R * list R)
    {struct f} : res (string * list string * (list R * list R * list R)) :=
  if startswith line "#" then Ok (line, f, acc)
  else
    vals ← floats (split_ws (strip line));
    match vals with
    | [conc; imn; imx] =>
        let '(concs, imns, imxs) := acc in
        match f with
        | [] => Raise StopIteration
        | line' :: f' =>
            read_profile line' f' ((concs ++ [conc])%list, (imns ++ [imn])%list, (imxs ++ [imx])%list)
        end
    | _ => Raise ValueError
    end.

(** The four dicts the data rows fill. *)
Record table := {
  t_Kd : gmap string R;
  t_Kd_error : gmap string R;
  t_ABA : gmap string R;
  t_ABA_error : gmap string R;
}.

(** The body of the [for] loop over the data rows. *)
Definition read_row (d : table) (line : string) : res table :=
  if startswith line "#" then Ok d
  else
    let words := split_ws (strip line) in
    seq ← py_index words 0;
    _ ← py_assert (negb (bool_decide (is_Some (t_Kd d !! seq)))) (Some seq);
    vals ← floats (drop 1 words);
    match vals with
    | [Kd; Kd_err; ABA; ABA_err] =>
        Ok {| t_Kd := <[seq := Kd]> (t_Kd d);
              t_Kd_error := <[seq := Kd_err]> (t_Kd_error d);
              t_ABA := <[seq := ABA]> (t_ABA d);
              t_ABA_error := <[seq := ABA_err]> (t_ABA_error d) |}
    | _ => Raise ValueError
    end.

Definition concentration_header : string :=
  "# Concentration" +:+ tab +:+ "Imin" +:+ tab +:+ "Imax".

(** [__init__], on the text of the file at [Kd_fpath]. *)
Definition init (text : string) : res t :=
  let f := file_lines text in
  '(line, f) ← next_line f;
  _ ← py_assert (startswith line "# Target:") None;
  target ← py_index (split_sep ": " (strip line)) 1;
  '(line, f) ← next_line f;
  _ ← py_assert (startswith line "# Neg Control") None;
  neg_control_target ← py_index (split_sep ": " (strip line)) 1;
  '(line, f) ← next_line f;
  _ ← py_assert (startswith line concentration_header) None;
  '(line, f) ← next_line f;
  '(line, f, (concs, imns, imxs)) ← read_profile line f ([], [], []);
  _ ← py_assert (startswith line "# Seq") None;
  d ← py_for read_row f {| t_Kd := ∅; t_Kd_error := ∅; t_ABA := ∅; t_ABA_error := ∅ |};
  neg_control_Kd ← py_getitem (t_Kd d) neg_control_target;
  target_ABA ← py_getitem (t_ABA d) target;
  Ok {| concentrations := concs; Imin := imns; Imax := imxs;
        Kd := t_Kd d; Kd_error := t_Kd_error d; ABA := t_ABA d; ABA_error := t_ABA_error d;
        target := target; neg_control_target := neg_control_target;
        neg_control_Kd := neg_control_Kd;
        log_neg_control_Kd := ln neg_control_Kd;
        target_ABA := target_ABA |}.

End IAKdData.
End IAKdData.

(** ** Implementations of the collaborators used in examples *)

(** A [float]/[str] pair that knows a few literals. *)
Definition example_float (s : string) : option R :=
  if String.eqb s "1.0" then Some 1
  else if String.eqb s "2.5" then Some 2.5
  else if String.eqb s "10.0" then Some 10
  else None.

Definition example_str (v : R) : string :=
  if Req_dec_T v 1 then "1.0"
  else if Req_dec_T v 2.5 then "2.5"
  else "10.0".

Definition example_builtins : Builtins :=
  {| py_float := example_float; py_str := example_str |}.

(** A result file. *)
Definition example_file : string :=
  "# Target: ACGT" +:+ nl +:+
  "# Neg Control: TTTT" +:+ nl +:+
  "# Concentration" +:+ tab +:+ "Imin" +:+ tab +:+ "Imax" +:+ nl +:+
  "1.0" +:+ tab +:+ "2.5" +:+ tab +:+ "10.0" +:+ nl +:+
  "# Seq" +:+ tab +:+ "Kd (pM)" +:+ nl +:+
  "ACGT" +:+ tab +:+ "1.0" +:+ tab +:+ "1.0" +:+ tab +:+ "2.5" +:+ tab +:+ "1.0" +:+ nl +:+
  "TTTT" +:+ tab +:+ "10.0" +:+ tab +:+ "1.0" +:+ tab +:+ "1.0" +:+ tab +:+ "1.0".


(** A generator that walks round the index range. *)
Definition example_choice (n k g : nat) : res (list nat) * nat :=
  match n with
  | O => (match k with O => Ok [] | S _ => Raise ValueError end, g)
  | S _ => (Ok (map (λ j, (g + j) mod n)%nat (seq 0 k)), (g + k)%nat)
  end.

Lemma example_choice_spec (n k g : nat) :
  (0 < n)%nat →
  ∃ idxs, (example_choice n k g).1 = Ok idxs ∧ length idxs = k
          ∧ Forall (λ i, (i < n)%nat) idxs.
Proof.
  intros Hn. destruct n as [|n]; [lia|]. cbn -[Nat.modulo seq].
  eexists. split; [reflexivity|].
  split.
  - rewrite length_map, length_seq. reflexivity.
  - apply List.Forall_forall. intros i Hi. apply in_map_iff in Hi as (j & <- & _).
    apply Nat.mod_upper_bound. lia.
Qed.

Definition example_numpy : Numpy :=
  {| rng := nat; random_choice := example_choice; random_choice_spec := example_choice_spec |}.

(** A [curve_fit] that refuses empty data, as scipy does, and otherwise
    answers Kd = 1 and Imax = 10; a [minimize] that gives up at [x0]. *)
Definition example_curve_fit (n : nat) (f : R → list R → res R) (xdata ydata : list R)
    : res (list R) :=
  match ydata with
  | [] => Raise ValueError
  | _ :: _ => Ok (take n [1; 10])
  end.

Definition example_minimize (f : list R → res R) (x0 : list R) : res OptimizeResult.t :=
  match f x0 with
  | Ok _ => Ok {| OptimizeResult.x := x0; OptimizeResult.success := false |}
  | Raise e => Raise e
  end.

Definition example_scipy : Scipy :=
  {| curve_fit := example_curve_fit; minimize := example_minimize |}.

Definition example_seqtools : Seqtools := {| mm_names := λ target seq, seq |}.

(** The most frequent reading of a pool, a mode for pools of few values. *)
Definition most_frequent (pool : list R) : R :=
  foldr (λ v best,
           if (count_occ Req_dec_T pool best <=? count_occ Req_dec_T pool v)%nat
           then v else best)
    (hd 0 pool) pool.

(** An intensity array of two sequences over two concentrations; the
    sequence [GGGG] has no clusters. *)
Definition example_pools : gmap string (list (list R)) :=
  <["ACGT" := [[2]; [9; 9]]]> (<["TTTT" := [[1]; [3; 3]]]> (<["GGGG" := [[]; []]]> ∅)).

Definition example_lol : gmap string (list (list (option R))) :=
  <["ACGT" := [[Some 2; None]; [Some 9; Some 9]]]>
    (<["TTTT" := [[Some 1; None]; [Some 3; Some 3]]]> (<["GGGG" := [[]; []]]> ∅)).

Definition example_IA : @IntensityArray.t example_numpy :=
  {| IntensityArray.course_trait_name := "concentration_pM";
     IntensityArray.course_trait_list := [1; 1000];
     IntensityArray.course_len := 2;
     IntensityArray.target := "ACGT";
     IntensityArray.neg_control_target := "TTTT";
     IntensityArray.seqs := ["ACGT"; "TTTT"; "GGGG"];
     IntensityArray.nseqs := 3;
     IntensityArray.intensity_loarr_given_seq := example_pools;
     IntensityArray.intensity_lol_given_seq := example_lol;
     IntensityArray.modes_given_seq := λ seq,
       pools ← py_getitem example_pools seq; Ok (map most_frequent pools);
     IntensityArray.stdevs_given_seq := λ seq,
       pools ← py_getitem example_pools seq; Ok (map np_std pools);
     IntensityArray.medians_given_seq := λ seq,
       pools ← py_getitem example_pools seq; Ok (map (hd 0) pools);
     IntensityArray.all_trait_and_inten_vals_given_seq := λ seq max_clust,
       pools ← py_getitem example_pools seq;
       Ok (concat (zip_with (λ conc pool, map (λ _, conc) pool) [1; 1000] pools),
           concat pools);
     IntensityArray.all_normalized_trait_and_inten_vals_given_seq :=
       λ seq Imin Imax max_clust bootstrap,
         lift (pools ← py_getitem example_pools seq;
               Ok (concat (zip_with (λ conc pool, map (λ _, conc) pool) [1; 1000] pools),
                   concat pools)) |}.

Definition example_self : @KdFitIA.t example_numpy :=
  {| KdFitIA.IA := example_IA;
     KdFitIA.concentrations := [1; 1000];
     KdFitIA.nM_concentrations := [1 / 1000; 1000 / 1000];
     KdFitIA.target := "ACGT";
     KdFitIA.neg_control_target := "TTTT";
     KdFitIA.max_clust := 2000;
     KdFitIA.Imin_names := ["Imin_const"];
     KdFitIA.Imax_names := ["Imax_adjusted"] |}.

(** The baseline attributes of the example. *)
Definition example_imin : KdFitIA.Imin_attrs :=
  {| KdFitIA.Imin_neg_cont := [1; 3];
     KdFitIA.Imin_const := 1;
     KdFitIA.Imin_given_conc := [(1, 1); (1000, 3)];
     KdFitIA.Imin_stdev := map np_std [[1]; [3; 3]];
     KdFitIA.Imin_stdev_given_conc := zip [1; 1000] (map np_std [[1]; [3; 3]]) |}.

(** Nuisance parameters for the example, as [fit_Imax_ML] would store them. *)
Definition example_ml : KdFitIA.ML_attrs :=
  {| KdFitIA.Imax_ML := <["Imin_const" := [10; 10]]> ∅;
     KdFitIA.sigma_consts := <["Imin_const" := [1; 1]]> ∅;
     KdFitIA.sigma_I := <["Imin_const" := 1]> ∅ |}.

Definition example_imax : KdFitIA.Imax_attrs :=
  {| KdFitIA.Imax_const := 10;
     KdFitIA.Imax_adjusted := [10; 3 + (1 + 1 / 1000) * (9 - 3)];
     KdFitIA.Imax_given_conc := [(1, 10); (1000, 3 + (1 + 1 / 1000) * (9 - 3))] |}.

Definition example_world : @world example_numpy :=
  @Build_world example_numpy 0%nat [].

(** ** The resampled data set

    The reading of the bootstrap in the words of its purpose: the clusters
    [idxs] are drawn once, and at every concentration the resample holds
    the readings of those clusters that are present. *)
Definition resample_clusters (idxs : list nat) (inten_list : list (option R)) : list R :=
  omap (λ idx, mjoin (inten_list !! idx)) idxs.




(** ** Well-formed fields of a result file *)

Fixpoint all_chars (P : ascii → bool) (s : string) : bool :=
  match s with
  | "" => true
  | String c s' => P c && all_chars P s'
  end.

(** A field of a line: not empty and free of whitespace. *)
Definition no_space (s : string) : bool := all_chars (λ c, negb (is_space c)) s.
Definition token (s : string) : bool := negb (is_empty s) && no_space s.

(** A text without a line feed: it stays within one line of a file. *)
Definition no_lf (s : string) : bool := all_chars (λ c, negb (Ascii.eqb c LF)) s.

(** A sequence identifier the format can carry: a field that does not look
    like a comment line. *)
Definition identifier (s : string) : bool := token s && negb (startswith s "#").

(** A float whose [str] is a field that [float] reads back as the same
    value: the float-to-string-to-float round trip. *)
Definition printable `{Builtins} (v : R) : Prop :=
  identifier (py_str v) = true ∧ py_float (py_str v) = Some v.

(** A concentration row and a result row whose fields the format carries. *)
Definition profile_row_ok `{Builtins} (row : R * R * R) : Prop :=
  let '(conc, imin, imax) := row in printable conc ∧ printable imin ∧ printable imax.

Definition result_row_ok `{Builtins} (row : string * R * R * R * R) : Prop :=
  let '(seq, Kd, Kd_err, ABA, ABA_err) := row in
  identifier seq = true
  ∧ printable Kd ∧ printable Kd_err ∧ printable ABA ∧ printable ABA_err.

Definition row_id (row : string * R * R * R * R) : string := row.1.1.1.1.

(** The header of the data block of a result file. *)
Definition results_header : string :=
  join tab ["# Seq"; "Kd (pM)"; "Kd error"; "ABA (kB T)"; "ABA error"].

(** An estimator whose results the example [float] and [str] can carry:
    two concentrations, one strategy pair, two fitted sequences. *)
Definition example_written : @KdFitIA.t example_numpy :=
  {| KdFitIA.IA := example_IA;
     KdFitIA.concentrations := [1; 10];
     KdFitIA.nM_concentrations := [1 / 1000; 10 / 1000];
     KdFitIA.target := "ACGT";
     KdFitIA.neg_control_target := "TTTT";
     KdFitIA.max_clust := 2000;
     KdFitIA.Imin_names := ["Imin_const"];
     KdFitIA.Imax_names := ["Imax_adjusted"] |}.

Definition example_fit_attrs : KdFitIA.fit_attrs :=
  {| KdFitIA.fit_func_given_Imin_max_names :=
       <[("Imin_const", "Imax_adjusted") := KdFitIA.curve_fit_Kd_method]> ∅;
     KdFitIA.Imin_max_pairs_given_names :=
       <[("Imin_const", "Imax_adjusted") := (Scalar 1, PerConc [10; 2.5])]> ∅ |}.

Definition example_written_results : KdFitIA.results :=
  {| KdFitIA.Kds := <[("Imin_const", "Imax_adjusted") := [1; 10]]> ∅;
     KdFitIA.Kd_errors := <[("Imin_const", "Imax_adjusted") := [1; 1]]> ∅;
     KdFitIA.ABAs := <[("Imin_const", "Imax_adjusted") := [2.5; 1]]> ∅;
     KdFitIA.ABA_errors := <[("Imin_const", "Imax_adjusted") := [1; 2.5]]> ∅ |}.

(** Result files for the checks of the reader: one whose header lines
    carry text after the expected beginning, one whose first line is not a
    target line, one with a sequence in two rows. *)
Definition loose_header_file : string :=
  "# Target: ACGT" +:+ nl +:+
  "# Neg Control sample: TTTT" +:+ nl +:+
  "# Concentration" +:+ tab +:+ "Imin" +:+ tab +:+ "Imax" +:+ tab +:+ "notes" +:+ nl +:+
  "1.0" +:+ tab +:+ "2.5" +:+ tab +:+ "10.0" +:+ nl +:+
  "# Sequences" +:+ nl +:+
  "ACGT" +:+ tab +:+ "1.0" +:+ tab +:+ "1.0" +:+ tab +:+ "2.5" +:+ tab +:+ "1.0" +:+ nl +:+
  "TTTT" +:+ tab +:+ "10.0" +:+ tab +:+ "1.0" +:+ tab +:+ "1.0" +:+ tab +:+ "1.0".

Definition wrong_header_file : string :=
  "# Tgt: ACGT" +:+ nl +:+
  "# Neg Control: TTTT" +:+ nl +:+
  "# Concentration" +:+ tab +:+ "Imin" +:+ tab +:+ "Imax" +:+ nl +:+
  "# Seq" +:+ nl +:+
  "ACGT" +:+ tab +:+ "1.0" +:+ tab +:+ "1.0" +:+ tab +:+ "2.5" +:+ tab +:+ "1.0".

Definition duplicate_file : string :=
  "# Target: ACGT" +:+ nl +:+
  "# Neg Control: TTTT" +:+ nl +:+
  "# Concentration" +:+ tab +:+ "Imin" +:+ tab +:+ "Imax" +:+ nl +:+
  "# Seq" +:+ nl +:+
  "ACGT" +:+ tab +:+ "1.0" +:+ tab +:+ "1.0" +:+ tab +:+ "2.5" +:+ tab +:+ "1.0" +:+ nl +:+
  "TTTT" +:+ tab +:+ "10.0" +:+ tab +:+ "1.0" +:+ tab +:+ "1.0" +:+ tab +:+ "1.0" +:+ nl +:+
  "ACGT" +:+ tab +:+ "2.5" +:+ tab +:+ "1.0" +:+ tab +:+ "2.5" +:+ tab +:+ "1.0".

(** The identifiers of the data rows among the lines after the [# Seq]
    header: the first field of every line that is not a comment. *)
Definition data_row_ids (rows : list string) : list string :=
  omap (λ line, if startswith line "#" then None else head (split_ws (strip line))) rows.

(** ** Client programs of the estimator *)

(** A call of one of the two methods that add a strategy. *)
Inductive strategy_call : Type :=
| Add_Imin (Imin_name : string)
| Add_Imax (Imax_name : string).

Definition run_call `{Numpy} (self : KdFitIA.t) (c : strategy_call) : res KdFitIA.t :=
  match c with
  | Add_Imin Imin_name => KdFitIA.add_Imin_type self Imin_name
  | Add_Imax Imax_name => KdFitIA.add_Imax_type self Imax_name
  end.

(** [KdFitIA(IA, max_clust)] followed by a sequence of such calls. *)
Definition configure `{Numpy} (IA : IntensityArray.t) (max_clust : nat)
    (calls : list strategy_call) : res KdFitIA.t :=
  self ← KdFitIA.init IA max_clust;
  py_for run_call calls self.

(** The names the two methods admit. *)
Definition Imin_types : list string := ["Imin_const"; "Imin_neg_cont"].
Definition Imax_types : list string := ["Imax_const"; "Imax_adjusted"; "Imax_ML"].

(** A run of strategy calls on the example array, and the example
    estimator with the likelihood strategy added. *)
Definition example_calls : list strategy_call :=
  [Add_Imax "Imax_ML"; Add_Imin "Imin_neg_cont"; Add_Imax "Imax_ML"].

Definition example_self_ML : @KdFitIA.t example_numpy :=
  {| KdFitIA.IA := example_IA;
     KdFitIA.concentrations := [1; 1000];
     KdFitIA.nM_concentrations := [1 / 1000; 1000 / 1000];
     KdFitIA.target := "ACGT";
     KdFitIA.neg_control_target := "TTTT";
     KdFitIA.max_clust := 2000;
     KdFitIA.Imin_names := ["Imin_const"];
     KdFitIA.Imax_names := ["Imax_adjusted"; "Imax_ML"] |}.

(** ** An optimizer that converges *)

(** A [minimize] that reports success at [x0]. *)
Definition converged_minimize (f : list R → res R) (x0 : list R) : res OptimizeResult.t :=
  match f x0 with
  | Ok _ => Ok {| OptimizeResult.x := x0; OptimizeResult.success := true |}
  | Raise e => Raise e
  end.

Definition converged_scipy : Scipy :=
  {| curve_fit := example_curve_fit; minimize := converged_minimize |}.

(** ** Stages of the reader *)

(** The four dicts before the first data row. *)
Definition empty_table : IAKdData.table :=
  {| IAKdData.t_Kd := ∅; IAKdData.t_Kd_error := ∅;
     IAKdData.t_ABA := ∅; IAKdData.t_ABA_error := ∅ |}.

(** [IAKdData.__init__] has come through the three header lines, the
    concentration lines and the [# Seq] line of [text]: it has read the
    two identifiers and the three lists, and [rows] are the lines that
    the [for] loop is about to visit. *)
Definition reads_header `{Builtins} (text target neg_control : string)
    (concs imns imxs : list R) (rows : list string) : Prop :=
  ∃ l1 l2 l3 l4 f header,
    file_lines text = l1 :: l2 :: l3 :: l4 :: f
    ∧ startswith l1 "# Target:" = true
    ∧ py_index (split_sep ": " (strip l1)) 1 = Ok target
    ∧ startswith l2 "# Neg Control" = true
    ∧ py_index (split_sep ": " (strip l2)) 1 = Ok neg_control
    ∧ startswith l3 IAKdData.concentration_header = true
    ∧ IAKdData.read_profile l4 f ([], [], []) = Ok (header, rows, (concs, imns, imxs))
    ∧ startswith header "# Seq" = true.

(** The test of the [continue] in the loop over the data rows, negated. *)
Definition is_data_row (line : string) : bool := negb (startswith line "#").

(** A file that stops within its concentration lines. *)
Definition truncated_file : string :=
  "# Target: ACGT" +:+ nl +:+
  "# Neg Control: TTTT" +:+ nl +:+
  "# Concentration" +:+ tab +:+ "Imin" +:+ tab +:+ "Imax" +:+ nl +:+
  "1.0" +:+ tab +:+ "2.5" +:+ tab +:+ "10.0" +:+ nl +:+
  "2.5" +:+ tab +:+ "2.5" +:+ tab +:+ "10.0" +:+ nl.

(** A file whose first line has no space after the colon. *)
Definition tight_header_file : string :=
  "# Target:ACGT" +:+ nl +:+
  "# Neg Control: TTTT" +:+ nl +:+
  "# Concentration" +:+ tab +:+ "Imin" +:+ tab +:+ "Imax" +:+ nl +:+
  "# Seq" +:+ nl.

(** The example file with an empty line between its two data rows. *)
Definition blank_row_file : string :=
  "# Target: ACGT" +:+ nl +:+
  "# Neg Control: TTTT" +:+ nl +:+
  "# Concentration" +:+ tab +:+ "Imin" +:+ tab +:+ "Imax" +:+ nl +:+
  "1.0" +:+ tab +:+ "2.5" +:+ tab +:+ "10.0" +:+ nl +:+
  "# Seq" +:+ tab +:+ "Kd (pM)" +:+ nl +:+
  "ACGT" +:+ tab +:+ "1.0" +:+ tab +:+ "1.0" +:+ tab +:+ "2.5" +:+ tab +:+ "1.0" +:+ nl +:+
  nl +:+
  "TTTT" +:+ tab +:+ "10.0" +:+ tab +:+ "1.0" +:+ tab +:+ "1.0" +:+ tab +:+ "1.0".

(** The example file with comment lines among its data rows. *)
Definition commented_file : string :=
  "# Target: ACGT" +:+ nl +:+
  "# Neg Control: TTTT" +:+ nl +:+
  "# Concentration" +:+ tab +:+ "Imin" +:+ tab +:+ "Imax" +:+ nl +:+
  "1.0" +:+ tab +:+ "2.5" +:+ tab +:+ "10.0" +:+ nl +:+
  "# Seq" +:+ tab +:+ "Kd (pM)" +:+ nl +:+
  "# first" +:+ nl +:+
  "ACGT" +:+ tab +:+ "1.0" +:+ tab +:+ "1.0" +:+ tab +:+ "2.5" +:+ tab +:+ "1.0" +:+ nl +:+
  "#ACGT" +:+ tab +:+ "oops" +:+ nl +:+
  "TTTT" +:+ tab +:+ "10.0" +:+ tab +:+ "1.0" +:+ tab +:+ "1.0" +:+ tab +:+ "1.0".

(** The example file without the row of its negative control. *)
Definition no_control_file : string :=
  "# Target: ACGT" +:+ nl +:+
  "# Neg Control: TTTT" +:+ nl +:+
  "# Concentration" +:+ tab +:+ "Imin" +:+ tab +:+ "Imax" +:+ nl +:+
  "1.0" +:+ tab +:+ "2.5" +:+ tab +:+ "10.0" +:+ nl +:+
  "# Seq" +:+ tab +:+ "Kd (pM)" +:+ nl +:+
  "ACGT" +:+ tab +:+ "1.0" +:+ tab +:+ "1.0" +:+ tab +:+ "2.5" +:+ tab +:+ "1.0" +:+ nl.

(** ** The files of [write_results] *)

(** [out_fpath] of [write_results] for a strategy pair. *)
Definition out_fpath (out_dir bname Imin_name Imax_name : string) : string :=
  os_path_join out_dir
    (bname +:+ "_" +:+ replace_char " " "_" Imin_name
           +:+ "_" +:+ replace_char " " "_" Imax_name +:+ "_Kds_and_ABAs.txt").

(** The example estimator with the second baseline strategy added, its
    tables and columns that have no row yet. *)
Definition example_two_calls : list strategy_call := [Add_Imin "Imin_neg_cont"].

Definition example_empty_columns : gmap (string * string) (list R) :=
  <[("Imin_const", "Imax_adjusted") := []]> (<[("Imin_neg_cont", "Imax_adjusted") := []]> ∅).

Definition example_two_results : KdFitIA.results :=
  {| KdFitIA.Kds := example_empty_columns;
     KdFitIA.Kd_errors := example_empty_columns;
     KdFitIA.ABAs := example_empty_columns;
     KdFitIA.ABA_errors := example_empty_columns |}.

(** ** The columns of [fit_all_Kds] *)

(** The columns with which [fit_all_Kds] starts: an empty list under
    every key of [fit_func_given_Imin_max_names]. *)
Definition empty_results (fa : KdFitIA.fit_attrs) : KdFitIA.results :=
  let empty := (λ _ : KdFitIA.fit_func, @nil R) <$> KdFitIA.fit_func_given_Imin_max_names fa in
  {| KdFitIA.Kds := empty; KdFitIA.Kd_errors := empty;
     KdFitIA.ABAs := empty; KdFitIA.ABA_errors := empty |}.

(** The example array without the sequence that has no reading, and its
    estimator. *)
Definition example_IA_read : @IntensityArray.t example_numpy :=
  {| IntensityArray.course_trait_name := IntensityArray.course_trait_name example_IA;
     IntensityArray.course_trait_list := IntensityArray.course_trait_list example_IA;
     IntensityArray.course_len := IntensityArray.course_len example_IA;
     IntensityArray.target := IntensityArray.target example_IA;
     IntensityArray.neg_control_target := IntensityArray.neg_control_target example_IA;
     IntensityArray.seqs := ["ACGT"; "TTTT"];
     IntensityArray.nseqs := 2;
     IntensityArray.intensity_loarr_given_seq :=
       IntensityArray.intensity_loarr_given_seq example_IA;
     IntensityArray.intensity_lol_given_seq :=
       IntensityArray.intensity_lol_given_seq example_IA;
     IntensityArray.modes_given_seq := IntensityArray.modes_given_seq example_IA;
     IntensityArray.stdevs_given_seq := IntensityArray.stdevs_given_seq example_IA;
     IntensityArray.medians_given_seq := IntensityArray.medians_given_seq example_IA;
     IntensityArray.all_trait_and_inten_vals_given_seq :=
       IntensityArray.all_trait_and_inten_vals_given_seq example_IA;
     IntensityArray.all_normalized_trait_and_inten_vals_given_seq :=
       IntensityArray.all_normalized_trait_and_inten_vals_given_seq example_IA |}.

Definition example_self_read : @KdFitIA.t example_numpy :=
  {| KdFitIA.IA := example_IA_read;
     KdFitIA.concentrations := [1; 1000];
     KdFitIA.nM_concentrations := [1 / 1000; 1000 / 1000];
     KdFitIA.target := "ACGT";
     KdFitIA.neg_control_target := "TTTT";
     KdFitIA.max_clust := 2000;
     KdFitIA.Imin_names := ["Imin_const"; "Imin_neg_cont"];
     KdFitIA.Imax_names := ["Imax_adjusted"] |}.

(** * The arithmetic of the module in binary64 *)

(** Python floats and numpy's float64 scalars are IEEE 754 binary64 numbers.
    [float] is that type, and [+], [-], [*], [/], [<?] and [=?] below are
    its operations: each result is the exact one rounded to the nearest
    binary64 number (ties to even), with infinities, signed zeros and NaN.
    The functions of the module whose result is a computed number are
    embedded here a second time, over [float]. *)
Module Binary64.
Local Open Scope float_scope.

(** A decimal literal is the nearest binary64 number, as in Python. *)
#[local] Set Warnings "-inexact-float".

(** [a / b] on two Python floats: a zero divisor, of either sign, raises.
    With a numpy scalar as an operand the division is numpy's, written
    [a / b] below, which returns an infinity or NaN and does not raise. *)
Definition py_truediv (a b : float) : res float :=
  if b =? 0 then Raise ZeroDivisionError else Ok (a / b).

(** [np.log] on a float64.  IEEE 754 does not fix its rounding, so the
    function is the platform's. *)
Class NumpyLog := { np_log : float → float }.

Module KdFitIA.

(** The methods of the intensity array that [find_Imax] calls. *)
Record IntensityArray := {
  all_trait_and_inten_vals_given_seq : string → nat → res (list float * list float);
  medians_given_seq : string → res (list float);
}.

(** [curve_fit(f, xdata, ydata)] for a model [f] of [n] parameters;
    [f x params] is the model at one point of [xdata]. *)
Class Scipy := {
  curve_fit : nat → (float → list float → res float) → list float → list float
              → res (list float);
}.

(** The attributes [find_Imax] reads: those of the constructor and those
    [find_Imin_and_background_noise] has set. *)
Record t := {
  IA : IntensityArray;
  concentrations : list float;
  target : string;
  max_clust : nat;
  Imin_const : float;
  Imin_neg_cont : list float;
}.

(** The attributes [find_Imax] sets. *)
Record Imax_attrs := {
  Imax_const : float;
  Imax_adjusted : list float;
  Imax_given_conc : list (float * float);
}.

(** [theta] of [model_logL] (lines 114-115), on a concentration [x] and
    [float(Kd)], both Python floats. *)
Definition theta (x Kd : float) : res float :=
  q ← py_truediv Kd x;
  py_truediv 1 (1 + q).

(** [Iobs] of [find_Imax] (lines 68-69) as the loop calls it: [x] is a
    concentration, a Python float, so [float(Kd) / x] raises for a zero
    [x]; [Imax] is an entry of [popt], a numpy scalar, so the outer
    division is numpy's. *)
Definition Iobs (Imin_const x Kd Imax : float) : res float :=
  q ← py_truediv Kd x;
  Ok ((Imax - Imin_const) / (1 + q) + Imin_const).

(** [Iobs] as [curve_fit] calls it, on the array of the concentrations (the
    arithmetic is numpy's at every point) and the parameters it fits. *)
Definition Iobs_model (Imin_const x : float) (params : list float) : res float :=
  match params with
  | [Kd; Imax] => Ok ((Imax - Imin_const) / (1 + Kd / x) + Imin_const)
  | _ => Raise (TypeError "Iobs() takes 3 positional arguments")
  end.

(** The body of the loop of [find_Imax] (lines 81-87) over one
    [(conc, Imin, med)] of the zip; [perfect_Kd] is a numpy scalar. *)
Definition Imax_adjusted_entry (Imin_const perfect_Kd Imax_const : float)
    (cim : float * float * float) : res float :=
  let '(conc, Imin, med) := cim in
  fit_Iobs ← Iobs Imin_const conc perfect_Kd Imax_const;
  if fit_Iobs <? 0.90 * Imax_const then Ok Imax_const
  else Ok (Imin + (1 + perfect_Kd / conc) * (med - Imin)).

(** [find_Imax()] (lines 63-90): with the default [ML_seqs=None] the last
    statement, [if ML_seqs: self.fit_Imax_ML(ML_seqs)], does nothing. *)
Definition find_Imax `{Scipy} (self : t) : res Imax_attrs :=
  '(all_concentrations, all_intensities) ←
     all_trait_and_inten_vals_given_seq (IA self) (target self) (max_clust self);
  popt ← curve_fit 2 (Iobs_model (Imin_const self)) all_concentrations all_intensities;
  match popt with
  | [perfect_Kd; Imax_const] =>
      perfect_medians ← medians_given_seq (IA self) (target self);
      Imax_adjusted ←
        py_comprehension (Imax_adjusted_entry (Imin_const self) perfect_Kd Imax_const)
          (zip (zip (concentrations self) (Imin_neg_cont self)) perfect_medians);
      Ok {| Imax_const := Imax_const;
            Imax_adjusted := Imax_adjusted;
            Imax_given_conc := zip (concentrations self) Imax_adjusted |}
  | _ => Raise ValueError
  end.

(** [ABA] of [fit_all_Kds] (lines 268-269). *)
Definition ABA `{NumpyLog} (Kd neg_cont_Kd : float) : float :=
  np_log neg_cont_Kd - np_log Kd.

End KdFitIA.

Module IAKdData.

(** The attributes the last statements of [__init__] set. *)
Record t := {
  neg_control_Kd : float;
  log_neg_control_Kd : float;
  target_ABA : float;
}.

(** The last three statements of [__init__] (lines 524-526), on the
    dictionaries [self.Kd] and [self.ABA] the rows of the file have filled
    (the reading of the file is [IAKdData.init]). *)
Definition init_reference `{NumpyLog} (Kd ABA : gmap string float)
    (target neg_control_target : string) : res t :=
  neg_control_Kd ← py_getitem Kd neg_control_target;
  target_ABA ← py_getitem ABA target;
  Ok {| neg_control_Kd := neg_control_Kd;
        log_neg_control_Kd := np_log neg_control_Kd;
        target_ABA := target_ABA |}.

(** [ABA_given_Kd] (lines 528-531). *)
Definition ABA_given_Kd `{NumpyLog} (self : t) (Kd : option float) : option float :=
  match Kd with
  | None => None
  | Some Kd => Some (log_neg_control_Kd self - np_log Kd)
  end.

End IAKdData.

(** ** An example

    A reference sequence measured at the concentrations 1 and 1000, with
    negative-control modes 1 and 3 and medians 2 and 9; the joint fit
    returns the Kd 1 and the asymptote 10. *)

Definition example_IA : KdFitIA.IntensityArray :=
  {| KdFitIA.all_trait_and_inten_vals_given_seq := λ _ _, Ok ([1; 1000], [2; 9]);
     KdFitIA.medians_given_seq := λ _, Ok [2; 9] |}.

Definition example_scipy : KdFitIA.Scipy :=
  {| KdFitIA.curve_fit := λ _ _ _ _, Ok [1; 10] |}.

Definition example_self : KdFitIA.t :=
  {| KdFitIA.IA := example_IA;
     KdFitIA.concentrations := [1; 1000];
     KdFitIA.target := "ACGT";
     KdFitIA.max_clust := 2000;
     KdFitIA.Imin_const := 1;
     KdFitIA.Imin_neg_cont := [1; 3] |}.

(** The logarithm rounded to binary64 at the arguments 1, 1 + 2^-52 and
    1000; the table has no other entry. *)
Definition example_log (x : float) : float :=
  if x =? 1 then 0
  else if x =? 0x1.0000000000001p+0 then 0x1.fffffffffffffp-53
  else if x =? 1000 then 0x1.ba18a998fffa0p+2
  else nan.

Definition example_numpy_log : NumpyLog := {| np_log := example_log |}.

(** The Kd and ABA columns of a result file with the rows [ACGT] and
    [TTTT]. *)
Definition example_Kd : gmap string float := <["ACGT" := 1]> (<["TTTT" := 1000]> ∅).
Definition example_ABA : gmap string float :=
  <["ACGT" := 0x1.ba18a998fffa0p+2]> (<["TTTT" := 0]> ∅).

End Binary64.

(** ** A failing run *)


(** ** A result file without the negative control *)

(** An estimator whose array lists the target alone, and the columns of
    its one fitted sequence. *)
Definition example_IA_target_only : @IntensityArray.t example_numpy :=
  {| IntensityArray.course_trait_name := IntensityArray.course_trait_name example_IA;
     IntensityArray.course_trait_list := IntensityArray.course_trait_list example_IA;
     IntensityArray.course_len := IntensityArray.course_len example_IA;
     IntensityArray.target := IntensityArray.target example_IA;
     IntensityArray.neg_control_target := IntensityArray.neg_control_target example_IA;
     IntensityArray.seqs := ["ACGT"];
     IntensityArray.nseqs := 1;
     IntensityArray.intensity_loarr_given_seq :=
       IntensityArray.intensity_loarr_given_seq example_IA;
     IntensityArray.intensity_lol_given_seq :=
       IntensityArray.intensity_lol_given_seq example_IA;
     IntensityArray.modes_given_seq := IntensityArray.modes_given_seq example_IA;
     IntensityArray.stdevs_given_seq := IntensityArray.stdevs_given_seq example_IA;
     IntensityArray.medians_given_seq := IntensityArray.medians_given_seq example_IA;
     IntensityArray.all_trait_and_inten_vals_given_seq :=
       IntensityArray.all_trait_and_inten_vals_given_seq example_IA;
     IntensityArray.all_normalized_trait_and_inten_vals_given_seq :=
       IntensityArray.all_normalized_trait_and_inten_vals_given_seq example_IA |}.

Definition example_written_target_only : @KdFitIA.t example_numpy :=
  {| KdFitIA.IA := example_IA_target_only;
     KdFitIA.concentrations := [1; 10];
     KdFitIA.nM_concentrations := [1 / 1000; 10 / 1000];
     KdFitIA.target := "ACGT";
     KdFitIA.neg_control_target := "TTTT";
     KdFitIA.max_clust := 2000;
     KdFitIA.Imin_names := ["Imin_const"];
     KdFitIA.Imax_names := ["Imax_adjusted"] |}.

Definition example_target_only_results : KdFitIA.results :=
  {| KdFitIA.Kds := <[("Imin_const", "Imax_adjusted") := [1]]> ∅;
     KdFitIA.Kd_errors := <[("Imin_const", "Imax_adjusted") := [1]]> ∅;
     KdFitIA.ABAs := <[("Imin_const", "Imax_adjusted") := [2.5]]> ∅;
     KdFitIA.ABA_errors := <[("Imin_const", "Imax_adjusted") := [1]]> ∅ |}.

(** The file [write_results] writes for them. *)
Definition target_only_file : string :=
  "# Target: ACGT" +:+ nl +:+
  "# Neg Control: TTTT" +:+ nl +:+
  "# Concentration" +:+ tab +:+ "Imin" +:+ tab +:+ "Imax" +:+ nl +:+
  "1.0" +:+ tab +:+ "1.0" +:+ tab +:+ "10.0" +:+ nl +:+
  "10.0" +:+ tab +:+ "1.0" +:+ tab +:+ "2.5" +:+ nl +:+
  "# Seq" +:+ tab +:+ "Kd (pM)" +:+ tab +:+ "Kd error" +:+ tab +:+ "ABA (kB T)"
    +:+ tab +:+ "ABA error" +:+ nl +:+
  "ACGT" +:+ tab +:+ "1.0" +:+ tab +:+ "1.0" +:+ tab +:+ "2.5" +:+ tab +:+ "1.0".

(** * Properties *)

(** Inversion of a successful run of [res] binds, one step per bind. *)
Ltac bind_inv H :=
  unfold mbind, res_mbind, res_bind in H;
  repeat (simpl in H;
          match type of H with
          | match ?m with Ok _ => _ | Raise _ => _ end = Ok _ =>
              let E := fresh "E" in destruct m eqn:E; [|discriminate H]
          | match ?p with (_, _) => _ end = Ok _ => destruct p
          | match ?l with [] => _ | _ :: _ => _ end = Ok _ =>
              destruct l; try discriminate H
          end).

(** ** The string functions on literals

    Each line is what the Python expression of the same shape evaluates to. *)

Example split_on_whitespace :
  split_ws (" ab" +:+ tab +:+ "c  d" +:+ nl) = ["ab"; "c"; "d"].
Proof. reflexivity. Qed.

Example split_blank_line : split_ws ("  " +:+ tab +:+ nl) = [].
Proof. reflexivity. Qed.

Example split_on_separator :
  split_sep ": " "# Target: AC: GT: " = ["# Target"; "AC"; "GT"; ""].
Proof. reflexivity. Qed.

Example split_without_separator : split_sep ": " "# Target:" = ["# Target:"].
Proof. reflexivity. Qed.

Example strip_both_ends : strip ("  a b " +:+ nl) = "a b".
Proof. reflexivity. Qed.

Example lines_of_text :
  file_lines ("a" +:+ nl +:+ nl +:+ "b") = ["a" +:+ nl; nl; "b"].
Proof. reflexivity. Qed.

Example lines_of_terminated_text :
  file_lines ("a" +:+ nl +:+ "b" +:+ nl) = ["a" +:+ nl; "b" +:+ nl].
Proof. reflexivity. Qed.

Example format_fills_fields :
  str_format "{}_{}_Kds.txt" ["run"; "Imin_const"] = Ok "run_Imin_const_Kds.txt".
Proof. reflexivity. Qed.

Example path_join : os_path_join "out" "run.txt" = "out/run.txt".
Proof. reflexivity. Qed.

Example read_example_file :
  ∃ d, @IAKdData.init example_builtins example_file = Ok d
       ∧ IAKdData.Kd d !! "TTTT" = Some 10%R
       ∧ IAKdData.concentrations d = [1%R]
       ∧ IAKdData.target d = "ACGT".
Proof. eexists. split; [vm_compute; reflexivity|]. vm_compute. repeat split. Qed.

(** ** Divisions over the reals *)

Section BindingFraction.
Open Scope R_scope.

Lemma py_div_ok (a b : R) : b ≠ 0 → py_div a b = Ok (a / b).
Proof. intros Hb. unfold py_div. destruct (Req_dec_T b 0); [contradiction | reflexivity]. Qed.

Lemma ratio_pos (x Kd : R) : 0 < x → 0 < Kd → 0 < Kd / x.
Proof. intros Hx HKd. apply Rdiv_lt_0_compat; assumption. Qed.

(** For a positive concentration and a positive Kd no division fails. *)
Lemma theta_ok (x Kd : R) :
  0 < x → 0 < Kd → KdFitIA.theta x Kd = Ok (1 / (1 + Kd / x)).
Proof.
  intros Hx HKd. unfold KdFitIA.theta.
  rewrite py_div_ok by lra. simpl.
  apply py_div_ok. pose proof (ratio_pos x Kd Hx HKd). lra.
Qed.

Lemma example_minimize_starts_at_x0 : @minimize_starts_at_x0 example_scipy.
Proof.
  intros f x0 e Hf. simpl. unfold example_minimize. rewrite Hf. reflexivity.
Qed.

End BindingFraction.

(** ** Binary64 arithmetic *)

#[local] Set Warnings "-inexact-float".

Section Binary64Arithmetic.
Local Open Scope float_scope.

Lemma div_eucl_shiftl (m : positive) (n : Z) :
  (0 ≤ n)%Z → Z.div_eucl (Z.shiftl (Zpos m) n) (Zpos m) = (2 ^ n, 0)%Z.
Proof.
  intros Hn.
  assert (Hdm : Z.div_eucl (Z.shiftl (Zpos m) n) (Zpos m)
                = (Z.shiftl (Zpos m) n / Zpos m, Z.shiftl (Zpos m) n mod Zpos m)%Z).
  { unfold Z.div, Z.modulo. destruct (Z.div_eucl _ _); reflexivity. }
  rewrite Hdm, Z.shiftl_mul_pow2 by assumption.
  rewrite (Z.mul_comm (Zpos m)), Z.div_mul, Z.mod_mul by lia. reflexivity.
Qed.

(** The quotient of a finite non-zero number by itself: the division
    algorithm shifts the mantissa by 53 bits, the quotient is 2^53 with
    remainder 0, and rounding is exact. *)
Lemma SF64div_diag (s : bool) (m : positive) (e : Z) :
  SF64div (S754_finite s m e) (S754_finite s m e) = Prim2SF 1.
Proof.
  unfold SF64div, SFdiv, SFdiv_core_binary.
  rewrite !Z.sub_diag.
  change (Z.min (fexp prec emax 0) 0)%Z with (-53)%Z.
  change (0 - -53)%Z with 53%Z. cbv iota beta.
  rewrite div_eucl_shiftl by lia.
  replace (new_location (Z.pos m) 0) with loc_Exact
    by (unfold new_location, new_location_even, new_location_odd;
        destruct (Z.even _); reflexivity).
  destruct s; reflexivity.
Qed.

(** The difference of a finite number and itself is [+0]. *)
Lemma SF64sub_diag (x : spec_float) :
  (∀ s, x ≠ S754_infinity s) → x ≠ S754_nan →
  SF64sub x x = S754_zero false.
Proof.
  intros Hinf Hnan. destruct x as [s|s| |s m e].
  - destruct s; reflexivity.
  - destruct (Hinf s eq_refl).
  - destruct (Hnan eq_refl).
  - unfold SF64sub, SFsub. rewrite Z.min_id. unfold shl_align.
    rewrite Z.sub_diag. reflexivity.
Qed.

Lemma is_nan_spec (x : float) : is_nan x = true ↔ Prim2SF x = S754_nan.
Proof.
  unfold is_nan. rewrite FloatAxioms.eqb_spec. unfold SFeqb, SFcompare.
  destruct (Prim2SF x) as [s|s|  |s m e]; try destruct s; cbn;
    rewrite ?Z.compare_refl, ?Pos.compare_cont_refl; cbn; split; congruence.
Qed.

Lemma is_zero_spec (x : float) : (x =? 0) = true ↔ ∃ s, Prim2SF x = S754_zero s.
Proof.
  rewrite FloatAxioms.eqb_spec. change (Prim2SF 0) with (S754_zero false).
  unfold SFeqb, SFcompare.
  destruct (Prim2SF x) as [s|s|  |s m e]; try destruct s; cbn; split;
    try congruence; try (intros [? ?]; congruence); eauto.
Qed.

Lemma is_infinity_spec (x : float) :
  is_infinity x = true ↔ ∃ s, Prim2SF x = S754_infinity s.
Proof.
  unfold is_infinity. rewrite FloatAxioms.eqb_spec, abs_spec.
  change (Prim2SF infinity) with (S754_infinity false).
  unfold SFeqb, SFcompare, SFabs.
  destruct (Prim2SF x) as [s|s|  |s m e]; try destruct s; cbn; split;
    try congruence; try (intros [? ?]; congruence); eauto.
Qed.

Lemma is_finite_spec (x : float) :
  is_finite x = true → (∀ s, Prim2SF x ≠ S754_infinity s) ∧ Prim2SF x ≠ S754_nan.
Proof.
  unfold is_finite. intros Hf.
  apply negb_true_iff, orb_false_iff in Hf. destruct Hf as [Hn Hi].
  split.
  - intros s E. assert (is_infinity x = true) by (apply is_infinity_spec; eauto).
    congruence.
  - intros E. assert (is_nan x = true) by (apply is_nan_spec; assumption).
    congruence.
Qed.

Lemma div_diag (x : float) :
  is_finite x = true → (x =? 0) = false → x / x = 1.
Proof.
  intros Hf Hz. destruct (is_finite_spec x Hf) as [Hinf Hnan].
  apply Prim2SF_inj. rewrite div_spec.
  destruct (Prim2SF x) as [s|s| |s m e] eqn:E.
  - assert ((x =? 0) = true) by (apply is_zero_spec; eauto). congruence.
  - destruct (Hinf s eq_refl).
  - destruct (Hnan eq_refl).
  - apply SF64div_diag.
Qed.

Lemma sub_diag (x : float) : is_finite x = true → x - x = 0.
Proof.
  intros Hf. destruct (is_finite_spec x Hf) as [Hinf Hnan].
  apply Prim2SF_inj. rewrite sub_spec. apply SF64sub_diag; assumption.
Qed.

Lemma sub_nan_l (x y : float) : is_nan x = true → is_nan (x - y) = true.
Proof.
  intros Hx. apply is_nan_spec in Hx. apply is_nan_spec.
  rewrite sub_spec, Hx. reflexivity.
Qed.

End Binary64Arithmetic.

(** ** The binding fraction *)

(** C1 (as amended). In binary64, [theta(Kd, Kd)] is exactly 0.5 for every
    finite non-zero [Kd], so for every finite [Kd > 0]: the quotient
    [Kd / Kd] is exactly 1, and [1.0 / (1.0 + 1.0)] is 0.5. *)
Theorem theta_half_at_Kd (Kd : float)
    (Hfinite : is_finite Kd = true) (Hnonzero : (Kd =? 0)%float = false) :
  Binary64.KdFitIA.theta Kd Kd = Ok 0.5%float.
Proof.
  unfold Binary64.KdFitIA.theta, Binary64.py_truediv.
  rewrite Hnonzero. cbn [mbind res_mbind res_bind].
  rewrite div_diag by assumption. reflexivity.
Qed.

Lemma theta_half_at_Kd_witness : Binary64.KdFitIA.theta 5 5 = Ok 0.5%float.
Proof. apply theta_half_at_Kd; reflexivity. Defined.

(** C1, the claim as stated fails in binary64: for [Kd = 1.0] the computed
    [theta] is exactly 1.0 at the two concentrations 1e17 < 2e17 (the
    quotient [Kd / x] is below 2^-53 and [1.0 + Kd / x] rounds to 1.0), so
    it is neither below 1 nor strictly increasing; and it is exactly 0.0 at
    [x = 2^-600], [Kd = 2^600], where [Kd / x] overflows to infinity. *)
Lemma theta_saturates :
  Binary64.KdFitIA.theta 1e17 1 = Ok 1%float
  ∧ Binary64.KdFitIA.theta 2e17 1 = Ok 1%float
  ∧ (1e17 <? 2e17)%float = true
  ∧ Binary64.KdFitIA.theta 0x1p-600 0x1p+600 = Ok 0%float.
Proof. vm_compute. auto. Qed.

(** ** ABA *)

(** C2 (as amended). For the attributes the end of [IAKdData.__init__] sets
    from the Kd column: [ABA_given_Kd] returns the binary64 difference
    [np.log(neg_control_Kd) - np.log(Kd)], which is what [ABA] of
    [fit_all_Kds] returns on the same two numbers, and [None] for [None];
    it is 0.0 at the negative control's own Kd when the logarithm of that
    Kd is finite, and NaN at every Kd when that logarithm is NaN. *)
Theorem ABA_is_log_difference `{Binary64.NumpyLog} (Kd ABA : gmap string float)
    (target neg_control_target : string) (d : Binary64.IAKdData.t)
    (Hinit : Binary64.IAKdData.init_reference Kd ABA target neg_control_target = Ok d) :
  let neg_control_Kd := Binary64.IAKdData.neg_control_Kd d in
  Kd !! neg_control_target = Some neg_control_Kd
  ∧ (∀ k, Binary64.IAKdData.ABA_given_Kd d (Some k)
          = Some (Binary64.KdFitIA.ABA k neg_control_Kd))
  ∧ Binary64.IAKdData.ABA_given_Kd d None = None
  ∧ (is_finite (Binary64.np_log neg_control_Kd) = true →
     Binary64.IAKdData.ABA_given_Kd d (Some neg_control_Kd) = Some 0%float
     ∧ Binary64.KdFitIA.ABA neg_control_Kd neg_control_Kd = 0%float)
  ∧ (is_nan (Binary64.np_log neg_control_Kd) = true →
     ∀ k, is_nan (Binary64.KdFitIA.ABA k neg_control_Kd) = true).
Proof.
  unfold Binary64.IAKdData.init_reference, py_getitem in Hinit.
  destruct (Kd !! neg_control_target) as [nk|] eqn:Hk; [|discriminate Hinit].
  destruct (ABA !! target) as [ta|]; [|discriminate Hinit].
  injection Hinit as <-. cbn zeta.
  unfold Binary64.IAKdData.ABA_given_Kd, Binary64.KdFitIA.ABA. cbn.
  split; [reflexivity|]. split; [reflexivity|]. split; [reflexivity|]. split.
  - intros Hfinite. rewrite sub_diag by assumption. split; reflexivity.
  - intros Hnan k. apply sub_nan_l. assumption.
Qed.

Lemma ABA_is_log_difference_witness :
  ∃ d, @Binary64.IAKdData.init_reference Binary64.example_numpy_log
         Binary64.example_Kd Binary64.example_ABA "ACGT" "TTTT" = Ok d
       ∧ @Binary64.IAKdData.ABA_given_Kd Binary64.example_numpy_log d (Some 1%float)
         = Some (@Binary64.KdFitIA.ABA Binary64.example_numpy_log 1 1000)
       ∧ @Binary64.KdFitIA.ABA Binary64.example_numpy_log 1000 1000 = 0%float.
Proof.
  eexists. split; [reflexivity|].
  destruct (@ABA_is_log_difference Binary64.example_numpy_log
              Binary64.example_Kd Binary64.example_ABA "ACGT" "TTTT" _ eq_refl)
    as (_ & Hk & _ & Hzero & _).
  split; [apply Hk | apply Hzero; reflexivity].
Defined.

(** C2, the claim as stated fails in binary64: ABA is not strictly
    decreasing in Kd.  With a negative-control Kd of 1000, whose logarithm
    is about 6.9, the Kd's 1 and 1 + 2^-52 have the logarithms 0 and
    2^-52 - 2^-105, and both differences round to the same number. *)
Lemma ABA_not_strictly_decreasing :
  (1 <? 0x1.0000000000001p+0)%float = true
  ∧ @Binary64.KdFitIA.ABA Binary64.example_numpy_log 1 1000
    = @Binary64.KdFitIA.ABA Binary64.example_numpy_log 0x1.0000000000001p+0 1000.
Proof. vm_compute. auto. Qed.

(** ** The baseline *)

(** Case analysis on the comparisons of reals an evaluation runs into. *)
Ltac R_cases :=
  repeat match goal with
  | |- context [Req_dec_T ?a ?b] => destruct (Req_dec_T a b); [try lra | try lra]
  | |- context [Rlt_dec ?a ?b] => destruct (Rlt_dec a b); [try lra | try lra]
  end.

Section Baseline.
Context `{Numpy}.

(** Without a first concentration there is no [Imin_const]. *)
Lemma find_Imin_no_concentration (self : KdFitIA.t) :
  IntensityArray.modes_given_seq (KdFitIA.IA self) (KdFitIA.neg_control_target self) = Ok [] →
  KdFitIA.find_Imin_and_background_noise self = Raise IndexError.
Proof. intros Hm. unfold KdFitIA.find_Imin_and_background_noise. rewrite Hm. reflexivity. Qed.

End Baseline.

(** C5 (as amended). [find_Imin_and_background_noise] sets [Imin_const] to
    the first entry of [Imin_neg_cont]: when the array's per-concentration
    modes of the negative control are the modes [mode pool] of its pools,
    [Imin_const] is the mode of the first concentration's pool alone, and
    [Imin_neg_cont] holds the per-concentration modes. *)
Theorem Imin_const_is_first_mode `{Numpy} (self : KdFitIA.t) (mode : list R → R)
    (pool : list R) (pools : list (list R)) (stdevs : list R)
    (Hmodes : IntensityArray.modes_given_seq (KdFitIA.IA self)
                (KdFitIA.neg_control_target self) = Ok (map mode (pool :: pools)))
    (Hstdevs : IntensityArray.stdevs_given_seq (KdFitIA.IA self)
                 (KdFitIA.neg_control_target self) = Ok stdevs) :
  ∃ imin, KdFitIA.find_Imin_and_background_noise self = Ok imin
          ∧ KdFitIA.Imin_const imin = mode pool
          ∧ KdFitIA.Imin_neg_cont imin = map mode (pool :: pools)
          ∧ KdFitIA.Imin_stdev imin = stdevs.
Proof.
  unfold KdFitIA.find_Imin_and_background_noise. rewrite Hmodes, Hstdevs. simpl.
  eexists. split; [reflexivity|]. simpl. auto.
Qed.

Lemma most_frequent_examples :
  most_frequent [1%R] = 1%R ∧ most_frequent [3%R; 3%R] = 3%R
  ∧ most_frequent [1%R; 3%R; 3%R] = 3%R.
Proof.
  assert (C1 : count_occ Req_dec_T [1%R; 3%R; 3%R] 1%R = 1%nat)
    by (simpl; R_cases; reflexivity).
  assert (C3 : count_occ Req_dec_T [1%R; 3%R; 3%R] 3%R = 2%nat)
    by (simpl; R_cases; reflexivity).
  assert (D3 : count_occ Req_dec_T [3%R; 3%R] 3%R = 2%nat)
    by (simpl; R_cases; reflexivity).
  assert (S1 : count_occ Req_dec_T [1%R] 1%R = 1%nat)
    by (simpl; R_cases; reflexivity).
  unfold most_frequent. cbn [foldr hd].
  repeat (rewrite ?C1, ?C3, ?D3, ?S1; cbn [Nat.leb]).
  auto.
Qed.

Lemma example_self_init : KdFitIA.init example_IA 2000 = Ok example_self.
Proof. reflexivity. Qed.

Lemma Imin_const_is_first_mode_witness :
  ∃ imin, KdFitIA.find_Imin_and_background_noise example_self = Ok imin
          ∧ KdFitIA.Imin_const imin = most_frequent [1%R].
Proof.
  destruct (@Imin_const_is_first_mode example_numpy example_self most_frequent
              [1%R] [[3%R; 3%R]] (map np_std [[1%R]; [3%R; 3%R]]) eq_refl eq_refl)
    as (imin & Hrun & Hconst & _).
  exists imin. split; assumption.
Defined.

(** C5, the claim as stated fails: with negative-control pools [[1]] and
    [[3; 3]] the mode of the pooled readings is 3, while [Imin_const] is 1,
    the mode at the first concentration. *)
Lemma Imin_const_not_pooled_mode :
  ∃ imin, KdFitIA.find_Imin_and_background_noise example_self = Ok imin
          ∧ KdFitIA.Imin_neg_cont imin = [1%R; 3%R]
          ∧ KdFitIA.Imin_const imin = 1%R
          ∧ most_frequent (concat [[1%R]; [3%R; 3%R]]) = 3%R.
Proof.
  destruct most_frequent_examples as (M1 & M2 & M3).
  eexists. split; [reflexivity|]. simpl. rewrite M1, M2, M3. auto.
Qed.

Section Comprehensions.

Lemma comprehension_lookup {A B : Type} (f : A → res B) (l : list A) (out : list B) :
  py_comprehension f l = Ok out →
  length out = length l ∧ ∀ i a, l !! i = Some a → ∃ b, f a = Ok b ∧ out !! i = Some b.
Proof.
  revert out. induction l as [|a l IH]; intros out Hrun; simpl in Hrun.
  - injection Hrun as <-. split; [reflexivity|]. intros i a Hi. discriminate.
  - bind_inv Hrun. injection Hrun as <-.
    destruct (IH _ eq_refl) as [Hlen Hget].
    split; [simpl; congruence|].
    intros [|i] a' Hi; simpl in Hi.
    + injection Hi as <-. eauto.
    + apply Hget. assumption.
Qed.

Lemma comprehension_total {A B : Type} (f : A → res B) (g : A → B) (l : list A) :
  Forall (λ a, f a = Ok (g a)) l → py_comprehension f l = Ok (map g l).
Proof.
  induction 1 as [|a l Ha _ IH]; simpl; [reflexivity|].
  rewrite Ha. simpl. rewrite IH. reflexivity.
Qed.

End Comprehensions.

(** ** The saturation profile *)

Section Saturation.
Context `{Binary64.KdFitIA.Scipy}.
Local Open Scope float_scope.
#[local] Set Warnings "-inexact-float".
Import Binary64.KdFitIA.

Lemma Imax_adjusted_entry_spec (Imin_const Kd Imax_c conc Imin med : float) :
  (conc =? 0) = false →
  Imax_adjusted_entry Imin_const Kd Imax_c (conc, Imin, med)
  = Ok (if (Imax_c - Imin_const) / (1 + Kd / conc) + Imin_const <? 0.90 * Imax_c
        then Imax_c
        else Imin + (1 + Kd / conc) * (med - Imin)).
Proof.
  intros Hc. unfold Imax_adjusted_entry, Iobs, Binary64.py_truediv. rewrite Hc.
  cbn [mbind res_mbind res_bind]. destruct (_ <? _); reflexivity.
Qed.

Lemma Imax_adjusted_entry_zero (Imin_const Kd Imax_c conc Imin med : float) :
  (conc =? 0) = true →
  Imax_adjusted_entry Imin_const Kd Imax_c (conc, Imin, med) = Raise ZeroDivisionError.
Proof.
  intros Hc. unfold Imax_adjusted_entry, Iobs, Binary64.py_truediv. rewrite Hc.
  reflexivity.
Qed.

Lemma Imax_adjusted_entry_cases (Imin_const Kd Imax_c : float) (cim : float * float * float) :
  (∃ v, Imax_adjusted_entry Imin_const Kd Imax_c cim = Ok v)
  ∨ Imax_adjusted_entry Imin_const Kd Imax_c cim = Raise ZeroDivisionError.
Proof.
  destruct cim as [[conc Imin] med]. destruct (conc =? 0) eqn:Hc.
  - right. apply Imax_adjusted_entry_zero. assumption.
  - left. rewrite Imax_adjusted_entry_spec by assumption. eauto.
Qed.

Lemma comprehension_first_raise {A B : Type} (f : A → res B) (l : list A) (e : exn) :
  (∀ a, (∃ b, f a = Ok b) ∨ f a = Raise e) →
  (∃ a, a ∈ l ∧ f a = Raise e) →
  py_comprehension f l = Raise e.
Proof.
  intros Hcases (a & Hin & Ha).
  induction l as [|a' l IH]; [inversion Hin|].
  simpl. destruct (Hcases a') as [[b Hb]|Hr].
  - rewrite Hb. cbn [mbind res_mbind res_bind].
    rewrite IH; [reflexivity|].
    apply elem_of_cons in Hin. destruct Hin as [->|Hin]; [congruence|assumption].
  - rewrite Hr. reflexivity.
Qed.

End Saturation.

(** C4 (as amended). [find_Imax] in binary64, when the array and the joint
    fit return and no concentration is zero: [Imax_const] is the fitted
    asymptote, and the entry of [Imax_adjusted] at a concentration is
    [Imax_const] itself when the predicted intensity
    [(Imax_const - Imin_const) / (1.0 + Kd / conc) + Imin_const] compares
    below [0.90 * Imax_const], and otherwise (also when the comparison
    involves a NaN) the inversion [Imin + (1 + Kd / conc) * (med - Imin)]
    with the negative-control mode and the median at that concentration.
    A zero concentration in a zipped row makes [find_Imax] raise
    [ZeroDivisionError]. *)
Theorem find_Imax_adjusted_policy `{Binary64.KdFitIA.Scipy} (self : Binary64.KdFitIA.t)
    (xdata ydata medians : list float) (Kd Imax_c : float)
    (Hdata : Binary64.KdFitIA.all_trait_and_inten_vals_given_seq (Binary64.KdFitIA.IA self)
               (Binary64.KdFitIA.target self) (Binary64.KdFitIA.max_clust self)
             = Ok (xdata, ydata))
    (Hfit : Binary64.KdFitIA.curve_fit 2
              (Binary64.KdFitIA.Iobs_model (Binary64.KdFitIA.Imin_const self)) xdata ydata
            = Ok [Kd; Imax_c])
    (Hmedians : Binary64.KdFitIA.medians_given_seq (Binary64.KdFitIA.IA self)
                  (Binary64.KdFitIA.target self) = Ok medians) :
  let rows := zip (zip (Binary64.KdFitIA.concentrations self)
                       (Binary64.KdFitIA.Imin_neg_cont self)) medians in
  let Imin_const := Binary64.KdFitIA.Imin_const self in
  (Forall (λ row, (row.1.1 =? 0)%float = false) rows →
   ∃ imax, Binary64.KdFitIA.find_Imax self = Ok imax
     ∧ Binary64.KdFitIA.Imax_const imax = Imax_c
     ∧ length (Binary64.KdFitIA.Imax_adjusted imax) = length rows
     ∧ ∀ i conc Imin med, rows !! i = Some (conc, Imin, med) →
         let fit_Iobs := ((Imax_c - Imin_const) / (1 + Kd / conc) + Imin_const)%float in
         ((fit_Iobs <? 0.90 * Imax_c)%float = true →
          Binary64.KdFitIA.Imax_adjusted imax !! i = Some Imax_c)
         ∧ ((fit_Iobs <? 0.90 * Imax_c)%float = false →
            Binary64.KdFitIA.Imax_adjusted imax !! i
            = Some (Imin + (1 + Kd / conc) * (med - Imin))%float))
  ∧ (Exists (λ row, (row.1.1 =? 0)%float = true) rows →
     Binary64.KdFitIA.find_Imax self = Raise ZeroDivisionError).
Proof.
  intros rows Imin_const. unfold Binary64.KdFitIA.find_Imax.
  rewrite Hdata. cbn [mbind res_mbind res_bind]. rewrite Hfit.
  cbn [mbind res_mbind res_bind]. rewrite Hmedians. cbn [mbind res_mbind res_bind].
  fold rows. fold Imin_const. split.
  - intros Hnz.
    set (g := λ row : float * float * float,
           let '(conc, Imin, med) := row in
           (if ((Imax_c - Imin_const) / (1 + Kd / conc) + Imin_const <? 0.90 * Imax_c)%float
            then Imax_c else (Imin + (1 + Kd / conc) * (med - Imin))%float)).
    assert (Hrun : py_comprehension
                     (Binary64.KdFitIA.Imax_adjusted_entry Imin_const Kd Imax_c) rows
                   = Ok (map g rows)).
    { apply comprehension_total. eapply Forall_impl; [exact Hnz|].
      intros [[conc Imin] med] Hc. apply Imax_adjusted_entry_spec. exact Hc. }
    rewrite Hrun. cbn [mbind res_mbind res_bind].
    eexists. split; [reflexivity|]. cbn.
    split; [reflexivity|]. split; [apply length_map|].
    intros i conc Imin med Hi. cbn zeta.
    rewrite list_lookup_fmap, Hi. cbn.
    split; intros ->; reflexivity.
  - intros Hz. apply Exists_exists in Hz. destruct Hz as ([[conc Imin] med] & Hin & Hc).
    rewrite (comprehension_first_raise _ rows ZeroDivisionError); [reflexivity| |].
    + intros a. apply Imax_adjusted_entry_cases.
    + exists (conc, Imin, med). split; [assumption|].
      apply Imax_adjusted_entry_zero. exact Hc.
Qed.

Lemma find_Imax_adjusted_policy_witness :
  ∃ imax, @Binary64.KdFitIA.find_Imax Binary64.example_scipy Binary64.example_self = Ok imax
    ∧ Binary64.KdFitIA.Imax_adjusted imax !! 0%nat = Some 10%float
    ∧ Binary64.KdFitIA.Imax_adjusted imax !! 1%nat
      = Some (3 + (1 + 1 / 1000) * (9 - 3))%float.
Proof.
  destruct (@find_Imax_adjusted_policy Binary64.example_scipy Binary64.example_self
              [1; 1000]%float [2; 9]%float [2; 9]%float 1%float 10%float
              eq_refl eq_refl eq_refl) as [Hpolicy _].
  destruct Hpolicy as (imax & Hrun & _ & _ & Hentry).
  { repeat constructor. }
  exists imax. split; [exact Hrun|]. split.
  - apply (Hentry 0%nat 1%float 1%float 2%float eq_refl). reflexivity.
  - apply (Hentry 1%nat 1000%float 3%float 9%float eq_refl). reflexivity.
Defined.

(** C4, the claim as stated fails: at the first concentration of the
    example the predicted intensity is 5.5, below 90% of the asymptote 10,
    and the entry of [Imax_adjusted] is [Imax_const] itself. *)
Lemma Imax_adjusted_low_saturation_is_Imax_const :
  ∃ imax, @Binary64.KdFitIA.find_Imax Binary64.example_scipy Binary64.example_self = Ok imax
    ∧ Binary64.KdFitIA.Iobs 1 1 1 (Binary64.KdFitIA.Imax_const imax) = Ok 5.5%float
    ∧ (5.5 <? 0.90 * Binary64.KdFitIA.Imax_const imax)%float = true
    ∧ Binary64.KdFitIA.Imax_adjusted imax !! 0%nat
      = Some (Binary64.KdFitIA.Imax_const imax).
Proof. eexists. split; [reflexivity|]. vm_compute. auto. Qed.

(** The rounding of the test is the code's: at nine times the Kd, with a
    zero baseline and a unit asymptote, the predicted intensity is the
    binary64 number below 0.9, and the fallback is taken. *)
Example fallback_at_nine_Kd (Imin med : float) :
  Binary64.KdFitIA.Iobs 0 9 1 1 = Ok 0x1.cccccccccccccp-1%float
  ∧ Binary64.KdFitIA.Imax_adjusted_entry 0 1 1 (9%float, Imin, med) = Ok 1%float.
Proof. split; reflexivity. Qed.

(** ** The single-sequence likelihood fit *)

Section SingleFit.
Context `{Numpy} `{Scipy} `{Seqtools} `{Builtins}.

Lemma M_bind_ok {A B : Type} (m : M A) (f : A → M B) (w w1 : world) (a : A) :
  m w = (Ok a, w1) → (m ≫= f) w = f a w1.
Proof. intros Hm. unfold mbind, M_bind. rewrite Hm. reflexivity. Qed.

Lemma M_bind_raise {A B : Type} (m : M A) (f : A → M B) (w w1 : world) (e : exn) :
  m w = (Raise e, w1) → (m ≫= f) w = (Raise e, w1).
Proof. intros Hm. unfold mbind, M_bind. rewrite Hm. reflexivity. Qed.

Lemma M_bind_inv {A B : Type} (m : M A) (f : A → M B) (w w' : world) (b : B) :
  (m ≫= f) w = (Ok b, w') → ∃ a w1, m w = (Ok a, w1) ∧ f a w1 = (Ok b, w').
Proof.
  unfold mbind, M_bind. destruct (m w) as [[a|e] w1]; intros Hrun; [eauto | discriminate].
Qed.

(** [print(template).format(...)]: the template is printed as it stands,
    and the attribute lookup on the [None] that [print] returns raises. *)
Lemma print_then_format (template : string) (w : world) :
  (printed ← M_print template; lift (getattr_format printed)) w
  = (Raise (AttributeError "'NoneType' object has no attribute 'format'"),
     {| gen := gen w; stdout := (stdout w ++ [template +:+ nl])%list |}).
Proof. reflexivity. Qed.

(** What [ML_fit_Kd] does once the optimizer has returned. *)
Lemma ML_fit_Kd_with_after_minimize (self : KdFitIA.t) (imin : KdFitIA.Imin_attrs)
    (imax : KdFitIA.Imax_attrs) (ml : KdFitIA.ML_attrs) (seq Imin_name : string)
    (idxs : option (list nat)) (Imin : profile) (Imin_list : list R)
    (opt : OptimizeResult.t) (w : world) :
  KdFitIA.getattr_Imin imin Imin_name = Ok Imin →
  list_if_scalar Imin (length (KdFitIA.concentrations self)) = Ok Imin_list →
  minimize (KdFitIA.single_neg_log_L self imin imax ml seq Imin_name Imin_list idxs) [20%R]
  = Ok opt →
  KdFitIA.ML_fit_Kd_with self imin imax ml seq Imin_name idxs w
  = if OptimizeResult.success opt
    then (KdFitIA.float_of_array (OptimizeResult.x opt), w)
    else (Raise (AttributeError "'NoneType' object has no attribute 'format'"),
          {| gen := gen w;
             stdout := (stdout w ++ [KdFitIA.failure_warning +:+ nl])%list |}).
Proof.
  intros Hattr Hlist Hmin. unfold KdFitIA.ML_fit_Kd_with.
  unfold mbind, M_bind, lift. rewrite Hattr, Hlist, Hmin.
  destruct (OptimizeResult.success opt); reflexivity.
Qed.

End SingleFit.

(** C6, what the code does: when the optimizer reports failure,
    [ML_fit_Kd] prints the warning template with its [{}] fields unfilled
    (the sequence is not in the output) and raises [AttributeError]; no Kd
    is returned. *)
Theorem ML_fit_Kd_failure_raises `{Numpy} `{Scipy} `{Seqtools} `{Builtins}
    (self : KdFitIA.t) (imin : KdFitIA.Imin_attrs) (imax : KdFitIA.Imax_attrs)
    (ml : KdFitIA.ML_attrs) (seq Imin_name : string) (max_clust : option nat)
    (Imin : profile) (Imin_list : list R) (opt : OptimizeResult.t) (w : world)
    (Hattr : KdFitIA.getattr_Imin imin Imin_name = Ok Imin)
    (Hlist : list_if_scalar Imin (length (KdFitIA.concentrations self)) = Ok Imin_list)
    (Hmin : minimize
              (KdFitIA.single_neg_log_L self imin imax ml seq Imin_name Imin_list None)
              [20%R] = Ok opt)
    (Hfail : OptimizeResult.success opt = false) :
  KdFitIA.ML_fit_Kd self imin imax ml seq Imin_name max_clust false w
  = (Raise (AttributeError "'NoneType' object has no attribute 'format'"),
     {| gen := gen w;
        stdout := (stdout w ++ [nl +:+ "Warning: Failure on {} ({})" +:+ nl])%list |}).
Proof.
  cbv [KdFitIA.ML_fit_Kd mbind M_bind mret M_ret].
  rewrite (ML_fit_Kd_with_after_minimize self imin imax ml seq Imin_name None
             Imin Imin_list opt w Hattr Hlist Hmin).
  rewrite Hfail. reflexivity.
Qed.

Lemma example_objective_value :
  ∃ v, @KdFitIA.single_neg_log_L example_numpy example_builtins example_self example_imin
         example_imax example_ml "ACGT" "Imin_const" [1%R; 1%R] None [20%R] = Ok v.
Proof.
  unfold KdFitIA.single_neg_log_L. cbn [KdFitIA.float_of_array mbind res_mbind res_bind].
  replace (py_getitem (KdFitIA.Imax_ML example_ml) "Imin_const") with (Ok [10%R; 10%R])
    by reflexivity.
  replace (py_getitem (KdFitIA.sigma_consts example_ml) "Imin_const") with (Ok [1%R; 1%R])
    by reflexivity.
  replace (py_getitem (KdFitIA.sigma_I example_ml) "Imin_const") with (Ok 1%R)
    by reflexivity.
  cbn [mbind res_mbind res_bind].
  unfold KdFitIA.model_logL.
  cbn [KdFitIA.concentrations example_self py_comprehension length Nat.eqb py_assert mbind res_mbind res_bind].
  rewrite !theta_ok by lra.
  eexists. reflexivity.
Qed.

Lemma ML_fit_Kd_failure_raises_witness :
  @KdFitIA.ML_fit_Kd example_numpy example_scipy example_seqtools example_builtins
     example_self example_imin example_imax example_ml "ACGT" "Imin_const" None false
     example_world
  = (Raise (AttributeError "'NoneType' object has no attribute 'format'"),
     @Build_world example_numpy 0%nat [nl +:+ "Warning: Failure on {} ({})" +:+ nl]).
Proof.
  destruct example_objective_value as [v Hv].
  apply (@ML_fit_Kd_failure_raises example_numpy example_scipy example_seqtools
           example_builtins example_self example_imin example_imax example_ml
           "ACGT" "Imin_const" None (Scalar 1) [1%R; 1%R]
           {| OptimizeResult.x := [20%R]; OptimizeResult.success := false |}
           example_world eq_refl eq_refl).
  - simpl. unfold example_minimize. rewrite Hv. reflexivity.
  - reflexivity.
Defined.

(** ** The joint calibration *)

Section JointCalibration.
Context `{Numpy} `{Scipy} `{Seqtools} `{Builtins}.

(** Slicing the iterator that [map(abs, params)] returns raises. *)
Lemma unpack_map_object (f : R → R) (params : list R) (idx1 idx2 idx3 : nat) :
  KdFitIA.unpack_params (KdFitIA.py_map f params) idx1 idx2 idx3
  = Raise KdFitIA.not_subscriptable.
Proof. reflexivity. Qed.

Lemma joint_neg_log_L_raises (self : KdFitIA.t) (imin : KdFitIA.Imin_attrs)
    (imax : KdFitIA.Imax_attrs) (ML_seqs : list string) (Imin_list : list R)
    (idx1 idx2 idx3 : nat) (params : list R) :
  KdFitIA.joint_neg_log_L self imin imax ML_seqs Imin_list idx1 idx2 idx3 params
  = Raise KdFitIA.not_subscriptable.
Proof. reflexivity. Qed.

(** The per-sequence curve-fit Kd's that start [x0]. *)
Lemma curve_fit_Kds_length (self : KdFitIA.t) (Imin Imax : profile) (ML_seqs : list string)
    (acc Kd0 : list R) (w w' : world) :
  M_for (λ acc seq, Kd ← KdFitIA.curve_fit_Kd self seq Imin Imax None false;
                    mret (acc ++ [Kd])%list) ML_seqs acc w = (Ok Kd0, w') →
  length Kd0 = (length acc + length ML_seqs)%nat.
Proof.
  revert acc w. induction ML_seqs as [|seq ML_seqs IH]; intros acc w Hrun; simpl in Hrun.
  - injection Hrun as <- <-. simpl. lia.
  - apply M_bind_inv in Hrun as (acc1 & w1 & Hbody & Hrest).
    apply M_bind_inv in Hbody as (Kd & w2 & _ & Hret).
    injection Hret as <- <-.
    apply IH in Hrest. rewrite length_app in Hrest. simpl in *. lia.
Qed.

End JointCalibration.

(** C9, what the code does.  The initial guess [x0] of
    [fit_Imax_ML_given_Imin] is the per-sequence curve-fit Kd's, then the
    [Imax_adjusted] profile, then 1 per concentration, then
    [(Imax_const - Imin_const) / 10], of dimension [n_seqs + 2 * N_c + 1];
    but the objective slices the iterator [map(abs, params)], so it raises
    [TypeError] at every parameter vector, and with it the whole
    calibration: no likelihood is evaluated. *)
Theorem joint_calibration_objective_raises `{Numpy} `{Scipy} `{Builtins}
    (self : KdFitIA.t) (imin : KdFitIA.Imin_attrs) (imax : KdFitIA.Imax_attrs)
    (ML_seqs : list string) (Imin : profile) (Imin_list x0 : list R) (w w1 : world)
    (Hlist : list_if_scalar Imin (length (KdFitIA.concentrations self)) = Ok Imin_list)
    (Hx0 : KdFitIA.joint_x0 self imin imax ML_seqs w = (Ok x0, w1))
    (Hlen : length (KdFitIA.Imax_adjusted imax) = IntensityArray.course_len (KdFitIA.IA self))
    (Hscipy : minimize_starts_at_x0) :
  (∃ Kd0, length Kd0 = length ML_seqs
          ∧ x0 = (Kd0 ++ KdFitIA.Imax_adjusted imax
                  ++ replicate (IntensityArray.course_len (KdFitIA.IA self)) 1%R
                  ++ [((KdFitIA.Imax_const imax - KdFitIA.Imin_const imin) / 10)%R])%list)
  ∧ length x0 = (length ML_seqs + 2 * IntensityArray.course_len (KdFitIA.IA self) + 1)%nat
  ∧ (∀ idx1 idx2 idx3 params,
       KdFitIA.joint_neg_log_L self imin imax ML_seqs Imin_list idx1 idx2 idx3 params
       = Raise (TypeError "'map' object is not subscriptable"))
  ∧ KdFitIA.fit_Imax_ML_given_Imin self imin imax ML_seqs Imin w
    = (Raise (TypeError "'map' object is not subscriptable"), w1).
Proof.
  assert (Hshape : ∃ Kd0, length Kd0 = length ML_seqs
     ∧ x0 = (Kd0 ++ KdFitIA.Imax_adjusted imax
             ++ replicate (IntensityArray.course_len (KdFitIA.IA self)) 1%R
             ++ [((KdFitIA.Imax_const imax - KdFitIA.Imin_const imin) / 10)%R])%list).
  { unfold KdFitIA.joint_x0 in Hx0.
    apply M_bind_inv in Hx0 as (Kd0 & w2 & Hfor & Hret).
    injection Hret as <- <-. exists Kd0. split; [|reflexivity].
    apply curve_fit_Kds_length in Hfor. simpl in Hfor. exact Hfor. }
  assert (Hdim : length x0
            = (length ML_seqs + 2 * IntensityArray.course_len (KdFitIA.IA self) + 1)%nat).
  { destruct Hshape as (Kd0 & HKd0 & ->).
    rewrite !length_app, length_replicate, HKd0, Hlen. simpl. lia. }
  split; [exact Hshape|]. split; [exact Hdim|]. split; [reflexivity|].
  unfold KdFitIA.fit_Imax_ML_given_Imin. cbv zeta.
  rewrite (M_bind_ok _ _ w w Imin_list) by (unfold lift; rewrite Hlist; reflexivity).
  rewrite (M_bind_ok _ _ w w1 x0) by exact Hx0.
  rewrite (M_bind_ok _ _ w1 w1 tt).
  2:{ unfold lift, py_assert. rewrite Hdim.
      replace (_ =? _)%nat with true; [reflexivity|].
      symmetry. apply Nat.eqb_eq. lia. }
  apply M_bind_raise. unfold lift. f_equal.
  apply Hscipy. reflexivity.
Qed.

Lemma joint_calibration_objective_raises_witness :
  @KdFitIA.fit_Imax_ML_given_Imin example_numpy example_scipy example_builtins
     example_self example_imin example_imax ["ACGT"] (Scalar 1) example_world
  = (Raise (TypeError "'map' object is not subscriptable"), example_world).
Proof.
  apply (@joint_calibration_objective_raises example_numpy example_scipy
           example_builtins example_self example_imin example_imax ["ACGT"] (Scalar 1)
           [1%R; 1%R] [1; 10; 3 + (1 + 1 / 1000) * (9 - 3); 1; 1; (10 - 1) / 10]%R
           example_world example_world eq_refl eq_refl eq_refl
           example_minimize_starts_at_x0).
Defined.

(** ** The bootstrap of the likelihood fit *)

Section Bootstrap.
Context `{Numpy} `{Scipy} `{Seqtools} `{Builtins}.


(** An index out of range makes the comprehension raise. *)
Lemma bootstrap_sample_out_of_range (inten_list : list (option R)) (idx : nat)
    (idxs : list nat) :
  (length inten_list <= idx)%nat →
  KdFitIA.bootstrap_sample inten_list (idx :: idxs) = Raise IndexError.
Proof.
  intros Hge. unfold KdFitIA.bootstrap_sample. simpl. unfold py_index.
  rewrite lookup_ge_None_2 by assumption. reflexivity.
Qed.


(** A resampled reading is the reading of a drawn cluster. *)
Lemma resample_clusters_elem (idxs : list nat) (inten_list : list (option R)) (v : R) :
  v ∈ resample_clusters idxs inten_list ↔
  ∃ idx, idx ∈ idxs ∧ inten_list !! idx = Some (Some v).
Proof.
  unfold resample_clusters. rewrite list_elem_of_omap. split.
  - intros (idx & Hin & Hv). exists idx. split; [assumption|].
    destruct (inten_list !! idx) as [[r|]|]; simpl in Hv; congruence.
  - intros (idx & Hin & Hv). exists idx. split; [assumption|]. rewrite Hv. reflexivity.
Qed.





End Bootstrap.

Section BootstrapFit.
Context `{Numpy} `{Scipy} `{Seqtools} `{Builtins}.



End BootstrapFit.





(** ** The banner of [fit_all_Kds] *)

(** The banner line of [fit_all_Kds] has the misplaced parenthesis of the
    warning of [ML_fit_Kd]: it prints its template and raises before any
    sequence is fitted. *)
Lemma fit_all_Kds_banner_raises `{Numpy} `{Scipy} `{Seqtools} `{Builtins}
    (self : KdFitIA.t) (imin : KdFitIA.Imin_attrs) (imax : KdFitIA.Imax_attrs)
    (ml : option KdFitIA.ML_attrs) (current : option KdFitIA.fit_attrs)
    (fa : KdFitIA.fit_attrs) (num_bootstraps : nat) (w : world) :
  KdFitIA.setup_for_fit self imin imax ml current false = Ok fa →
  KdFitIA.fit_all_Kds self imin imax ml current num_bootstraps w
  = (Raise (AttributeError "'NoneType' object has no attribute 'format'"),
     {| gen := gen w; stdout := (stdout w ++ [KdFitIA.seqs_banner +:+ nl])%list |}).
Proof.
  intros Hsetup. unfold KdFitIA.fit_all_Kds.
  rewrite (M_bind_ok _ _ w w fa) by (unfold lift; rewrite Hsetup; reflexivity).
  reflexivity.
Qed.

(** ** Strings: lines and fields *)

Section Text.

(** Inside this section [simpl] computes string concatenation. *)
#[local] Arguments String.append !_ _ / : simpl nomatch.

Lemma append_assoc (a b c : string) : (a +:+ b) +:+ c = a +:+ (b +:+ c).
Proof. induction a as [|x a IH]; simpl; [reflexivity | rewrite IH; reflexivity]. Qed.

Lemma append_empty_r (a : string) : a +:+ "" = a.
Proof. induction a as [|x a IH]; simpl; [reflexivity | rewrite IH; reflexivity]. Qed.

Lemma all_chars_app (P : ascii → bool) (a b : string) :
  all_chars P (a +:+ b) = all_chars P a && all_chars P b.
Proof.
  induction a as [|x a IH]; simpl; [reflexivity|]. rewrite IH. apply andb_assoc.
Qed.

Lemma is_empty_app (a b : string) : is_empty (a +:+ b) = is_empty a && is_empty b.
Proof. destruct a; reflexivity. Qed.

Lemma token_nonempty (s : string) : token s = true → is_empty s = false.
Proof. unfold token. intros Ht. apply andb_true_iff in Ht as [Hne _]. destruct (is_empty s); [discriminate | reflexivity]. Qed.

Lemma token_no_space (s : string) : token s = true → no_space s = true.
Proof. unfold token. intros Ht. apply andb_true_iff in Ht as [_ Hns]. exact Hns. Qed.

Lemma cons_nonempty_token (w : string) (ws : list string) :
  is_empty w = false → cons_nonempty w ws = w :: ws.
Proof. intros Hw. unfold cons_nonempty. rewrite Hw. reflexivity. Qed.

(** *** split() *)

Lemma fields_no_space (tok : string) : no_space tok = true → fields tok = (tok, []).
Proof.
  induction tok as [|c tok IH]; simpl; [reflexivity|].
  intros Hns. apply andb_true_iff in Hns as [Hc Hns].
  rewrite (IH Hns). destruct (is_space c); [discriminate | reflexivity].
Qed.

Lemma fields_token_then_space (tok rest : string) (sp : ascii) :
  no_space tok = true → is_space sp = true →
  fields (tok +:+ String sp rest) = (tok, split_ws rest).
Proof.
  intros Hns Hsp. induction tok as [|c tok IH]; simpl.
  - rewrite Hsp. unfold split_ws. destruct (fields rest). reflexivity.
  - simpl in Hns. apply andb_true_iff in Hns as [Hc Hns].
    rewrite (IH Hns). destruct (is_space c); [discriminate | reflexivity].
Qed.

Lemma split_ws_token (tok : string) : token tok = true → split_ws tok = [tok].
Proof.
  intros Ht. unfold split_ws. rewrite fields_no_space by (apply token_no_space; exact Ht).
  apply cons_nonempty_token, token_nonempty, Ht.
Qed.

Lemma split_ws_token_then_space (tok rest : string) (sp : ascii) :
  token tok = true → is_space sp = true →
  split_ws (tok +:+ String sp rest) = tok :: split_ws rest.
Proof.
  intros Ht Hsp. unfold split_ws at 1.
  rewrite fields_token_then_space by (try apply token_no_space; assumption).
  apply cons_nonempty_token, token_nonempty, Ht.
Qed.

Lemma join_cons (sep a b : string) (l : list string) :
  join sep (a :: b :: l) = a +:+ sep +:+ join sep (b :: l).
Proof. reflexivity. Qed.

(** Tab-joined fields split back into themselves. *)
Lemma split_ws_join_tab (toks : list string) :
  Forall (λ tok, token tok = true) toks → split_ws (join tab toks) = toks.
Proof.
  induction 1 as [|a toks Ha Htoks IH]; [reflexivity|].
  destruct toks as [|b toks]; [apply split_ws_token; exact Ha|].
  rewrite join_cons.
  change (a +:+ tab +:+ join tab (b :: toks))
    with (a +:+ String TAB (join tab (b :: toks))).
  rewrite split_ws_token_then_space by (try exact Ha; reflexivity).
  rewrite IH. reflexivity.
Qed.

(** *** strip() *)

Lemma rstrip_spaces (e : string) : all_chars is_space e = true → rstrip e = "".
Proof.
  induction e as [|c e IH]; simpl; [reflexivity|].
  intros He. apply andb_true_iff in He as [Hc He]. rewrite (IH He), Hc. reflexivity.
Qed.

Lemma rstrip_app_spaces (s e : string) :
  all_chars is_space e = true → rstrip (s +:+ e) = rstrip s.
Proof.
  intros He. induction s as [|c s IH]; simpl.
  - apply rstrip_spaces, He.
  - rewrite IH. reflexivity.
Qed.

Lemma rstrip_no_space (tok : string) : no_space tok = true → rstrip tok = tok.
Proof.
  induction tok as [|c tok IH]; simpl; [reflexivity|].
  intros Hns. apply andb_true_iff in Hns as [Hc Hns]. rewrite (IH Hns).
  destruct (is_space c); [discriminate | reflexivity].
Qed.

Lemma rstrip_app_fixed (s r : string) :
  rstrip r = r → is_empty r = false → rstrip (s +:+ r) = s +:+ r.
Proof.
  intros Hr Hne. induction s as [|c s IH]; simpl; [exact Hr|].
  rewrite IH. rewrite is_empty_app, Hne, andb_false_r, andb_false_r. reflexivity.
Qed.

Lemma rstrip_join_tab (toks : list string) :
  Forall (λ tok, token tok = true) toks → rstrip (join tab toks) = join tab toks.
Proof.
  induction 1 as [|a toks Ha Htoks IH]; [reflexivity|].
  destruct toks as [|b toks]; [apply rstrip_no_space, token_no_space, Ha|].
  assert (Hne : is_empty (join tab (b :: toks)) = false).
  { inversion Htoks as [|? ? Hb _]; subst. destruct toks as [|b' toks].
    - apply token_nonempty, Hb.
    - rewrite join_cons, is_empty_app, (token_nonempty b Hb). reflexivity. }
  rewrite join_cons. apply rstrip_app_fixed.
  - change (tab +:+ join tab (b :: toks)) with (String TAB (join tab (b :: toks))).
    cbn [rstrip]. rewrite IH, Hne, andb_false_r. reflexivity.
  - reflexivity.
Qed.

Lemma lstrip_token_first (s : string) :
  startswith s "#" = true → lstrip s = s.
Proof.
  destruct s as [|c s]; [reflexivity|]. unfold startswith. cbn [String.prefix].
  destruct (ascii_dec "#" c) as [<-|Hne]; intros Hp; [reflexivity | discriminate Hp].
Qed.

Lemma lstrip_token_app (tok rest : string) :
  token tok = true → lstrip (tok +:+ rest) = tok +:+ rest.
Proof.
  intros Ht. destruct tok as [|c tok]; [discriminate|].
  apply token_no_space in Ht. simpl in Ht. apply andb_true_iff in Ht as [Hc _].
  simpl. destruct (is_space c); [discriminate | reflexivity].
Qed.

(** [strip] of a line of tab-joined fields, whatever whitespace ends it. *)
Lemma strip_fields_line (toks : list string) (e : string) :
  Forall (λ tok, token tok = true) toks → all_chars is_space e = true →
  strip (join tab toks +:+ e) = join tab toks.
Proof.
  intros Htoks He. unfold strip.
  assert (Hl : lstrip (join tab toks +:+ e) = join tab toks +:+ e
               ∨ join tab toks = "").
  { destruct Htoks as [|a toks Ha Htoks]; [right; reflexivity|]. left.
    destruct toks as [|b toks].
    - apply lstrip_token_app, Ha.
    - rewrite join_cons, append_assoc. apply lstrip_token_app, Ha. }
  destruct Hl as [-> | Hempty].
  - rewrite rstrip_app_spaces by exact He. apply rstrip_join_tab, Htoks.
  - rewrite Hempty. simpl.
    assert (Hstrip : lstrip e = "").
    { clear -He. induction e as [|c e IH]; simpl; [reflexivity|].
      simpl in He. apply andb_true_iff in He as [Hc He]. rewrite Hc. apply IH, He. }
    rewrite Hstrip. reflexivity.
Qed.

(** *** split(': ') *)

Lemma split_sep_no_space (tok : string) :
  no_space tok = true → split_sep_from ": " 0 tok = (tok, []).
Proof.
  induction tok as [|c tok IH]; [reflexivity|].
  intros Hns. simpl in Hns. apply andb_true_iff in Hns as [Hc Hns].
  cbn [split_sep_from]. rewrite (IH Hns).
  assert (Hpre : startswith (String c tok) ": " = false).
  { unfold startswith. cbn [String.prefix].
    destruct (ascii_dec ":" c); [|reflexivity].
    destruct tok as [|c' tok]; [reflexivity|]. cbn [String.prefix].
    destruct (ascii_dec " " c') as [<-|]; [|reflexivity].
    unfold no_space in Hns. cbn in Hns. discriminate Hns. }
  rewrite Hpre. reflexivity.
Qed.

(** *** Lines of a file *)

Lemma no_space_no_lf (s : string) : no_space s = true → no_lf s = true.
Proof.
  unfold no_space, no_lf. induction s as [|c s IH]; simpl; [reflexivity|].
  intros Hns. apply andb_true_iff in Hns as [Hc Hns]. rewrite (IH Hns), andb_true_r.
  destruct (Ascii.eqb_spec c LF) as [->|]; [discriminate | reflexivity].
Qed.

Lemma no_lf_app (a b : string) : no_lf (a +:+ b) = no_lf a && no_lf b.
Proof. apply all_chars_app. Qed.

Lemma no_lf_join_tab (toks : list string) :
  Forall (λ tok, token tok = true) toks → no_lf (join tab toks) = true.
Proof.
  induction 1 as [|a toks Ha Htoks IH]; [reflexivity|].
  destruct toks as [|b toks]; [apply no_space_no_lf, token_no_space, Ha|].
  rewrite join_cons, !no_lf_app, IH.
  rewrite (no_space_no_lf a) by (apply token_no_space, Ha). reflexivity.
Qed.

Lemma first_line_app (s rest : string) :
  no_lf s = true → first_line (s +:+ String LF rest) = (s +:+ nl, file_lines rest).
Proof.
  intros Hs. induction s as [|c s IH]; simpl.
  - unfold file_lines. destruct (first_line rest). reflexivity.
  - simpl in Hs. unfold no_lf in Hs. simpl in Hs.
    apply andb_true_iff in Hs as [Hc Hs]. rewrite (IH Hs).
    destruct (Ascii.eqb c LF); [discriminate | reflexivity].
Qed.

Lemma file_lines_cons (s rest : string) :
  no_lf s = true → file_lines ((s +:+ nl) +:+ rest) = (s +:+ nl) :: file_lines rest.
Proof.
  intros Hs. rewrite append_assoc.
  change (nl +:+ rest) with (String LF rest).
  unfold file_lines at 1. rewrite first_line_app by exact Hs.
  apply cons_nonempty_token. rewrite is_empty_app, andb_false_r. reflexivity.
Qed.

Lemma file_lines_last (s : string) :
  no_lf s = true → is_empty s = false → file_lines s = [s].
Proof.
  intros Hs Hne. unfold file_lines.
  assert (Hfl : first_line s = (s, [])).
  { clear Hne. induction s as [|c s IH]; [reflexivity|]. simpl.
    unfold no_lf in Hs. simpl in Hs. apply andb_true_iff in Hs as [Hc Hs].
    rewrite (IH Hs). destruct (Ascii.eqb c LF); [discriminate | reflexivity]. }
  rewrite Hfl. apply cons_nonempty_token, Hne.
Qed.

End Text.

(** ** Reading back what [write_results] wrote *)

Section RoundTrip.
Context `{Numpy} `{Builtins}.

#[local] Arguments String.append !_ _ / : simpl nomatch.

Lemma split_sep_from_unfold (sep : string) (c : ascii) (s : string) :
  split_sep_from sep 0 (String c s)
  = if startswith (String c s) sep
    then let '(w, ws) := split_sep_from sep (String.length sep - 1) s in ("", w :: ws)
    else let '(w, ws) := split_sep_from sep 0 s in (String c w, ws).
Proof. reflexivity. Qed.

Lemma prefix_empty (s : string) : String.prefix "" s = true.
Proof. destruct s; reflexivity. Qed.

Lemma startswith_colon_space (name : string) :
  startswith (String ":" (String " " name)) ": " = true.
Proof. destruct name; reflexivity. Qed.

(** A header line [<label>: <name>] gives its name back. *)
Lemma split_sep_label (label name : string) :
  all_chars (λ c, negb (Ascii.eqb c ":")) label = true → no_space name = true →
  split_sep_from ": " 0 (label +:+ ": " +:+ name) = (label, [name]).
Proof.
  intros Hlabel Hname. induction label as [|c label IH].
  - change ("" +:+ ": " +:+ name) with (String ":" (String " " name)).
    rewrite split_sep_from_unfold, startswith_colon_space.
    change (split_sep_from ": " (String.length ": " - 1) (String " " name))
      with (split_sep_from ": " 0 name).
    rewrite split_sep_no_space by exact Hname. reflexivity.
  - simpl in Hlabel. apply andb_true_iff in Hlabel as [Hc Hlabel].
    change (String c label +:+ ": " +:+ name) with (String c (label +:+ ": " +:+ name)).
    rewrite split_sep_from_unfold, (IH Hlabel).
    assert (Hpre : startswith (String c (label +:+ ": " +:+ name)) ": " = false).
    { unfold startswith. cbn [String.prefix].
      destruct (ascii_dec ":" c) as [<-|_]; [discriminate Hc | reflexivity]. }
    rewrite Hpre. reflexivity.
Qed.

Lemma strip_label_line (label name : string) :
  startswith label "#" = true → token name = true →
  strip ((label +:+ ": " +:+ name) +:+ nl) = label +:+ ": " +:+ name.
Proof.
  intros Hhash Hname. unfold strip.
  rewrite lstrip_token_first.
  2:{ destruct label as [|c label]; [discriminate|].
      unfold startswith in *. cbn [String.append String.prefix] in *.
      destruct (ascii_dec "#" c); [apply prefix_empty | discriminate Hhash]. }
  rewrite rstrip_app_spaces by reflexivity.
  rewrite <- !append_assoc. apply rstrip_app_fixed.
  - apply rstrip_no_space, token_no_space, Hname.
  - apply token_nonempty, Hname.
Qed.

Lemma header_name (label name : string) :
  startswith label "#" = true →
  all_chars (λ c, negb (Ascii.eqb c ":")) label = true →
  token name = true →
  py_index (split_sep ": " (strip ((label +:+ ": " +:+ name) +:+ nl))) 1 = Ok name.
Proof.
  intros Hhash Hlabel Hname. rewrite strip_label_line by assumption.
  unfold split_sep. rewrite split_sep_label by (try apply token_no_space; assumption).
  reflexivity.
Qed.

(** [float] on the fields [str] wrote. *)
Lemma floats_printable (vs : list R) :
  Forall printable vs → IAKdData.floats (map py_str vs) = Ok vs.
Proof.
  induction 1 as [|v vs [_ Hv] _ IH]; [reflexivity|].
  unfold IAKdData.floats in *. simpl. rewrite Hv. simpl. rewrite IH. reflexivity.
Qed.

Lemma printable_token (v : R) : printable v → token (py_str v) = true.
Proof. intros [Hid _]. unfold identifier in Hid. apply andb_true_iff in Hid as [Ht _]. exact Ht. Qed.

Lemma identifier_token (s : string) : identifier s = true → token s = true.
Proof. unfold identifier. intros Hid. apply andb_true_iff in Hid as [Ht _]. exact Ht. Qed.

Lemma identifier_not_comment (s rest : string) :
  identifier s = true → startswith (s +:+ rest) "#" = false.
Proof.
  unfold identifier. intros Hid. apply andb_true_iff in Hid as [Ht Hh].
  destruct s as [|c s]; [discriminate|].
  unfold startswith in *. cbn [String.append String.prefix] in *.
  destruct (ascii_dec "#" c); [|reflexivity].
  destruct s; discriminate.
Qed.

Lemma read_profile_unfold (line : string) (f : list string) (acc : list R * list R * list R) :
  IAKdData.read_profile line f acc
  = if startswith line "#" then Ok (line, f, acc)
    else
      vals ← IAKdData.floats (split_ws (strip line));
      match vals with
      | [conc; imn; imx] =>
          let '(concs, imns, imxs) := acc in
          match f with
          | [] => Raise StopIteration
          | line' :: f' =>
              IAKdData.read_profile line' f'
                ((concs ++ [conc])%list, (imns ++ [imn])%list, (imxs ++ [imx])%list)
          end
      | _ => Raise ValueError
      end.
Proof. destruct f; reflexivity. Qed.

(** The concentration lines are read back up to the next header. *)
Lemma read_profile_lines (prows : list (R * R * R)) (header : string) (data : list string) :
  Forall profile_row_ok prows →
  startswith header "#" = true →
  ∀ (concs imns imxs : list R) (line : string) (f : list string),
    line :: f = (map KdFitIA.profile_line prows ++ header :: data)%list →
    IAKdData.read_profile line f (concs, imns, imxs)
    = Ok (header, data,
          ((concs ++ prows.*1.*1)%list, (imns ++ prows.*1.*2)%list, (imxs ++ prows.*2)%list)).
Proof.
  intros Hprows Hheader.
  induction Hprows as [|[[conc imin] imax] prows (Hc & Hi & Hx) _ IH];
    intros concs imns imxs line f Hlines; cbn [List.map List.app] in Hlines.
  - injection Hlines as -> ->. rewrite read_profile_unfold, Hheader.
    simpl. rewrite !app_nil_r. reflexivity.
  - assert (Hline : line = KdFitIA.profile_line (conc, imin, imax)) by congruence.
    assert (Hf : f = (map KdFitIA.profile_line prows ++ header :: data)%list) by congruence.
    clear Hlines. subst line f. rewrite read_profile_unfold.
    change (KdFitIA.profile_line (conc, imin, imax))
      with (join tab (map py_str [conc; imin; imax]) +:+ nl).
    assert (Htoks : Forall (λ tok, token tok = true) (map py_str [conc; imin; imax])).
    { repeat constructor; apply printable_token; assumption. }
    assert (Hnc : startswith (join tab (map py_str [conc; imin; imax]) +:+ nl) "#" = false).
    { change (join tab (map py_str [conc; imin; imax]))
        with (py_str conc +:+ tab +:+ py_str imin +:+ tab +:+ py_str imax).
      rewrite append_assoc. apply identifier_not_comment. apply Hc. }
    rewrite Hnc. rewrite strip_fields_line by (try exact Htoks; reflexivity).
    rewrite split_ws_join_tab by exact Htoks.
    rewrite floats_printable
      by (constructor; [exact Hc|]; constructor; [exact Hi|]; constructor; [exact Hx|];
          constructor).
    cbn [mbind res_mbind res_bind].
    destruct (map KdFitIA.profile_line prows ++ header :: data)%list as [|line' f'] eqn:Erest.
    { destruct prows; discriminate. }
    rewrite (IH (concs ++ [conc])%list (imns ++ [imin])%list (imxs ++ [imax])%list line' f' eq_refl).
    simpl. rewrite <- !app_assoc. reflexivity.
Qed.

(** A data line is read into the four dicts under its identifier. *)
Lemma read_row_line (d : IAKdData.table) (seq : string) (Kd Kd_err ABA ABA_err : R)
    (e : string) :
  result_row_ok (seq, Kd, Kd_err, ABA, ABA_err) →
  all_chars is_space e = true →
  IAKdData.t_Kd d !! seq = None →
  IAKdData.read_row d (KdFitIA.result_line (seq, Kd, Kd_err, ABA, ABA_err) +:+ e)
  = Ok {| IAKdData.t_Kd := <[seq := Kd]> (IAKdData.t_Kd d);
          IAKdData.t_Kd_error := <[seq := Kd_err]> (IAKdData.t_Kd_error d);
          IAKdData.t_ABA := <[seq := ABA]> (IAKdData.t_ABA d);
          IAKdData.t_ABA_error := <[seq := ABA_err]> (IAKdData.t_ABA_error d) |}.
Proof.
  intros (Hid & HK & HKe & HA & HAe) He Hfresh. unfold IAKdData.read_row.
  change (KdFitIA.result_line (seq, Kd, Kd_err, ABA, ABA_err))
    with (join tab (seq :: map py_str [Kd; Kd_err; ABA; ABA_err])).
  assert (Htoks : Forall (λ tok, token tok = true)
                    (seq :: map py_str [Kd; Kd_err; ABA; ABA_err])).
  { constructor; [apply identifier_token, Hid|].
    repeat (constructor; [apply printable_token; assumption|]). constructor. }
  assert (Hnc : startswith (join tab (seq :: map py_str [Kd; Kd_err; ABA; ABA_err]) +:+ e) "#"
                = false).
  { change (map py_str [Kd; Kd_err; ABA; ABA_err])
      with (py_str Kd :: map py_str [Kd_err; ABA; ABA_err]).
    rewrite join_cons, append_assoc. apply identifier_not_comment, Hid. }
  rewrite Hnc. rewrite strip_fields_line by assumption.
  rewrite split_ws_join_tab by exact Htoks.
  cbn [py_index lookup list_lookup mbind res_mbind res_bind drop].
  rewrite Hfresh. cbn [py_assert negb bool_decide mbind res_mbind res_bind].
  rewrite bool_decide_eq_false_2 by (intros [? Hsome]; discriminate Hsome).
  cbn [negb py_assert mbind res_mbind res_bind].
  match goal with
  | |- context [IAKdData.floats ?ws] =>
      change (IAKdData.floats ws)
        with (IAKdData.floats (map py_str [Kd; Kd_err; ABA; ABA_err]))
  end.
  rewrite floats_printable
    by (constructor; [exact HK|]; constructor; [exact HKe|]; constructor; [exact HA|];
        constructor; [exact HAe|]; constructor).
  reflexivity.
Qed.

(** The lines of the data block: one per result row, the last without its
    line feed. *)
Lemma result_line_one_line (row : string * R * R * R * R) :
  result_row_ok row →
  no_lf (KdFitIA.result_line row) = true ∧ is_empty (KdFitIA.result_line row) = false.
Proof.
  destruct row as [[[[seq Kd] Kd_err] ABA] ABA_err]. intros (Hid & HK & HKe & HA & HAe).
  change (KdFitIA.result_line (seq, Kd, Kd_err, ABA, ABA_err))
    with (join tab (seq :: py_str Kd :: map py_str [Kd_err; ABA; ABA_err])).
  split.
  - apply no_lf_join_tab. constructor; [apply identifier_token, Hid|].
    repeat (constructor; [apply printable_token; assumption|]). constructor.
  - rewrite join_cons, is_empty_app.
    rewrite (token_nonempty seq) by (apply identifier_token, Hid). reflexivity.
Qed.

Lemma data_lines (rows : list (string * R * R * R * R)) :
  Forall result_row_ok rows →
  Forall2 (λ line row, ∃ e, all_chars is_space e = true
                            ∧ line = KdFitIA.result_line row +:+ e)
    (file_lines (join nl (map KdFitIA.result_line rows))) rows.
Proof.
  induction 1 as [|row rows Hrow Hrows IH]; [constructor|].
  destruct (result_line_one_line row Hrow) as [Hlf Hne].
  destruct rows as [|row' rows].
  - cbn [List.map join String.concat]. rewrite file_lines_last by assumption.
    constructor; [|constructor]. exists "". split; [reflexivity|].
    symmetry. apply append_empty_r.
  - change (map KdFitIA.result_line (row :: row' :: rows))
      with (KdFitIA.result_line row :: KdFitIA.result_line row'
            :: map KdFitIA.result_line rows).
    rewrite join_cons, <- append_assoc, file_lines_cons by exact Hlf.
    constructor; [|exact IH]. exists nl. split; reflexivity.
Qed.

(** The loop over the data lines fills the dicts: every row is there under
    its identifier, and no other key is touched. *)
Lemma read_rows (lines : list string) (rows : list (string * R * R * R * R)) :
  Forall2 (λ line row, ∃ e, all_chars is_space e = true
                            ∧ line = KdFitIA.result_line row +:+ e) lines rows →
  Forall result_row_ok rows →
  NoDup (map row_id rows) →
  ∀ d0 : IAKdData.table,
    (∀ row, row ∈ rows → IAKdData.t_Kd d0 !! row_id row = None) →
    ∃ d, py_for IAKdData.read_row lines d0 = Ok d
      ∧ (∀ seq Kd Kd_err ABA ABA_err, (seq, Kd, Kd_err, ABA, ABA_err) ∈ rows →
           IAKdData.t_Kd d !! seq = Some Kd
           ∧ IAKdData.t_Kd_error d !! seq = Some Kd_err
           ∧ IAKdData.t_ABA d !! seq = Some ABA
           ∧ IAKdData.t_ABA_error d !! seq = Some ABA_err)
      ∧ (∀ id, id ∉ map row_id rows →
           IAKdData.t_Kd d !! id = IAKdData.t_Kd d0 !! id
           ∧ IAKdData.t_Kd_error d !! id = IAKdData.t_Kd_error d0 !! id
           ∧ IAKdData.t_ABA d !! id = IAKdData.t_ABA d0 !! id
           ∧ IAKdData.t_ABA_error d !! id = IAKdData.t_ABA_error d0 !! id).
Proof.
  induction 1 as [|line row lines rows (e & He & ->) _ IH]; intros Hok Hnodup d0 Hfresh.
  - exists d0. split; [reflexivity|]. split; [|auto].
    intros ? ? ? ? ? Hin. apply elem_of_nil in Hin. contradiction.
  - apply Forall_cons in Hok as [Hrow Hok].
    cbn [List.map] in Hnodup. apply NoDup_cons in Hnodup as [Hnotin Hnodup].
    destruct row as [[[[seq Kd] Kd_err] ABA] ABA_err].
    cbn [py_for]. rewrite read_row_line; [|exact Hrow|exact He|].
    2:{ apply (Hfresh (seq, Kd, Kd_err, ABA, ABA_err)). apply elem_of_cons. left. reflexivity. }
    cbn [mbind res_mbind res_bind].
    match goal with
    | |- context [py_for _ _ ?d1] => destruct (IH Hok Hnodup d1) as (d & Hrun & Hrows & Hframe)
    end.
    { intros row Hin. cbn [IAKdData.t_Kd].
      rewrite lookup_insert_ne.
      - apply Hfresh. apply elem_of_cons. right. exact Hin.
      - intros Heq. apply Hnotin. change seq with (row_id (seq, Kd, Kd_err, ABA, ABA_err)) in Heq.
        unfold row_id at 1 in Heq. cbn [fst] in Heq. rewrite Heq.
        apply list_elem_of_fmap. exists row. split; [reflexivity | exact Hin]. }
    exists d. split; [exact Hrun|]. split.
    + intros seq' Kd' Kd_err' ABA' ABA_err' Hin. apply elem_of_cons in Hin as [Heq | Hin].
      * injection Heq as -> -> -> -> ->.
        destruct (Hframe seq Hnotin) as (F1 & F2 & F3 & F4).
        rewrite F1, F2, F3, F4. cbn. rewrite !lookup_insert_eq. auto.
      * apply Hrows, Hin.
    + intros id Hid.
      assert (Hne : seq ≠ id).
      { intros ->. apply Hid. cbn [List.map]. apply elem_of_cons. left. reflexivity. }
      assert (Hid' : id ∉ map row_id rows).
      { intros Hin. apply Hid. cbn [List.map]. apply elem_of_cons. right. exact Hin. }
      destruct (Hframe id Hid') as (F1 & F2 & F3 & F4).
      rewrite F1, F2, F3, F4. cbn. rewrite !lookup_insert_ne by exact Hne. auto.
Qed.

Lemma profile_line_one_line (row : R * R * R) :
  profile_row_ok row →
  ∃ s, KdFitIA.profile_line row = s +:+ nl ∧ no_lf s = true.
Proof.
  destruct row as [[conc imin] imax]. intros (Hc & Hi & Hx).
  exists (join tab (map py_str [conc; imin; imax])). split; [reflexivity|].
  apply no_lf_join_tab.
  repeat (constructor; [apply printable_token; assumption|]). constructor.
Qed.

Lemma file_lines_profile (prows : list (R * R * R)) (rest : string) :
  Forall profile_row_ok prows →
  file_lines (String.concat "" (map KdFitIA.profile_line prows) +:+ rest)
  = (map KdFitIA.profile_line prows ++ file_lines rest)%list.
Proof.
  induction 1 as [|row prows Hrow _ IH]; [reflexivity|].
  destruct (profile_line_one_line row Hrow) as (s & Es & Hs).
  assert (Ecat : String.concat "" (map KdFitIA.profile_line (row :: prows)) +:+ rest
                 = (s +:+ nl) +:+ (String.concat "" (map KdFitIA.profile_line prows) +:+ rest)).
  { cbn [List.map]. rewrite Es. destruct prows as [|row' prows].
    - reflexivity.
    - cbn [List.map String.concat]. rewrite !append_assoc. reflexivity. }
  rewrite Ecat, file_lines_cons by exact Hs.
  cbn [List.map List.app]. rewrite IH, Es. reflexivity.
Qed.

Lemma startswith_app (p rest : string) : startswith (p +:+ rest) p = true.
Proof.
  unfold startswith. induction p as [|c p IH]; [apply prefix_empty|].
  cbn [String.append String.prefix].
  destruct (ascii_dec c c) as [_|Hne]; [exact IH | contradiction].
Qed.

(** The lines of a result file. *)
Lemma results_text_lines (self : KdFitIA.t) (Imin Imax kds kd_errors abas aba_errors : list R) :
  token (KdFitIA.target self) = true →
  token (KdFitIA.neg_control_target self) = true →
  Forall profile_row_ok (zip (zip (KdFitIA.concentrations self) Imin) Imax) →
  file_lines (KdFitIA.results_text self Imin Imax kds kd_errors abas aba_errors)
  = ((("# Target" +:+ ": " +:+ KdFitIA.target self) +:+ nl)
     :: (("# Neg Control" +:+ ": " +:+ KdFitIA.neg_control_target self) +:+ nl)
     :: (IAKdData.concentration_header +:+ nl)
     :: map KdFitIA.profile_line (zip (zip (KdFitIA.concentrations self) Imin) Imax)
     ++ (results_header +:+ nl)
     :: file_lines
          (join nl (map KdFitIA.result_line
                      (KdFitIA.out_zipper (IntensityArray.seqs (KdFitIA.IA self))
                         kds kd_errors abas aba_errors))))%list.
Proof.
  intros Ht Hn Hprows. unfold KdFitIA.results_text.
  assert (E1 : "# Target: " +:+ KdFitIA.target self +:+ nl
               = ("# Target" +:+ ": " +:+ KdFitIA.target self) +:+ nl)
    by (rewrite !append_assoc; reflexivity).
  assert (E2 : "# Neg Control: " +:+ KdFitIA.neg_control_target self +:+ nl
               = ("# Neg Control" +:+ ": " +:+ KdFitIA.neg_control_target self) +:+ nl)
    by (rewrite !append_assoc; reflexivity).
  rewrite E1, E2.
  rewrite file_lines_cons.
  2:{ rewrite !no_lf_app, (no_space_no_lf _ (token_no_space _ Ht)). reflexivity. }
  rewrite file_lines_cons.
  2:{ rewrite !no_lf_app, (no_space_no_lf _ (token_no_space _ Hn)). reflexivity. }
  change ("# Concentration" +:+ tab +:+ "Imin" +:+ tab +:+ "Imax" +:+ nl)
    with (IAKdData.concentration_header +:+ nl).
  rewrite file_lines_cons by reflexivity.
  rewrite file_lines_profile by exact Hprows.
  change (join tab ["# Seq"; "Kd (pM)"; "Kd error"; "ABA (kB T)"; "ABA error"])
    with results_header.
  rewrite file_lines_cons by reflexivity.
  reflexivity.
Qed.

(** Reading the text of one strategy pair's file. *)
Lemma read_results_text (self : KdFitIA.t) (Imin Imax kds kd_errors abas aba_errors : list R) :
  let prows := zip (zip (KdFitIA.concentrations self) Imin) Imax in
  let rows := KdFitIA.out_zipper (IntensityArray.seqs (KdFitIA.IA self))
                kds kd_errors abas aba_errors in
  Forall profile_row_ok prows →
  Forall result_row_ok rows →
  NoDup (map row_id rows) →
  KdFitIA.target self ∈ map row_id rows →
  KdFitIA.neg_control_target self ∈ map row_id rows →
  ∃ d, IAKdData.init (KdFitIA.results_text self Imin Imax kds kd_errors abas aba_errors) = Ok d
    ∧ IAKdData.concentrations d = prows.*1.*1
    ∧ IAKdData.Imin d = prows.*1.*2
    ∧ IAKdData.Imax d = prows.*2
    ∧ IAKdData.target d = KdFitIA.target self
    ∧ IAKdData.neg_control_target d = KdFitIA.neg_control_target self
    ∧ ∀ seq Kd Kd_err ABA ABA_err, (seq, Kd, Kd_err, ABA, ABA_err) ∈ rows →
        IAKdData.Kd d !! seq = Some Kd
        ∧ IAKdData.Kd_error d !! seq = Some Kd_err
        ∧ IAKdData.ABA d !! seq = Some ABA
        ∧ IAKdData.ABA_error d !! seq = Some ABA_err.
Proof.
  intros prows rows Hprows Hrows Hnodup Htarget Hneg.
  assert (Hid : ∀ id, id ∈ map row_id rows →
            token id = true
            ∧ ∃ Kd Kd_err ABA ABA_err, (id, Kd, Kd_err, ABA, ABA_err) ∈ rows).
  { intros id Hin. apply list_elem_of_fmap in Hin as ([[[[seq Kd] Kd_err] ABA] ABA_err] & -> & Hin).
    rewrite Forall_forall in Hrows. destruct (Hrows _ Hin) as (Hseq & _).
    split; [apply identifier_token, Hseq | eauto 6]. }
  destruct (Hid _ Htarget) as (Ht & tKd & tKd_err & tABA & tABA_err & Htrow).
  destruct (Hid _ Hneg) as (Hn & nKd & nKd_err & nABA & nABA_err & Hnrow).
  destruct (read_rows _ rows (data_lines rows Hrows) Hrows Hnodup
              {| IAKdData.t_Kd := ∅; IAKdData.t_Kd_error := ∅;
                 IAKdData.t_ABA := ∅; IAKdData.t_ABA_error := ∅ |})
    as (tbl & Hloop & Hall & _).
  { intros row _. apply lookup_empty. }
  unfold IAKdData.init.
  rewrite (results_text_lines self Imin Imax kds kd_errors abas aba_errors Ht Hn Hprows).
  fold prows rows.
  cbn [next_line mbind res_mbind res_bind].
  replace (startswith (("# Target" +:+ ": " +:+ KdFitIA.target self) +:+ nl) "# Target:")
    with true.
  2:{ symmetry.
      replace (("# Target" +:+ ": " +:+ KdFitIA.target self) +:+ nl)
        with ("# Target:" +:+ (" " +:+ KdFitIA.target self +:+ nl))
        by (rewrite !append_assoc; reflexivity).
      apply startswith_app. }
  cbn [py_assert mbind res_mbind res_bind].
  rewrite (header_name "# Target" (KdFitIA.target self)) by (try exact Ht; reflexivity).
  cbn [mbind res_mbind res_bind].
  replace (startswith (("# Neg Control" +:+ ": " +:+ KdFitIA.neg_control_target self) +:+ nl)
             "# Neg Control")
    with true by (symmetry; rewrite append_assoc; apply startswith_app).
  cbn [py_assert mbind res_mbind res_bind].
  rewrite (header_name "# Neg Control" (KdFitIA.neg_control_target self))
    by (try exact Hn; reflexivity).
  cbn [mbind res_mbind res_bind].
  rewrite startswith_app.
  cbn [py_assert mbind res_mbind res_bind].
  destruct (map KdFitIA.profile_line prows
            ++ (results_header +:+ nl) :: file_lines (join nl (map KdFitIA.result_line rows)))%list
    as [|line f] eqn:Elines.
  { destruct prows; discriminate. }
  cbn [next_line mbind res_mbind res_bind].
  rewrite (read_profile_lines prows (results_header +:+ nl)
             (file_lines (join nl (map KdFitIA.result_line rows))) Hprows eq_refl
             [] [] [] line f (eq_sym Elines)).
  cbn [mbind res_mbind res_bind app].
  replace (startswith (results_header +:+ nl) "# Seq") with true by reflexivity.
  cbn [py_assert mbind res_mbind res_bind].
  rewrite Hloop. cbn [mbind res_mbind res_bind].
  destruct (Hall _ _ _ _ _ Hnrow) as (HnKd & _).
  destruct (Hall _ _ _ _ _ Htrow) as (_ & _ & HtABA & _).
  unfold py_getitem. rewrite HnKd, HtABA. cbn [mbind res_mbind res_bind].
  eexists. split; [reflexivity|]. cbn.
  do 5 (split; [reflexivity|]).
  intros seq Kd Kd_err ABA ABA_err Hin. apply (Hall _ _ _ _ _ Hin).
Qed.

(** [sorted] keeps the items of the dict. *)
Lemma insert_sorted_elem {V : Type} (kv x : string * string * V)
    (l : list (string * string * V)) :
  x ∈ KdFitIA.insert_sorted kv l ↔ x = kv ∨ x ∈ l.
Proof.
  induction l as [|kv' l IH]; simpl.
  - rewrite list_elem_of_singleton, elem_of_nil. tauto.
  - destruct (KdFitIA.names_leb kv.1 kv'.1).
    + rewrite elem_of_cons. tauto.
    + rewrite !elem_of_cons, IH. tauto.
Qed.

Lemma sorted_items_elem {V : Type} (d : gmap (string * string) V) (k : string * string) (v : V) :
  (k, v) ∈ KdFitIA.sorted_items d ↔ d !! k = Some v.
Proof.
  unfold KdFitIA.sorted_items. rewrite <- elem_of_map_to_list.
  induction (map_to_list d) as [|kv l IH]; simpl; [reflexivity|].
  rewrite insert_sorted_elem, elem_of_cons, IH. tauto.
Qed.

(** A successful comprehension has an output for every input. *)
Lemma comprehension_elem {A B : Type} (f : A → res B) (l : list A) (out : list B) (a : A) :
  py_comprehension f l = Ok out → a ∈ l → ∃ b, f a = Ok b ∧ b ∈ out.
Proof.
  intros Hrun Hin. apply list_elem_of_lookup in Hin as [i Hi].
  destruct (comprehension_lookup f l out Hrun) as [_ Hget].
  destruct (Hget i a Hi) as (b & Hb & Hout).
  exists b. split; [exact Hb|]. apply list_elem_of_lookup. eauto.
Qed.

End RoundTrip.

(** C3 (as amended). For a strategy pair, [write_results] writes one file,
    and reading its text back with [IAKdData] succeeds and reproduces the
    written concentration, Imin and Imax lists and, for every sequence of
    the written rows, its Kd, Kd error, ABA and ABA error, under these
    conditions: every written float survives the float-to-string-to-float
    round trip, the sequence identifiers are distinct fields (non-empty,
    free of whitespace, not starting with [#]), and the target and the
    negative control are among the written sequences. *)
Theorem write_results_read_back `{Numpy} `{Builtins}
    (self : KdFitIA.t) (fa : KdFitIA.fit_attrs) (r : KdFitIA.results)
    (out_dir bname : string) (files : list (string * string))
    (names_tup : string * string) (Imin_p Imax_p : profile)
    (Imin Imax kds kd_errors abas aba_errors : list R)
    (Hwrite : KdFitIA.write_results self fa r out_dir bname = Ok files)
    (Hpair : KdFitIA.Imin_max_pairs_given_names fa !! names_tup = Some (Imin_p, Imax_p))
    (HImin : list_if_scalar Imin_p (length (KdFitIA.concentrations self)) = Ok Imin)
    (HImax : list_if_scalar Imax_p (length (KdFitIA.concentrations self)) = Ok Imax)
    (HK : KdFitIA.Kds r !! names_tup = Some kds)
    (HKe : KdFitIA.Kd_errors r !! names_tup = Some kd_errors)
    (HA : KdFitIA.ABAs r !! names_tup = Some abas)
    (HAe : KdFitIA.ABA_errors r !! names_tup = Some aba_errors)
    (Hprows : Forall profile_row_ok (zip (zip (KdFitIA.concentrations self) Imin) Imax))
    (Hrows : Forall result_row_ok
               (KdFitIA.out_zipper (IntensityArray.seqs (KdFitIA.IA self))
                  kds kd_errors abas aba_errors))
    (Hnodup : NoDup (map row_id
                       (KdFitIA.out_zipper (IntensityArray.seqs (KdFitIA.IA self))
                          kds kd_errors abas aba_errors)))
    (Htarget : KdFitIA.target self
               ∈ map row_id (KdFitIA.out_zipper (IntensityArray.seqs (KdFitIA.IA self))
                               kds kd_errors abas aba_errors))
    (Hneg : KdFitIA.neg_control_target self
            ∈ map row_id (KdFitIA.out_zipper (IntensityArray.seqs (KdFitIA.IA self))
                            kds kd_errors abas aba_errors)) :
  ∃ path text d,
    (path, text) ∈ files
    ∧ text = KdFitIA.results_text self Imin Imax kds kd_errors abas aba_errors
    ∧ IAKdData.init text = Ok d
    ∧ IAKdData.concentrations d = (zip (zip (KdFitIA.concentrations self) Imin) Imax).*1.*1
    ∧ IAKdData.Imin d = (zip (zip (KdFitIA.concentrations self) Imin) Imax).*1.*2
    ∧ IAKdData.Imax d = (zip (zip (KdFitIA.concentrations self) Imin) Imax).*2
    ∧ ∀ seq Kd Kd_err ABA ABA_err,
        (seq, Kd, Kd_err, ABA, ABA_err)
        ∈ KdFitIA.out_zipper (IntensityArray.seqs (KdFitIA.IA self))
            kds kd_errors abas aba_errors →
        IAKdData.Kd d !! seq = Some Kd
        ∧ IAKdData.Kd_error d !! seq = Some Kd_err
        ∧ IAKdData.ABA d !! seq = Some ABA
        ∧ IAKdData.ABA_error d !! seq = Some ABA_err.
Proof.
  destruct (read_results_text self Imin Imax kds kd_errors abas aba_errors
              Hprows Hrows Hnodup Htarget Hneg)
    as (d & Hread & Hc & Hi & Hx & _ & _ & Hall).
  unfold KdFitIA.write_results in Hwrite.
  apply sorted_items_elem in Hpair.
  destruct (comprehension_elem _ _ _ _ Hwrite Hpair) as ([path text] & Hrun & Hin).
  destruct names_tup as [Imin_name Imax_name].
  cbn beta iota in Hrun. rewrite HImin, HImax in Hrun.
  cbn [mbind res_mbind res_bind] in Hrun.
  unfold py_getitem2 in Hrun. rewrite HK, HKe, HA, HAe in Hrun.
  cbn [mbind res_mbind res_bind] in Hrun. injection Hrun as <- <-.
  eexists _, _, d. split; [exact Hin|]. split; [reflexivity|]. auto 10.
Qed.




Lemma example_str_values :
  example_str 1 = "1.0" ∧ example_str 2.5 = "2.5" ∧ example_str 10 = "10.0".
Proof. unfold example_str. repeat split; R_cases; reflexivity. Qed.

Lemma example_printable :
  @printable example_builtins 1 ∧ @printable example_builtins 2.5
  ∧ @printable example_builtins 10.
Proof.
  destruct example_str_values as (E1 & E2 & E3).
  unfold printable. simpl. rewrite E1, E2, E3. repeat split; reflexivity.
Qed.

Lemma write_results_read_back_witness :
  ∃ files path text d,
    @KdFitIA.write_results example_numpy example_builtins example_written example_fit_attrs
      example_written_results "out" "run" = Ok files
    ∧ (path, text) ∈ files
    ∧ @IAKdData.init example_builtins text = Ok d
    ∧ IAKdData.concentrations d = [1%R; 10%R]
    ∧ IAKdData.Kd d !! "TTTT" = Some 10%R
    ∧ IAKdData.ABA d !! "ACGT" = Some 2.5%R.
Proof.
  destruct example_printable as (P1 & P2 & P10).
  assert (Hwrite : ∃ files,
            @KdFitIA.write_results example_numpy example_builtins example_written
              example_fit_attrs example_written_results "out" "run" = Ok files)
    by (eexists; reflexivity).
  destruct Hwrite as [files Hwrite].
  assert (Hprows : Forall (@profile_row_ok example_builtins)
                     [(1%R, 1%R, 10%R); (10%R, 1%R, 2.5%R)]).
  { constructor; [unfold profile_row_ok; auto|].
    constructor; [unfold profile_row_ok; auto|]. constructor. }
  assert (Hrows : Forall (@result_row_ok example_builtins)
                    [("ACGT", 1%R, 1%R, 2.5%R, 1%R); ("TTTT", 10%R, 1%R, 1%R, 2.5%R)]).
  { constructor; [split; [reflexivity | auto]|].
    constructor; [split; [reflexivity | auto]|]. constructor. }
  assert (Hnodup : NoDup ["ACGT"; "TTTT"]).
  { apply NoDup_cons. split; [|apply NoDup_singleton].
    intros Hin. apply list_elem_of_singleton in Hin. discriminate Hin. }
  assert (Htarget : "ACGT" ∈ ["ACGT"; "TTTT"]) by (apply elem_of_cons; left; reflexivity).
  assert (Hneg : "TTTT" ∈ ["ACGT"; "TTTT"]).
  { apply elem_of_cons. right. apply elem_of_cons. left. reflexivity. }
  destruct (@write_results_read_back example_numpy example_builtins example_written
              example_fit_attrs example_written_results "out" "run" files
              ("Imin_const", "Imax_adjusted") (Scalar 1) (PerConc [10%R; 2.5%R])
              [1%R; 1%R] [10%R; 2.5%R] [1%R; 10%R] [1%R; 1%R] [2.5%R; 1%R] [1%R; 2.5%R]
              Hwrite eq_refl eq_refl eq_refl eq_refl eq_refl eq_refl eq_refl
              Hprows Hrows Hnodup Htarget Hneg)
    as (path & text & d & Hin & _ & Hread & Hconc & _ & _ & Hall).
  exists files, path, text, d.
  split; [exact Hwrite|]. split; [exact Hin|]. split; [exact Hread|].
  split; [exact Hconc|].
  destruct (Hall "TTTT" 10%R 1%R 1%R 2.5%R) as (HKd & _).
  { apply elem_of_cons. right. apply elem_of_cons. left. reflexivity. }
  destruct (Hall "ACGT" 1%R 1%R 2.5%R 1%R) as (_ & _ & HABA & _).
  { apply elem_of_cons. left. reflexivity. }
  split; [exact HKd | exact HABA].
Defined.

(** C3, the claim as stated fails: [write_results] accepts a set of
    sequences without the negative control (here the target alone), and
    reading the file it writes raises [KeyError] at the look-up of the
    negative control's Kd, so no sequence's values are reproduced. *)
Lemma write_results_without_control_row :
  @KdFitIA.write_results example_numpy example_builtins example_written_target_only
    example_fit_attrs example_target_only_results "out" "run"
  = Ok [("out/run_Imin_const_Imax_adjusted_Kds_and_ABAs.txt", target_only_file)]
  ∧ @IAKdData.init example_builtins target_only_file = Raise (KeyError "TTTT").
Proof.
  destruct example_str_values as (E1 & E2 & E3).
  split.
  - unfold KdFitIA.write_results.
    change (KdFitIA.sorted_items (KdFitIA.Imin_max_pairs_given_names example_fit_attrs))
      with [(("Imin_const", "Imax_adjusted"), (Scalar 1, PerConc [10; 2.5]))].
    cbn. unfold py_getitem2. rewrite !lookup_insert_eq.
    cbn [mbind res_mbind res_bind].
    do 3 f_equal.
    unfold KdFitIA.results_text, KdFitIA.out_zipper. cbn.
    rewrite E1, E2, E3. reflexivity.
  - vm_compute. reflexivity.
Qed.

(** ** The checks of the reader *)

Section ReaderChecks.
Context `{Builtins}.

(** A data row whose identifier is already a key is refused, with the
    identifier as the message. *)
Lemma read_row_duplicate (d : IAKdData.table) (line seq : string) (ws : list string) :
  startswith line "#" = false →
  split_ws (strip line) = seq :: ws →
  is_Some (IAKdData.t_Kd d !! seq) →
  IAKdData.read_row d line = Raise (AssertionError (Some seq)).
Proof.
  intros Hdata Hwords Hdup. unfold IAKdData.read_row. rewrite Hdata, Hwords.
  cbn [py_index lookup list_lookup mbind res_mbind res_bind].
  rewrite bool_decide_eq_true_2 by exact Hdup. reflexivity.
Qed.

(** The numeric fields of a data row go through [float]. *)
Lemma read_row_floats (d : IAKdData.table) (line seq a b c e : string) :
  startswith line "#" = false →
  split_ws (strip line) = [seq; a; b; c; e] →
  IAKdData.t_Kd d !! seq = None →
  IAKdData.read_row d line
  = match py_float a, py_float b, py_float c, py_float e with
    | Some Kd, Some Kd_err, Some ABA, Some ABA_err =>
        Ok {| IAKdData.t_Kd := <[seq := Kd]> (IAKdData.t_Kd d);
              IAKdData.t_Kd_error := <[seq := Kd_err]> (IAKdData.t_Kd_error d);
              IAKdData.t_ABA := <[seq := ABA]> (IAKdData.t_ABA d);
              IAKdData.t_ABA_error := <[seq := ABA_err]> (IAKdData.t_ABA_error d) |}
    | _, _, _, _ => Raise ValueError
    end.
Proof.
  intros Hdata Hwords Hfresh. unfold IAKdData.read_row. rewrite Hdata, Hwords.
  cbn [py_index lookup list_lookup mbind res_mbind res_bind].
  rewrite bool_decide_eq_false_2 by (rewrite Hfresh; intros [? Hsome]; discriminate Hsome).
  cbn [negb py_assert mbind res_mbind res_bind drop IAKdData.floats py_comprehension].
  destruct (py_float a); [|reflexivity].
  destruct (py_float b); [|reflexivity].
  destruct (py_float c); [|reflexivity].
  destruct (py_float e); reflexivity.
Qed.

(** What one accepted line does to the keys. *)
Lemma read_row_keys (d d' : IAKdData.table) (line : string) :
  IAKdData.read_row d line = Ok d' →
  (startswith line "#" = true ∧ d' = d)
  ∨ (∃ seq, startswith line "#" = false
            ∧ head (split_ws (strip line)) = Some seq
            ∧ IAKdData.t_Kd d !! seq = None
            ∧ ∀ id, is_Some (IAKdData.t_Kd d' !! id)
                    ↔ id = seq ∨ is_Some (IAKdData.t_Kd d !! id)).
Proof.
  unfold IAKdData.read_row. destruct (startswith line "#") eqn:Hdata.
  - intros [= <-]. left. auto.
  - intros Hrun. right.
    destruct (split_ws (strip line)) as [|seq ws] eqn:Hwords; [discriminate Hrun|].
    cbn [py_index lookup list_lookup mbind res_mbind res_bind] in Hrun.
    destruct (bool_decide (is_Some (IAKdData.t_Kd d !! seq))) eqn:Hdec;
      [discriminate Hrun|].
    apply bool_decide_eq_false_1 in Hdec.
    cbn [negb py_assert mbind res_mbind res_bind] in Hrun.
    bind_inv Hrun. injection Hrun as <-.
    exists seq. split; [reflexivity|]. split; [reflexivity|]. split.
    + destruct (IAKdData.t_Kd d !! seq) eqn:Hk; [|reflexivity].
      exfalso. apply Hdec. eauto.
    + intros id. cbn [IAKdData.t_Kd]. destruct (decide (seq = id)) as [->|Hne].
      * rewrite lookup_insert_eq. split; [auto | eauto].
      * rewrite lookup_insert_ne by exact Hne. split; [auto|].
        intros [Heq | Hsome]; [congruence | exact Hsome].
Qed.

(** The loop over the data rows accepts only distinct identifiers, and the
    keys it leaves are those with which it started and the identifiers. *)
Lemma read_rows_distinct (rows : list string) :
  ∀ d0 d : IAKdData.table,
    py_for IAKdData.read_row rows d0 = Ok d →
    NoDup (data_row_ids rows)
    ∧ (∀ id, id ∈ data_row_ids rows → IAKdData.t_Kd d0 !! id = None)
    ∧ (∀ id, is_Some (IAKdData.t_Kd d !! id)
             ↔ is_Some (IAKdData.t_Kd d0 !! id) ∨ id ∈ data_row_ids rows).
Proof.
  induction rows as [|line rows IH]; intros d0 d Hrun.
  - injection Hrun as <-. split; [constructor|]. split.
    + intros id Hin. apply elem_of_nil in Hin. contradiction.
    + intros id. cbn. rewrite elem_of_nil. tauto.
  - cbn [py_for] in Hrun.
    destruct (IAKdData.read_row d0 line) as [d1|e] eqn:Hrow; [|discriminate Hrun].
    cbn [mbind res_mbind res_bind] in Hrun.
    destruct (IH d1 d Hrun) as (Hnodup & Hfresh & Hkeys).
    apply read_row_keys in Hrow as [[Hcomment ->] | (seq & Hdata & Hhead & Hnew & Hk1)].
    + unfold data_row_ids in *. cbn [omap list_omap]. rewrite Hcomment. auto.
    + assert (Hids : data_row_ids (line :: rows) = seq :: data_row_ids rows).
      { unfold data_row_ids. cbn [omap list_omap]. rewrite Hdata, Hhead. reflexivity. }
      rewrite Hids.
      assert (Hnotin : seq ∉ data_row_ids rows).
      { intros Hin. specialize (Hfresh seq Hin).
        assert (Hsome : is_Some (IAKdData.t_Kd d1 !! seq)) by (apply Hk1; auto).
        rewrite Hfresh in Hsome. destruct Hsome as [? Hsome]. discriminate Hsome. }
      split; [apply NoDup_cons; auto|]. split.
      * intros id Hin. apply elem_of_cons in Hin as [-> | Hin]; [exact Hnew|].
        specialize (Hfresh id Hin).
        destruct (IAKdData.t_Kd d0 !! id) eqn:Hid; [|reflexivity].
        assert (Hsome : is_Some (IAKdData.t_Kd d1 !! id)) by (apply Hk1; eauto).
        rewrite Hfresh in Hsome. destruct Hsome as [? Hsome]. discriminate Hsome.
      * intros id. rewrite Hkeys, Hk1, elem_of_cons. tauto.
Qed.

Lemma next_line_inv (f f' : list string) (line : string) :
  next_line f = Ok (line, f') → f = line :: f'.
Proof. destruct f; [discriminate|]. intros [= -> ->]. reflexivity. Qed.

Lemma py_assert_inv (b : bool) (msg : option string) (u : unit) :
  py_assert b msg = Ok u → b = true.
Proof. destruct b; [reflexivity | discriminate]. Qed.

(** A successful read went through the header lines, the concentration
    lines and the data rows in this order. *)
Lemma init_stages (text : string) (d : IAKdData.t) :
  IAKdData.init text = Ok d →
  ∃ l1 l2 l3 l4 f header rows profile tbl,
    file_lines text = l1 :: l2 :: l3 :: l4 :: f
    ∧ startswith l1 "# Target:" = true
    ∧ startswith l2 "# Neg Control" = true
    ∧ startswith l3 IAKdData.concentration_header = true
    ∧ IAKdData.read_profile l4 f ([], [], []) = Ok (header, rows, profile)
    ∧ startswith header "# Seq" = true
    ∧ py_for IAKdData.read_row rows
        {| IAKdData.t_Kd := ∅; IAKdData.t_Kd_error := ∅;
           IAKdData.t_ABA := ∅; IAKdData.t_ABA_error := ∅ |} = Ok tbl
    ∧ IAKdData.Kd d = IAKdData.t_Kd tbl.
Proof.
  intros Hinit. unfold IAKdData.init in Hinit.
  bind_inv Hinit. injection Hinit as <-.
  repeat match goal with
  | E : next_line _ = Ok _ |- _ => apply next_line_inv in E
  | E : py_assert _ _ = Ok _ |- _ => apply py_assert_inv in E
  end.
  subst. do 9 eexists. cbn [IAKdData.Kd].
  repeat (split; [eassumption|]). reflexivity.
Qed.

End ReaderChecks.

(** C8 (as amended). [IAKdData] checks that the first three lines start
    with [# Target:], [# Neg Control] and the concentration header, a
    prefix test each, and fails at once with an [AssertionError] that
    carries no message when one does not; what follows the prefix on the
    concentration header is not looked at.  The numeric fields of a data
    row are parsed with [float].  A data row whose identifier has been read
    before is refused with an [AssertionError] carrying the identifier, so
    a file that is read has every identifier in one data row only. *)
Theorem reader_checks `{Builtins} :
  (∀ text line f,
     file_lines text = line :: f → startswith line "# Target:" = false →
     IAKdData.init text = Raise (AssertionError None))
  ∧ (∀ text l1 l2 f target,
       file_lines text = l1 :: l2 :: f → startswith l1 "# Target:" = true →
       py_index (split_sep ": " (strip l1)) 1 = Ok target →
       startswith l2 "# Neg Control" = false →
       IAKdData.init text = Raise (AssertionError None))
  ∧ (∀ text l1 l2 l3 f target neg_control,
       file_lines text = l1 :: l2 :: l3 :: f → startswith l1 "# Target:" = true →
       py_index (split_sep ": " (strip l1)) 1 = Ok target →
       startswith l2 "# Neg Control" = true →
       py_index (split_sep ": " (strip l2)) 1 = Ok neg_control →
       startswith l3 IAKdData.concentration_header = false →
       IAKdData.init text = Raise (AssertionError None))
  ∧ (∀ text text' l1 l2 l3 l3' f,
       file_lines text = l1 :: l2 :: l3 :: f → file_lines text' = l1 :: l2 :: l3' :: f →
       startswith l3 IAKdData.concentration_header = true →
       startswith l3' IAKdData.concentration_header = true →
       IAKdData.init text = IAKdData.init text')
  ∧ (∀ d line seq a b c e,
       startswith line "#" = false → split_ws (strip line) = [seq; a; b; c; e] →
       IAKdData.t_Kd d !! seq = None →
       IAKdData.read_row d line
       = match py_float a, py_float b, py_float c, py_float e with
         | Some Kd, Some Kd_err, Some ABA, Some ABA_err =>
             Ok {| IAKdData.t_Kd := <[seq := Kd]> (IAKdData.t_Kd d);
                   IAKdData.t_Kd_error := <[seq := Kd_err]> (IAKdData.t_Kd_error d);
                   IAKdData.t_ABA := <[seq := ABA]> (IAKdData.t_ABA d);
                   IAKdData.t_ABA_error := <[seq := ABA_err]> (IAKdData.t_ABA_error d) |}
         | _, _, _, _ => Raise ValueError
         end)
  ∧ (∀ d line seq ws,
       startswith line "#" = false → split_ws (strip line) = seq :: ws →
       is_Some (IAKdData.t_Kd d !! seq) →
       IAKdData.read_row d line = Raise (AssertionError (Some seq)))
  ∧ (∀ text d,
       IAKdData.init text = Ok d →
       ∃ l1 l2 l3 l4 f header rows profile,
         file_lines text = l1 :: l2 :: l3 :: l4 :: f
         ∧ IAKdData.read_profile l4 f ([], [], []) = Ok (header, rows, profile)
         ∧ NoDup (data_row_ids rows)
         ∧ ∀ id, is_Some (IAKdData.Kd d !! id) ↔ id ∈ data_row_ids rows).
Proof.
  split; [|split; [|split; [|split; [|split; [|split]]]]].
  - intros text line f Hlines Hstart. unfold IAKdData.init. rewrite Hlines.
    cbn [next_line mbind res_mbind res_bind]. rewrite Hstart. reflexivity.
  - intros text l1 l2 f target Hlines H1 Htarget H2. unfold IAKdData.init. rewrite Hlines.
    cbn [next_line mbind res_mbind res_bind]. rewrite H1.
    cbn [py_assert mbind res_mbind res_bind]. rewrite Htarget.
    cbn [next_line mbind res_mbind res_bind]. rewrite H2. reflexivity.
  - intros text l1 l2 l3 f target neg Hlines H1 Htarget H2 Hneg H3.
    unfold IAKdData.init. rewrite Hlines.
    cbn [next_line mbind res_mbind res_bind]. rewrite H1.
    cbn [py_assert mbind res_mbind res_bind]. rewrite Htarget.
    cbn [next_line mbind res_mbind res_bind]. rewrite H2.
    cbn [py_assert mbind res_mbind res_bind]. rewrite Hneg.
    cbn [next_line mbind res_mbind res_bind]. rewrite H3. reflexivity.
  - intros text text' l1 l2 l3 l3' f Hlines Hlines' H3 H3'.
    unfold IAKdData.init. rewrite Hlines, Hlines'.
    cbn [next_line mbind res_mbind res_bind].
    destruct (py_assert (startswith l1 "# Target:") None); [|reflexivity].
    cbn [mbind res_mbind res_bind].
    destruct (py_index (split_sep ": " (strip l1)) 1); [|reflexivity].
    cbn [next_line mbind res_mbind res_bind].
    destruct (py_assert (startswith l2 "# Neg Control") None); [|reflexivity].
    cbn [mbind res_mbind res_bind].
    destruct (py_index (split_sep ": " (strip l2)) 1); [|reflexivity].
    cbn [next_line mbind res_mbind res_bind]. rewrite H3, H3'. reflexivity.
  - intros d line seq a b c e. apply read_row_floats.
  - intros d line seq ws. apply read_row_duplicate.
  - intros text d Hinit.
    destruct (init_stages text d Hinit)
      as (l1 & l2 & l3 & l4 & f & header & rows & profile & tbl
          & Hlines & _ & _ & _ & Hprofile & _ & Hrows & HKd).
    destruct (read_rows_distinct rows _ tbl Hrows) as (Hnodup & _ & Hkeys).
    exists l1, l2, l3, l4, f, header, rows, profile.
    split; [exact Hlines|]. split; [exact Hprofile|]. split; [exact Hnodup|].
    intros id. rewrite HKd, Hkeys. cbn [IAKdData.t_Kd]. rewrite lookup_empty.
    split; [intros [[? Habs] | Hin]; [discriminate Habs | exact Hin] | auto].
Qed.

Lemma reader_checks_witness :
  @IAKdData.init example_builtins wrong_header_file = Raise (AssertionError None)
  ∧ @IAKdData.init example_builtins duplicate_file = Raise (AssertionError (Some "ACGT"))
  ∧ (∃ d, @IAKdData.init example_builtins example_file = Ok d
          ∧ (is_Some (IAKdData.Kd d !! "TTTT") ↔ "TTTT" ∈ ["ACGT"; "TTTT"])).
Proof.
  destruct (@reader_checks example_builtins) as (Hfirst & _ & _ & _ & _ & _ & Hread).
  split; [|split].
  - apply (Hfirst wrong_header_file _ _ eq_refl eq_refl).
  - vm_compute. reflexivity.
  - assert (Hinit : ∃ d, @IAKdData.init example_builtins example_file = Ok d)
      by (eexists; vm_compute; reflexivity).
    destruct Hinit as [d Hinit]. exists d. split; [exact Hinit|].
    destruct (Hread example_file d Hinit)
      as (l1 & l2 & l3 & l4 & f & header & rows & profile & Hlines & Hprofile & _ & Hkeys).
    injection Hlines as <- <- <- <- <-.
    injection Hprofile as <- <- <-.
    apply Hkeys.
Defined.

(** C8, the claim as stated fails: a file whose second and third header
    lines carry other text after the expected beginning is read, and a
    file whose first line is not a target line is refused with an
    [AssertionError] without any message. *)
Lemma header_check_is_prefix_without_message :
  (∃ d, @IAKdData.init example_builtins loose_header_file = Ok d
        ∧ IAKdData.neg_control_target d = "TTTT"
        ∧ IAKdData.Kd d !! "TTTT" = Some 10%R)
  ∧ @IAKdData.init example_builtins wrong_header_file = Raise (AssertionError None).
Proof.
  split.
  - eexists. split; [vm_compute; reflexivity|]. split; vm_compute; reflexivity.
  - vm_compute. reflexivity.
Qed.

(** The example estimator cannot run [fit_all_Kds] to its loop. *)
Lemma fit_all_Kds_banner_raises_witness :
  @KdFitIA.fit_all_Kds example_numpy example_scipy example_seqtools example_builtins
     example_self example_imin example_imax None None 20 example_world
  = (Raise (AttributeError "'NoneType' object has no attribute 'format'"),
     @Build_world example_numpy 0%nat ["{} Seqs, '.'={}" +:+ nl +:+ nl]).
Proof.
  assert (Hsetup : ∃ fa, @KdFitIA.setup_for_fit example_numpy example_self example_imin
                           example_imax None None false = Ok fa)
    by (eexists; vm_compute; reflexivity).
  destruct Hsetup as [fa Hsetup].
  apply (@fit_all_Kds_banner_raises example_numpy example_scipy example_seqtools
           example_builtins example_self example_imin example_imax None None fa 20
           example_world Hsetup).
Defined.

Section Strategies.
Context `{Numpy}.

Lemma add_Imin_type_inv (self s' : KdFitIA.t) (n : string) :
  KdFitIA.add_Imin_type self n = Ok s' →
  n ∈ Imin_types
  ∧ KdFitIA.Imin_names s'
    = (if bool_decide (n ∈ KdFitIA.Imin_names self) then KdFitIA.Imin_names self
       else KdFitIA.Imin_names self ++ [n])%list
  ∧ KdFitIA.Imax_names s' = KdFitIA.Imax_names self
  ∧ KdFitIA.IA s' = KdFitIA.IA self
  ∧ KdFitIA.concentrations s' = KdFitIA.concentrations self
  ∧ KdFitIA.nM_concentrations s' = KdFitIA.nM_concentrations self
  ∧ KdFitIA.target s' = KdFitIA.target self
  ∧ KdFitIA.neg_control_target s' = KdFitIA.neg_control_target self
  ∧ KdFitIA.max_clust s' = KdFitIA.max_clust self.
Proof.
  unfold KdFitIA.add_Imin_type, py_assert. intros Hrun.
  destruct (bool_decide (n ∈ ["Imin_const"; "Imin_neg_cont"])) eqn:Hok; [|discriminate Hrun].
  apply bool_decide_eq_true in Hok.
  simpl in Hrun. injection Hrun as <-. simpl. auto 10.
Qed.

Lemma add_Imax_type_inv (self s' : KdFitIA.t) (n : string) :
  KdFitIA.add_Imax_type self n = Ok s' →
  n ∈ Imax_types
  ∧ KdFitIA.Imax_names s'
    = (if bool_decide (n ∈ KdFitIA.Imax_names self) then KdFitIA.Imax_names self
       else KdFitIA.Imax_names self ++ [n])%list
  ∧ KdFitIA.Imin_names s' = KdFitIA.Imin_names self
  ∧ KdFitIA.IA s' = KdFitIA.IA self
  ∧ KdFitIA.concentrations s' = KdFitIA.concentrations self
  ∧ KdFitIA.nM_concentrations s' = KdFitIA.nM_concentrations self
  ∧ KdFitIA.target s' = KdFitIA.target self
  ∧ KdFitIA.neg_control_target s' = KdFitIA.neg_control_target self
  ∧ KdFitIA.max_clust s' = KdFitIA.max_clust self.
Proof.
  unfold KdFitIA.add_Imax_type, py_assert. intros Hrun.
  destruct (bool_decide (n ∈ ["Imax_const"; "Imax_adjusted"; "Imax_ML"])) eqn:Hok;
    [|discriminate Hrun].
  apply bool_decide_eq_true in Hok.
  simpl in Hrun. injection Hrun as <-. simpl. auto 10.
Qed.

(** What appending a name that is not yet in a duplicate-free list keeps. *)
Lemma add_name_spec (names : list string) (n : string) :
  let names' := (if bool_decide (n ∈ names) then names else names ++ [n])%list in
  (NoDup names → NoDup names')
  ∧ (∀ m, m ∈ names' ↔ m ∈ names ∨ m = n)
  ∧ (∀ first, head names = Some first → head names' = Some first).
Proof.
  cbv zeta. destruct (bool_decide (n ∈ names)) eqn:Hin.
  - apply bool_decide_eq_true in Hin. split; [auto|]. split; [|auto].
    intros m. split; [auto|]. intros [Hm | ->]; assumption.
  - apply bool_decide_eq_false in Hin. split; [|split].
    + intros Hnd. apply NoDup_app. split; [assumption|]. split; [|apply NoDup_singleton].
      intros m Hm Hm'. apply list_elem_of_singleton in Hm'. subst m. contradiction.
    + intros m. rewrite elem_of_app, list_elem_of_singleton. reflexivity.
    + intros first Hhead. destruct names; [discriminate|]. exact Hhead.
Qed.

(** The invariant of a run of strategy calls. *)
Lemma run_calls_spec (calls : list strategy_call) :
  ∀ s0 self : KdFitIA.t,
    py_for run_call calls s0 = Ok self →
    (NoDup (KdFitIA.Imin_names s0) → NoDup (KdFitIA.Imin_names self))
    ∧ (NoDup (KdFitIA.Imax_names s0) → NoDup (KdFitIA.Imax_names self))
    ∧ (∀ first, head (KdFitIA.Imin_names s0) = Some first →
                head (KdFitIA.Imin_names self) = Some first)
    ∧ (∀ first, head (KdFitIA.Imax_names s0) = Some first →
                head (KdFitIA.Imax_names self) = Some first)
    ∧ (∀ n, n ∈ KdFitIA.Imin_names self ↔ n ∈ KdFitIA.Imin_names s0 ∨ Add_Imin n ∈ calls)
    ∧ (∀ n, n ∈ KdFitIA.Imax_names self ↔ n ∈ KdFitIA.Imax_names s0 ∨ Add_Imax n ∈ calls)
    ∧ (∀ n, Add_Imin n ∈ calls → n ∈ Imin_types)
    ∧ (∀ n, Add_Imax n ∈ calls → n ∈ Imax_types)
    ∧ KdFitIA.IA self = KdFitIA.IA s0
    ∧ KdFitIA.concentrations self = KdFitIA.concentrations s0
    ∧ KdFitIA.nM_concentrations self = KdFitIA.nM_concentrations s0
    ∧ KdFitIA.target self = KdFitIA.target s0
    ∧ KdFitIA.neg_control_target self = KdFitIA.neg_control_target s0
    ∧ KdFitIA.max_clust self = KdFitIA.max_clust s0.
Proof.
  induction calls as [|c calls IH]; intros s0 self Hrun; simpl in Hrun.
  - injection Hrun as <-. repeat split; auto; try (intros [?|Hin]; [assumption|]);
      try (intros n Hin); try (apply elem_of_nil in Hin; contradiction).
  - bind_inv Hrun. rename a into s1.
    destruct (IH s1 self Hrun)
      as (Hnd1 & Hnd2 & Hh1 & Hh2 & Hin1 & Hin2 & Hal1 & Hal2 & E1 & E2 & E3 & E4 & E5 & E6).
    destruct c as [n | n]; simpl in E.
    + destruct (add_Imin_type_inv s0 s1 n E)
        as (Hn & Hnames & Hsame & F1 & F2 & F3 & F4 & F5 & F6).
      destruct (add_name_spec (KdFitIA.Imin_names s0) n) as (A1 & A2 & A3).
      cbv zeta in A1, A2, A3. rewrite <- Hnames in A1, A2, A3. rewrite Hsame in *.
      split; [auto|]. split; [auto|]. split; [auto|]. split; [auto|].
      split.
      { intros m. rewrite Hin1, A2, elem_of_cons.
        split; [intros [[?| ->]|?] | intros [?|[?|?]]]; auto.
        simplify_eq. auto. }
      split.
      { intros m. rewrite Hin2, elem_of_cons.
        split; [intros [?|?] | intros [?|[?|?]]]; auto. discriminate. }
      split.
      { intros m Hm. apply elem_of_cons in Hm as [Hm|Hm]; [|auto]. simplify_eq. exact Hn. }
      split.
      { intros m Hm. apply elem_of_cons in Hm as [Hm|Hm]; [discriminate|auto]. }
      repeat split; congruence.
    + destruct (add_Imax_type_inv s0 s1 n E)
        as (Hn & Hnames & Hsame & F1 & F2 & F3 & F4 & F5 & F6).
      destruct (add_name_spec (KdFitIA.Imax_names s0) n) as (A1 & A2 & A3).
      cbv zeta in A1, A2, A3. rewrite <- Hnames in A1, A2, A3. rewrite Hsame in *.
      split; [auto|]. split; [auto|]. split; [auto|]. split; [auto|].
      split.
      { intros m. rewrite Hin1, elem_of_cons.
        split; [intros [?|?] | intros [?|[?|?]]]; auto. discriminate. }
      split.
      { intros m. rewrite Hin2, A2, elem_of_cons.
        split; [intros [[?| ->]|?] | intros [?|[?|?]]]; auto.
        simplify_eq. auto. }
      split.
      { intros m Hm. apply elem_of_cons in Hm as [Hm|Hm]; [discriminate|auto]. }
      split.
      { intros m Hm. apply elem_of_cons in Hm as [Hm|Hm]; [|auto]. simplify_eq. exact Hn. }
      repeat split; congruence.
Qed.

End Strategies.

(** The strategy lists of an estimator.  However the two [add_..._type]
    methods are called after construction, the lists stay free of
    duplicates, keep their default in first place, and hold exactly the
    default and the names added, all of them admitted names; the other
    attributes are those set by [__init__]. *)
Theorem strategy_lists_invariant `{Numpy} (IA : IntensityArray.t) (max_clust : nat)
    (calls : list strategy_call) (self : KdFitIA.t)
    (Hrun : configure IA max_clust calls = Ok self) :
  NoDup (KdFitIA.Imin_names self) ∧ NoDup (KdFitIA.Imax_names self)
  ∧ head (KdFitIA.Imin_names self) = Some "Imin_const"
  ∧ head (KdFitIA.Imax_names self) = Some "Imax_adjusted"
  ∧ (∀ n, n ∈ KdFitIA.Imin_names self ↔ n = "Imin_const" ∨ Add_Imin n ∈ calls)
  ∧ (∀ n, n ∈ KdFitIA.Imax_names self ↔ n = "Imax_adjusted" ∨ Add_Imax n ∈ calls)
  ∧ (∀ n, n ∈ KdFitIA.Imin_names self → n ∈ Imin_types)
  ∧ (∀ n, n ∈ KdFitIA.Imax_names self → n ∈ Imax_types)
  ∧ KdFitIA.IA self = IA
  ∧ KdFitIA.concentrations self = IntensityArray.course_trait_list IA
  ∧ KdFitIA.nM_concentrations self
    = map (λ conc, conc / 1000) (IntensityArray.course_trait_list IA)
  ∧ KdFitIA.max_clust self = max_clust.
Proof.
  unfold configure in Hrun. bind_inv Hrun. rename a into s0.
  unfold KdFitIA.init in E. bind_inv E. injection E as <-.
  destruct (run_calls_spec calls _ self Hrun)
    as (Hnd1 & Hnd2 & Hh1 & Hh2 & Hin1 & Hin2 & Hal1 & Hal2 & E1 & E2 & E3 & _ & _ & E6).
  simpl in *.
  split; [apply Hnd1, NoDup_singleton|]. split; [apply Hnd2, NoDup_singleton|].
  split; [auto|]. split; [auto|].
  assert (Hmin : ∀ n, n ∈ KdFitIA.Imin_names self ↔ n = "Imin_const" ∨ Add_Imin n ∈ calls).
  { intros n. rewrite Hin1, list_elem_of_singleton. reflexivity. }
  assert (Hmax : ∀ n, n ∈ KdFitIA.Imax_names self ↔ n = "Imax_adjusted" ∨ Add_Imax n ∈ calls).
  { intros n. rewrite Hin2, list_elem_of_singleton. reflexivity. }
  split; [exact Hmin|]. split; [exact Hmax|].
  split.
  { intros n Hn. apply Hmin in Hn as [-> | Hn]; [|auto].
    apply elem_of_cons. left. reflexivity. }
  split.
  { intros n Hn. apply Hmax in Hn as [-> | Hn]; [|auto].
    apply elem_of_cons. right. apply elem_of_cons. left. reflexivity. }
  auto.
Qed.

(** Adding a strategy.  A name outside the admitted ones is refused with
    the name as the message; an admitted name is appended unless it is
    already listed, so that adding it again changes nothing. *)
Theorem add_strategy_idempotent `{Numpy} (self : KdFitIA.t) (n : string) :
  (n ∉ Imin_types → KdFitIA.add_Imin_type self n = Raise (AssertionError (Some n)))
  ∧ (n ∉ Imax_types → KdFitIA.add_Imax_type self n = Raise (AssertionError (Some n)))
  ∧ (n ∈ Imin_types →
       ∃ s1, KdFitIA.add_Imin_type self n = Ok s1
             ∧ KdFitIA.add_Imin_type s1 n = Ok s1
             ∧ n ∈ KdFitIA.Imin_names s1
             ∧ KdFitIA.Imin_names self `prefix_of` KdFitIA.Imin_names s1
             ∧ (n ∈ KdFitIA.Imin_names self → s1 = self))
  ∧ (n ∈ Imax_types →
       ∃ s1, KdFitIA.add_Imax_type self n = Ok s1
             ∧ KdFitIA.add_Imax_type s1 n = Ok s1
             ∧ n ∈ KdFitIA.Imax_names s1
             ∧ KdFitIA.Imax_names self `prefix_of` KdFitIA.Imax_names s1
             ∧ (n ∈ KdFitIA.Imax_names self → s1 = self)).
Proof.
  split; [|split; [|split]].
  - intros Hn. unfold KdFitIA.add_Imin_type, py_assert.
    rewrite (bool_decide_eq_false_2 (n ∈ ["Imin_const"; "Imin_neg_cont"])) by exact Hn.
    reflexivity.
  - intros Hn. unfold KdFitIA.add_Imax_type, py_assert.
    rewrite (bool_decide_eq_false_2 (n ∈ ["Imax_const"; "Imax_adjusted"; "Imax_ML"]))
      by exact Hn.
    reflexivity.
  - intros Hn. unfold KdFitIA.add_Imin_type, py_assert.
    rewrite !(bool_decide_eq_true_2 (n ∈ ["Imin_const"; "Imin_neg_cont"])) by exact Hn.
    simpl.
    destruct (bool_decide (n ∈ KdFitIA.Imin_names self)) eqn:Hin.
    + apply bool_decide_eq_true in Hin. destruct self; simpl in *.
      eexists. split; [reflexivity|]. simpl.
      rewrite bool_decide_eq_true_2 by exact Hin.
      split; [reflexivity|]. split; [exact Hin|]. split; [reflexivity|]. reflexivity.
    + apply bool_decide_eq_false in Hin.
      eexists. split; [reflexivity|]. simpl.
      rewrite bool_decide_eq_true_2
        by (apply elem_of_app; right; apply list_elem_of_singleton; reflexivity).
      split; [reflexivity|].
      split; [apply elem_of_app; right; apply list_elem_of_singleton; reflexivity|].
      split; [apply prefix_app_r; reflexivity|]. intros Hin'. contradiction.
  - intros Hn. unfold KdFitIA.add_Imax_type, py_assert.
    rewrite !(bool_decide_eq_true_2 (n ∈ ["Imax_const"; "Imax_adjusted"; "Imax_ML"]))
      by exact Hn.
    simpl.
    destruct (bool_decide (n ∈ KdFitIA.Imax_names self)) eqn:Hin.
    + apply bool_decide_eq_true in Hin. destruct self; simpl in *.
      eexists. split; [reflexivity|]. simpl.
      rewrite bool_decide_eq_true_2 by exact Hin.
      split; [reflexivity|]. split; [exact Hin|]. split; [reflexivity|]. reflexivity.
    + apply bool_decide_eq_false in Hin.
      eexists. split; [reflexivity|]. simpl.
      rewrite bool_decide_eq_true_2
        by (apply elem_of_app; right; apply list_elem_of_singleton; reflexivity).
      split; [reflexivity|].
      split; [apply elem_of_app; right; apply list_elem_of_singleton; reflexivity|].
      split; [apply prefix_app_r; reflexivity|]. intros Hin'. contradiction.
Qed.

Section Setup.
Context `{Numpy} `{Scipy} `{Seqtools} `{Builtins}.

(** A loop that raises at an element raises, once the elements before it
    have passed. *)
Lemma py_for_raises {A S : Type} (body : S → A → res S) (l1 l2 : list A) (a : A) (e : exn) :
  (∀ s a', a' ∈ l1 → ∃ s', body s a' = Ok s') →
  (∀ s, body s a = Raise e) →
  ∀ s, py_for body (l1 ++ a :: l2) s = Raise e.
Proof.
  intros Hpass Hraise. induction l1 as [|a1 l1 IH]; intros s; simpl.
  - rewrite Hraise. reflexivity.
  - destruct (Hpass s a1) as [s' Hs']; [apply elem_of_cons; left; reflexivity|].
    rewrite Hs'. simpl. apply IH.
    intros s0 a' Hin. apply Hpass. apply elem_of_cons. right. exact Hin.
Qed.

(** The loop of [setup_for_fit] over the product of the strategy lists. *)
Lemma setup_product_loop (imin : KdFitIA.Imin_attrs) (imax : KdFitIA.Imax_attrs)
    (ml : option KdFitIA.ML_attrs) (l : list (string * string)) :
  ∀ fa0 fa : KdFitIA.fit_attrs,
    py_for
      (λ fa '(Imin_name, Imax_name),
         Imin ← KdFitIA.getattr_Imin imin Imin_name;
         Imax ← KdFitIA.getattr_Imax imax ml Imax_name;
         Ok {| KdFitIA.fit_func_given_Imin_max_names :=
                 <[(Imin_name, Imax_name) := KdFitIA.curve_fit_Kd_method]>
                   (KdFitIA.fit_func_given_Imin_max_names fa);
               KdFitIA.Imin_max_pairs_given_names :=
                 <[(Imin_name, Imax_name) := (Imin, Imax)]>
                   (KdFitIA.Imin_max_pairs_given_names fa) |})
      l fa0 = Ok fa →
    (∀ k, k ∈ l →
       ∃ Imin Imax, KdFitIA.getattr_Imin imin k.1 = Ok Imin
         ∧ KdFitIA.getattr_Imax imax ml k.2 = Ok Imax
         ∧ KdFitIA.fit_func_given_Imin_max_names fa !! k = Some KdFitIA.curve_fit_Kd_method
         ∧ KdFitIA.Imin_max_pairs_given_names fa !! k = Some (Imin, Imax))
    ∧ (∀ k, k ∉ l →
         KdFitIA.fit_func_given_Imin_max_names fa !! k
         = KdFitIA.fit_func_given_Imin_max_names fa0 !! k
         ∧ KdFitIA.Imin_max_pairs_given_names fa !! k
           = KdFitIA.Imin_max_pairs_given_names fa0 !! k).
Proof.
  induction l as [|[a b] l IH]; intros fa0 fa Hrun; simpl in Hrun.
  - injection Hrun as <-. split; [|auto].
    intros k Hk. apply elem_of_nil in Hk. contradiction.
  - bind_inv Hrun. rename a0 into fa1. bind_inv E. injection E as <-.
    destruct (IH _ _ Hrun) as [Hin Hout]. split.
    + intros k Hk. destruct (decide (k ∈ l)) as [Hl|Hl]; [apply Hin, Hl|].
      apply elem_of_cons in Hk as [-> | Hk]; [|contradiction].
      destruct (Hout _ Hl) as [Hf Hp]. simpl in Hf, Hp.
      rewrite lookup_insert_eq in Hf. rewrite lookup_insert_eq in Hp. simpl. eauto 10.
    + intros k Hk. apply not_elem_of_cons in Hk as [Hne Hl].
      destruct (Hout _ Hl) as [Hf Hp]. simpl in Hf, Hp.
      rewrite lookup_insert_ne in Hf by congruence. rewrite lookup_insert_ne in Hp by congruence. auto.
Qed.

(** Its loop over the Imin names, for the [Imax_ML] pairs. *)
Lemma setup_ML_loop (imin : KdFitIA.Imin_attrs) (ml : option KdFitIA.ML_attrs)
    (l : list string) :
  ∀ fa0 fa : KdFitIA.fit_attrs,
    py_for
      (λ fa Imin_name,
         Imin ← KdFitIA.getattr_Imin imin Imin_name;
         by_imin ← match ml with
                   | Some ml => Ok (KdFitIA.Imax_ML ml)
                   | None => Raise (KdFitIA.no_attribute "Imax_ML")
                   end;
         Imax ← py_getitem by_imin Imin_name;
         Ok {| KdFitIA.fit_func_given_Imin_max_names :=
                 <[(Imin_name, "Imax_ML") := KdFitIA.ML_fit_Kd_method]>
                   (KdFitIA.fit_func_given_Imin_max_names fa);
               KdFitIA.Imin_max_pairs_given_names :=
                 <[(Imin_name, "Imax_ML") := (Imin, PerConc Imax)]>
                   (KdFitIA.Imin_max_pairs_given_names fa) |})
      l fa0 = Ok fa →
    (∀ a, a ∈ l →
       ∃ Imin ml' Imax, KdFitIA.getattr_Imin imin a = Ok Imin
         ∧ ml = Some ml' ∧ KdFitIA.Imax_ML ml' !! a = Some Imax
         ∧ KdFitIA.fit_func_given_Imin_max_names fa !! (a, "Imax_ML")
           = Some KdFitIA.ML_fit_Kd_method
         ∧ KdFitIA.Imin_max_pairs_given_names fa !! (a, "Imax_ML")
           = Some (Imin, PerConc Imax))
    ∧ (∀ k, ¬ (k.1 ∈ l ∧ k.2 = "Imax_ML") →
         KdFitIA.fit_func_given_Imin_max_names fa !! k
         = KdFitIA.fit_func_given_Imin_max_names fa0 !! k
         ∧ KdFitIA.Imin_max_pairs_given_names fa !! k
           = KdFitIA.Imin_max_pairs_given_names fa0 !! k).
Proof.
  induction l as [|a l IH]; intros fa0 fa Hrun; simpl in Hrun.
  - injection Hrun as <-. split; [|auto].
    intros k Hk. apply elem_of_nil in Hk. contradiction.
  - destruct ml as [ml'|].
    2:{ bind_inv Hrun. bind_inv E. discriminate E. }
    bind_inv Hrun. rename a0 into fa1. bind_inv E. rename a0 into Imin, a1 into Imax.
    injection E as <-.
    assert (EML : KdFitIA.Imax_ML ml' !! a = Some Imax).
    { unfold py_getitem in E1. destruct (KdFitIA.Imax_ML ml' !! a); [|discriminate E1].
      injection E1 as <-. reflexivity. }
    destruct (IH _ _ Hrun) as [Hin Hout]. split.
    + intros a' Ha'. destruct (decide (a' ∈ l)) as [Hl|Hl]; [apply Hin, Hl|].
      apply elem_of_cons in Ha' as [-> | Ha']; [|contradiction].
      destruct (Hout (a, "Imax_ML")) as [Hf Hp]; [simpl; tauto|]. simpl in Hf, Hp.
      rewrite lookup_insert_eq in Hf. rewrite lookup_insert_eq in Hp. eauto 10.
    + intros [k1 k2] Hk. simpl in Hk.
      destruct (Hout (k1, k2)) as [Hf Hp].
      { simpl. intros [Hl ->]. apply Hk. split; [|reflexivity].
        apply elem_of_cons. right. exact Hl. }
      assert (Hne : (a, "Imax_ML") ≠ (k1, k2)).
      { intros Heq. injection Heq as <- <-. apply Hk. split; [|reflexivity].
        apply elem_of_cons. left. reflexivity. }
      simpl in Hf, Hp. rewrite lookup_insert_ne in Hf by exact Hne.
      rewrite lookup_insert_ne in Hp by exact Hne. auto.
Qed.

Lemma elem_of_list_prod_names (a b : string) (l1 l2 : list string) :
  (a, b) ∈ list_prod l1 l2 ↔ a ∈ l1 ∧ b ∈ l2.
Proof. rewrite !list_elem_of_In. apply in_prod_iff. Qed.

(** What a fresh [setup_for_fit] builds. *)
Lemma setup_for_fit_spec (self : KdFitIA.t) (imin : KdFitIA.Imin_attrs)
    (imax : KdFitIA.Imax_attrs) (ml : option KdFitIA.ML_attrs)
    (current : option KdFitIA.fit_attrs) (force : bool) (fa : KdFitIA.fit_attrs) :
  KdFitIA.setup_for_fit self imin imax ml current force = Ok fa →
  current = None ∨ force = true →
  ∀ a b,
    (is_Some (KdFitIA.fit_func_given_Imin_max_names fa !! (a, b))
     ↔ a ∈ KdFitIA.Imin_names self ∧ b ∈ KdFitIA.Imax_names self)
    ∧ (is_Some (KdFitIA.Imin_max_pairs_given_names fa !! (a, b))
       ↔ a ∈ KdFitIA.Imin_names self ∧ b ∈ KdFitIA.Imax_names self)
    ∧ (a ∈ KdFitIA.Imin_names self → b ∈ KdFitIA.Imax_names self →
       ∃ Imin Imax,
         KdFitIA.getattr_Imin imin a = Ok Imin
         ∧ KdFitIA.Imin_max_pairs_given_names fa !! (a, b) = Some (Imin, Imax)
         ∧ if bool_decide (b = "Imax_ML")
           then KdFitIA.fit_func_given_Imin_max_names fa !! (a, b)
                = Some KdFitIA.ML_fit_Kd_method
                ∧ ∃ ml' l, ml = Some ml' ∧ KdFitIA.Imax_ML ml' !! a = Some l
                           ∧ Imax = PerConc l
           else KdFitIA.fit_func_given_Imin_max_names fa !! (a, b)
                = Some KdFitIA.curve_fit_Kd_method
                ∧ KdFitIA.getattr_Imax imax ml b = Ok Imax).
Proof.
  intros Hrun Hfresh a b.
  assert (Hloops :
    (fa1 ← py_for
             (λ fa '(Imin_name, Imax_name),
                Imin ← KdFitIA.getattr_Imin imin Imin_name;
                Imax ← KdFitIA.getattr_Imax imax ml Imax_name;
                Ok {| KdFitIA.fit_func_given_Imin_max_names :=
                        <[(Imin_name, Imax_name) := KdFitIA.curve_fit_Kd_method]>
                          (KdFitIA.fit_func_given_Imin_max_names fa);
                      KdFitIA.Imin_max_pairs_given_names :=
                        <[(Imin_name, Imax_name) := (Imin, Imax)]>
                          (KdFitIA.Imin_max_pairs_given_names fa) |})
             (list_prod (KdFitIA.Imin_names self) (KdFitIA.Imax_names self))
             {| KdFitIA.fit_func_given_Imin_max_names := ∅;
                KdFitIA.Imin_max_pairs_given_names := ∅ |};
     if bool_decide ("Imax_ML" ∈ KdFitIA.Imax_names self) then
       py_for
         (λ fa Imin_name,
            Imin ← KdFitIA.getattr_Imin imin Imin_name;
            by_imin ← match ml with
                      | Some ml => Ok (KdFitIA.Imax_ML ml)
                      | None => Raise (KdFitIA.no_attribute "Imax_ML")
                      end;
            Imax ← py_getitem by_imin Imin_name;
            Ok {| KdFitIA.fit_func_given_Imin_max_names :=
                    <[(Imin_name, "Imax_ML") := KdFitIA.ML_fit_Kd_method]>
                      (KdFitIA.fit_func_given_Imin_max_names fa);
                  KdFitIA.Imin_max_pairs_given_names :=
                    <[(Imin_name, "Imax_ML") := (Imin, PerConc Imax)]>
                      (KdFitIA.Imin_max_pairs_given_names fa) |})
         (KdFitIA.Imin_names self) fa1
     else Ok fa1) = Ok fa).
  { unfold KdFitIA.setup_for_fit in Hrun.
    destruct Hfresh as [-> | ->]; [exact Hrun|].
    destruct current; exact Hrun. }
  clear Hrun. unfold mbind, res_mbind, res_bind in Hloops.
  match type of Hloops with
  | match ?m with Ok _ => _ | Raise _ => _ end = _ => destruct m as [fa1|] eqn:Hfirst
  end; [|discriminate Hloops].
  apply setup_product_loop in Hfirst as [Hin Hout].
  assert (Hnone : ¬ (a ∈ KdFitIA.Imin_names self ∧ b ∈ KdFitIA.Imax_names self) →
            KdFitIA.fit_func_given_Imin_max_names fa1 !! (a, b) = None
            ∧ KdFitIA.Imin_max_pairs_given_names fa1 !! (a, b) = None).
  { intros Hab. destruct (Hout (a, b)) as [Hf Hp].
    { rewrite elem_of_list_prod_names. exact Hab. }
    simpl in Hf, Hp. rewrite lookup_empty in Hf. rewrite lookup_empty in Hp. auto. }
  destruct (bool_decide ("Imax_ML" ∈ KdFitIA.Imax_names self)) eqn:HML.
  - apply bool_decide_eq_true in HML.
    apply setup_ML_loop in Hloops as [Hin2 Hout2].
    assert (Hsome : a ∈ KdFitIA.Imin_names self → b ∈ KdFitIA.Imax_names self →
       ∃ Imin Imax,
         KdFitIA.getattr_Imin imin a = Ok Imin
         ∧ KdFitIA.Imin_max_pairs_given_names fa !! (a, b) = Some (Imin, Imax)
         ∧ if bool_decide (b = "Imax_ML")
           then KdFitIA.fit_func_given_Imin_max_names fa !! (a, b)
                = Some KdFitIA.ML_fit_Kd_method
                ∧ ∃ ml' l, ml = Some ml' ∧ KdFitIA.Imax_ML ml' !! a = Some l
                           ∧ Imax = PerConc l
           else KdFitIA.fit_func_given_Imin_max_names fa !! (a, b)
                = Some KdFitIA.curve_fit_Kd_method
                ∧ KdFitIA.getattr_Imax imax ml b = Ok Imax).
    { intros Ha Hb. destruct (bool_decide (b = "Imax_ML")) eqn:Hb'.
      - apply bool_decide_eq_true in Hb'. subst b.
        destruct (Hin2 a Ha) as (Imin & ml' & Imax & HImin & -> & HImax & Hf & Hp).
        exists Imin, (PerConc Imax). eauto 10.
      - apply bool_decide_eq_false in Hb'.
        destruct (Hin (a, b)) as (Imin & Imax & HImin & HImax & Hf & Hp).
        { apply elem_of_list_prod_names. auto. }
        destruct (Hout2 (a, b)) as [Hf2 Hp2]; [simpl; tauto|].
        exists Imin, Imax. rewrite Hf2, Hp2. auto. }
    split; [|split; [|exact Hsome]].
    + split.
      * intros Hs. destruct (decide (a ∈ KdFitIA.Imin_names self
                                      ∧ b ∈ KdFitIA.Imax_names self)) as [?|Hab];
          [assumption|].
        destruct (Hout2 (a, b)) as [Hf2 _]; [simpl; intros [Ha ->]; tauto|].
        destruct (Hnone Hab) as [Hf _]. rewrite Hf2, Hf in Hs.
        destruct Hs as [? Hs]. discriminate Hs.
      * intros [Ha Hb]. destruct (Hsome Ha Hb) as (Imin & Imax & _ & _ & Hcase).
        destruct (bool_decide (b = "Imax_ML")); destruct Hcase as [-> _]; eauto.
    + split.
      * intros Hs. destruct (decide (a ∈ KdFitIA.Imin_names self
                                      ∧ b ∈ KdFitIA.Imax_names self)) as [?|Hab];
          [assumption|].
        destruct (Hout2 (a, b)) as [_ Hp2]; [simpl; intros [Ha ->]; tauto|].
        destruct (Hnone Hab) as [_ Hp]. rewrite Hp2, Hp in Hs.
        destruct Hs as [? Hs]. discriminate Hs.
      * intros [Ha Hb]. destruct (Hsome Ha Hb) as (Imin & Imax & _ & -> & _). eauto.
  - apply bool_decide_eq_false in HML. injection Hloops as <-.
    assert (Hsome : a ∈ KdFitIA.Imin_names self → b ∈ KdFitIA.Imax_names self →
       ∃ Imin Imax,
         KdFitIA.getattr_Imin imin a = Ok Imin
         ∧ KdFitIA.Imin_max_pairs_given_names fa1 !! (a, b) = Some (Imin, Imax)
         ∧ if bool_decide (b = "Imax_ML")
           then KdFitIA.fit_func_given_Imin_max_names fa1 !! (a, b)
                = Some KdFitIA.ML_fit_Kd_method
                ∧ ∃ ml' l, ml = Some ml' ∧ KdFitIA.Imax_ML ml' !! a = Some l
                           ∧ Imax = PerConc l
           else KdFitIA.fit_func_given_Imin_max_names fa1 !! (a, b)
                = Some KdFitIA.curve_fit_Kd_method
                ∧ KdFitIA.getattr_Imax imax ml b = Ok Imax).
    { intros Ha Hb. rewrite bool_decide_eq_false_2 by (intros ->; contradiction).
      destruct (Hin (a, b)) as (Imin & Imax & HImin & HImax & Hf & Hp).
      { apply elem_of_list_prod_names. auto. }
      exists Imin, Imax. auto. }
    split; [|split; [|exact Hsome]].
    + split.
      * intros Hs. destruct (decide (a ∈ KdFitIA.Imin_names self
                                      ∧ b ∈ KdFitIA.Imax_names self)) as [?|Hab];
          [assumption|].
        destruct (Hnone Hab) as [Hf _]. rewrite Hf in Hs.
        destruct Hs as [? Hs]. discriminate Hs.
      * intros [Ha Hb]. destruct (Hsome Ha Hb) as (Imin & Imax & _ & _ & Hcase).
        destruct (bool_decide (b = "Imax_ML")); destruct Hcase as [-> _]; eauto.
    + split.
      * intros Hs. destruct (decide (a ∈ KdFitIA.Imin_names self
                                      ∧ b ∈ KdFitIA.Imax_names self)) as [?|Hab];
          [assumption|].
        destruct (Hnone Hab) as [_ Hp]. rewrite Hp in Hs.
        destruct Hs as [? Hs]. discriminate Hs.
      * intros [Ha Hb]. destruct (Hsome Ha Hb) as (Imin & Imax & _ & -> & _). eauto.
Qed.

End Setup.

Lemma strategy_lists_invariant_witness :
  ∃ self, @configure example_numpy example_IA 2000 example_calls = Ok self
          ∧ NoDup (KdFitIA.Imin_names self) ∧ NoDup (KdFitIA.Imax_names self)
          ∧ "Imin_neg_cont" ∈ KdFitIA.Imin_names self.
Proof.
  assert (Hrun : ∃ self, @configure example_numpy example_IA 2000 example_calls = Ok self)
    by (eexists; reflexivity).
  destruct Hrun as [self Hrun]. exists self. split; [exact Hrun|].
  destruct (@strategy_lists_invariant example_numpy example_IA 2000 example_calls self Hrun)
    as (Hnd1 & Hnd2 & _ & _ & Hmin & _).
  split; [exact Hnd1|]. split; [exact Hnd2|].
  apply Hmin. right. apply elem_of_cons. right. apply elem_of_cons. left. reflexivity.
Defined.

(** The strategy pairs of [setup_for_fit].  A fresh setup that returns has
    built two dicts over the same keys, the pairs of a listed Imin name and
    a listed Imax name; a pair with [Imax_ML] dispatches to [ML_fit_Kd] and
    carries the calibrated profile of its Imin name, every other pair
    dispatches to [curve_fit_Kd] and carries the two attributes named. *)
Theorem setup_for_fit_strategy_pairs `{Numpy} (self : KdFitIA.t)
    (imin : KdFitIA.Imin_attrs) (imax : KdFitIA.Imax_attrs) (ml : option KdFitIA.ML_attrs)
    (force : bool) (fa : KdFitIA.fit_attrs)
    (Hrun : KdFitIA.setup_for_fit self imin imax ml None force = Ok fa) :
  ∀ a b,
    (is_Some (KdFitIA.fit_func_given_Imin_max_names fa !! (a, b))
     ↔ a ∈ KdFitIA.Imin_names self ∧ b ∈ KdFitIA.Imax_names self)
    ∧ (is_Some (KdFitIA.Imin_max_pairs_given_names fa !! (a, b))
       ↔ a ∈ KdFitIA.Imin_names self ∧ b ∈ KdFitIA.Imax_names self)
    ∧ (a ∈ KdFitIA.Imin_names self → b ∈ KdFitIA.Imax_names self →
       ∃ Imin Imax,
         KdFitIA.getattr_Imin imin a = Ok Imin
         ∧ KdFitIA.Imin_max_pairs_given_names fa !! (a, b) = Some (Imin, Imax)
         ∧ if bool_decide (b = "Imax_ML")
           then KdFitIA.fit_func_given_Imin_max_names fa !! (a, b)
                = Some KdFitIA.ML_fit_Kd_method
                ∧ ∃ ml' l, ml = Some ml' ∧ KdFitIA.Imax_ML ml' !! a = Some l
                           ∧ Imax = PerConc l
           else KdFitIA.fit_func_given_Imin_max_names fa !! (a, b)
                = Some KdFitIA.curve_fit_Kd_method
                ∧ KdFitIA.getattr_Imax imax ml b = Ok Imax).
Proof. apply (setup_for_fit_spec self imin imax ml None force fa Hrun). left. reflexivity. Qed.

Lemma setup_for_fit_strategy_pairs_witness :
  ∃ fa, @KdFitIA.setup_for_fit example_numpy example_self_ML example_imin example_imax
          (Some example_ml) None false = Ok fa
        ∧ KdFitIA.fit_func_given_Imin_max_names fa !! ("Imin_const", "Imax_ML")
          = Some KdFitIA.ML_fit_Kd_method
        ∧ KdFitIA.Imin_max_pairs_given_names fa !! ("Imin_const", "Imax_ML")
          = Some (Scalar 1, PerConc [10; 10])
        ∧ ¬ is_Some (KdFitIA.fit_func_given_Imin_max_names fa !! ("Imin_const", "Imax_const")).
Proof.
  assert (Hrun : ∃ fa, @KdFitIA.setup_for_fit example_numpy example_self_ML example_imin
                         example_imax (Some example_ml) None false = Ok fa)
    by (eexists; reflexivity).
  destruct Hrun as [fa Hrun]. exists fa. split; [exact Hrun|].
  pose proof (@setup_for_fit_strategy_pairs example_numpy example_self_ML example_imin
                example_imax (Some example_ml) false fa Hrun) as Hspec.
  destruct (Hspec "Imin_const" "Imax_ML") as (_ & _ & Hpair).
  destruct Hpair as (Imin & Imax & HImin & Hp & Hf & ml' & l & Hml & Hl & ->).
  { apply elem_of_cons. left. reflexivity. }
  { apply elem_of_cons. right. apply elem_of_cons. left. reflexivity. }
  injection HImin as <-. injection Hml as <-.
  assert (l = [10; 10]) as -> by (apply (inj Some); rewrite <- Hl; reflexivity).
  split; [exact Hf|]. split; [exact Hp|].
  destruct (Hspec "Imin_const" "Imax_const") as (Hkeys & _).
  intros Hs. apply Hkeys in Hs as [_ Hb].
  apply elem_of_cons in Hb as [Hb|Hb]; [discriminate Hb|].
  apply elem_of_cons in Hb as [Hb|Hb]; [discriminate Hb|].
  apply elem_of_nil in Hb. exact Hb.
Defined.

(** [setup_for_fit] runs once.  After a setup, a strategy added with
    [add_Imax_type] is not among the pairs, and a later [setup_for_fit()]
    returns the dicts it finds, whatever has changed since; only
    [setup_for_fit(force=True)] brings the added strategy in. *)
Theorem setup_for_fit_is_cached `{Numpy} (self self' : KdFitIA.t)
    (imin : KdFitIA.Imin_attrs) (imax : KdFitIA.Imax_attrs) (ml : option KdFitIA.ML_attrs)
    (fa : KdFitIA.fit_attrs) (name : string)
    (Hsetup : KdFitIA.setup_for_fit self imin imax ml None false = Ok fa)
    (Hadd : KdFitIA.add_Imax_type self name = Ok self')
    (Hnew : name ∉ KdFitIA.Imax_names self) :
  (∀ imin' imax' ml',
     KdFitIA.setup_for_fit self' imin' imax' ml' (Some fa) false = Ok fa)
  ∧ (∀ a, KdFitIA.fit_func_given_Imin_max_names fa !! (a, name) = None
          ∧ KdFitIA.Imin_max_pairs_given_names fa !! (a, name) = None)
  ∧ (∀ fa', KdFitIA.setup_for_fit self' imin imax ml (Some fa) true = Ok fa' →
            ∀ a, a ∈ KdFitIA.Imin_names self →
                 is_Some (KdFitIA.fit_func_given_Imin_max_names fa' !! (a, name))
                 ∧ is_Some (KdFitIA.Imin_max_pairs_given_names fa' !! (a, name))).
Proof.
  split; [reflexivity|]. split.
  - intros a.
    destruct (setup_for_fit_spec self imin imax ml None false fa Hsetup (or_introl eq_refl)
                a name) as (Hf & Hp & _).
    split; apply eq_None_not_Some; intros Hs; [apply Hf in Hs | apply Hp in Hs];
      destruct Hs as [_ Hs]; contradiction.
  - intros fa' Hforce a Ha.
    destruct (add_Imax_type_inv self self' name Hadd) as (_ & Hnames & Hsame & _).
    destruct (add_name_spec (KdFitIA.Imax_names self) name) as (_ & Hin & _).
    cbv zeta in Hin. rewrite <- Hnames in Hin.
    destruct (setup_for_fit_spec self' imin imax ml (Some fa) true fa' Hforce
                (or_intror eq_refl) a name) as (Hf & Hp & _).
    rewrite Hsame in Hf, Hp.
    split; [apply Hf | apply Hp]; (split; [exact Ha | apply Hin; right; reflexivity]).
Qed.

Lemma setup_for_fit_is_cached_witness :
  ∃ self' fa,
    @KdFitIA.add_Imax_type example_numpy example_self "Imax_const" = Ok self'
    ∧ @KdFitIA.setup_for_fit example_numpy self' example_imin example_imax None
        (Some fa) false = Ok fa
    ∧ KdFitIA.fit_func_given_Imin_max_names fa !! ("Imin_const", "Imax_const") = None.
Proof.
  assert (Hrun : ∃ fa, @KdFitIA.setup_for_fit example_numpy example_self example_imin
                         example_imax None None false = Ok fa)
    by (eexists; reflexivity).
  destruct Hrun as [fa Hrun].
  assert (Hadd : ∃ self', @KdFitIA.add_Imax_type example_numpy example_self "Imax_const"
                           = Ok self')
    by (eexists; reflexivity).
  destruct Hadd as [self' Hadd].
  assert (Hnew : "Imax_const" ∉ KdFitIA.Imax_names example_self).
  { intros Hin. apply list_elem_of_singleton in Hin. discriminate Hin. }
  destruct (@setup_for_fit_is_cached example_numpy example_self self' example_imin
              example_imax None fa "Imax_const" Hrun Hadd Hnew) as (Hcached & Hnone & _).
  exists self', fa. split; [exact Hadd|]. split; [apply Hcached|].
  apply (Hnone "Imin_const").
Defined.

Section Calibration.
Context `{Numpy} `{Scipy} `{Seqtools} `{Builtins}.

Lemma getattr_Imin_admitted (imin : KdFitIA.Imin_attrs) (n : string) :
  n ∈ Imin_types → ∃ Imin, KdFitIA.getattr_Imin imin n = Ok Imin.
Proof.
  intros Hn. apply elem_of_cons in Hn as [-> | Hn]; [eexists; reflexivity|].
  apply list_elem_of_singleton in Hn as ->. eexists. reflexivity.
Qed.

Lemma getattr_Imax_admitted (imax : KdFitIA.Imax_attrs) (ml : option KdFitIA.ML_attrs)
    (n : string) :
  n ∈ Imax_types → n ≠ "Imax_ML" → ∃ Imax, KdFitIA.getattr_Imax imax ml n = Ok Imax.
Proof.
  intros Hn Hne. apply elem_of_cons in Hn as [-> | Hn]; [eexists; reflexivity|].
  apply elem_of_cons in Hn as [-> | Hn]; [eexists; reflexivity|].
  apply list_elem_of_singleton in Hn. contradiction.
Qed.

(** Without the attribute [Imax_ML], the product loop of [setup_for_fit]
    stops at the first pair that names it. *)
Lemma setup_for_fit_without_Imax_ML (self : KdFitIA.t) (imin : KdFitIA.Imin_attrs)
    (imax : KdFitIA.Imax_attrs) (current : option KdFitIA.fit_attrs) (force : bool)
    (first : string) :
  head (KdFitIA.Imin_names self) = Some first →
  first ∈ Imin_types →
  (∀ n, n ∈ KdFitIA.Imax_names self → n ∈ Imax_types) →
  "Imax_ML" ∈ KdFitIA.Imax_names self →
  current = None ∨ force = true →
  KdFitIA.setup_for_fit self imin imax None current force = Raise (KdFitIA.no_attribute "Imax_ML").
Proof.
  intros Hhead Hfirst Hmax HML Hfresh.
  destruct (KdFitIA.Imin_names self) as [|n0 rest] eqn:Hnames; [discriminate Hhead|].
  injection Hhead as ->.
  apply list_elem_of_split_l in HML as (pre & post & Hsplit & Hpre).
  assert (Hprod : list_prod (KdFitIA.Imin_names self) (KdFitIA.Imax_names self)
                  = (map (λ y, (first, y)) pre
                     ++ (first, "Imax_ML")
                        :: (map (λ y, (first, y)) post
                            ++ list_prod rest (KdFitIA.Imax_names self)))%list).
  { rewrite Hnames. cbn [list_prod]. rewrite Hsplit at 1.
    rewrite map_app, <- app_assoc. reflexivity. }
  assert (Hloop : ∀ fa0,
    py_for
      (λ fa '(Imin_name, Imax_name),
         Imin ← KdFitIA.getattr_Imin imin Imin_name;
         Imax ← KdFitIA.getattr_Imax imax None Imax_name;
         Ok {| KdFitIA.fit_func_given_Imin_max_names :=
                 <[(Imin_name, Imax_name) := KdFitIA.curve_fit_Kd_method]>
                   (KdFitIA.fit_func_given_Imin_max_names fa);
               KdFitIA.Imin_max_pairs_given_names :=
                 <[(Imin_name, Imax_name) := (Imin, Imax)]>
                   (KdFitIA.Imin_max_pairs_given_names fa) |})
      (list_prod (KdFitIA.Imin_names self) (KdFitIA.Imax_names self)) fa0
    = Raise (KdFitIA.no_attribute "Imax_ML")).
  { rewrite Hprod. apply py_for_raises.
    - intros s [a b] Hin. apply list_elem_of_fmap in Hin as (y & Heq & Hy).
      injection Heq as -> ->.
      destruct (getattr_Imin_admitted imin first Hfirst) as [Imin ->].
      destruct (getattr_Imax_admitted imax None y) as [Imax ->].
      + apply Hmax. rewrite Hsplit. apply elem_of_app. left. exact Hy.
      + intros ->. contradiction.
      + eexists. reflexivity.
    - intros s. destruct (getattr_Imin_admitted imin first Hfirst) as [Imin ->]. reflexivity. }
  unfold KdFitIA.setup_for_fit.
  destruct Hfresh as [-> | ->].
  - destruct force; rewrite Hloop; reflexivity.
  - destruct current; rewrite Hloop; reflexivity.
Qed.

(** The joint calibration raises whatever it is given. *)
Lemma fit_Imax_ML_given_Imin_raises (self : KdFitIA.t) (imin : KdFitIA.Imin_attrs)
    (imax : KdFitIA.Imax_attrs) (ML_seqs : list string) (Imin : profile) (w : world) :
  minimize_starts_at_x0 →
  ∃ e w', KdFitIA.fit_Imax_ML_given_Imin self imin imax ML_seqs Imin w = (Raise e, w').
Proof.
  intros Hscipy. unfold KdFitIA.fit_Imax_ML_given_Imin. cbv zeta.
  unfold mbind, M_bind, lift.
  destruct (list_if_scalar Imin (length (KdFitIA.concentrations self))) as [Imin_list|e];
    [|eauto].
  destruct (KdFitIA.joint_x0 self imin imax ML_seqs w) as [[x0|e] w1]; [|eauto].
  destruct (py_assert _ None) as [[]|e]; [|eauto].
  rewrite (Hscipy _ x0 KdFitIA.not_subscriptable) by reflexivity.
  eauto.
Qed.

Lemma fit_Imax_ML_raises (self : KdFitIA.t) (imin : KdFitIA.Imin_attrs)
    (imax : KdFitIA.Imax_attrs) (ML_seqs : list string) (w : world) :
  minimize_starts_at_x0 →
  KdFitIA.Imin_names self ≠ [] →
  ∃ e w', KdFitIA.fit_Imax_ML self imin imax ML_seqs w = (Raise e, w').
Proof.
  intros Hscipy Hnames. unfold KdFitIA.fit_Imax_ML.
  destruct (KdFitIA.Imin_names self) as [|n rest]; [contradiction|].
  cbn [M_for]. unfold mbind at 1. unfold M_bind at 1.
  unfold mbind at 1. unfold M_bind at 1. unfold lift at 1.
  destruct (KdFitIA.getattr_Imin imin n) as [Imin|e]; [|eauto].
  unfold mbind at 1. unfold M_bind at 1.
  destruct (fit_Imax_ML_given_Imin_raises self imin imax ML_seqs Imin w Hscipy)
    as (e & w' & ->).
  eauto.
Qed.

End Calibration.

(** The likelihood strategy without a calibration.  Take an estimator
    built by the constructor and calls of [add_Imin_type] and
    [add_Imax_type], one of them adding [Imax_ML], on which
    [find_Imin_and_background_noise] and [find_Imax] have set their
    attributes and no [fit_Imax_ML] has set [Imax_ML].  When
    [setup_for_fit] builds the tables, that is on its first call (no
    tables yet) or with [force=True], it raises the [AttributeError]
    "'KdFitIA' object has no attribute 'Imax_ML'" at the first pair that
    names the strategy; and a [fit_all_Kds] that finds no tables raises it
    before it has printed anything. *)
Theorem Imax_ML_needs_calibration `{Numpy} `{Scipy} `{Seqtools} `{Builtins}
    (IA : IntensityArray.t) (max_clust : nat) (calls : list strategy_call)
    (self : KdFitIA.t) (imin : KdFitIA.Imin_attrs) (imax : KdFitIA.Imax_attrs)
    (current : option KdFitIA.fit_attrs) (num_bootstraps : nat) (w : world)
    (Hconf : configure IA max_clust calls = Ok self)
    (HML : Add_Imax "Imax_ML" ∈ calls) :
  KdFitIA.setup_for_fit self imin imax None None false = Raise (KdFitIA.no_attribute "Imax_ML")
  ∧ KdFitIA.setup_for_fit self imin imax None current true
    = Raise (KdFitIA.no_attribute "Imax_ML")
  ∧ KdFitIA.fit_all_Kds self imin imax None None num_bootstraps w
    = (Raise (KdFitIA.no_attribute "Imax_ML"), w).
Proof.
  unfold configure in Hconf. bind_inv Hconf. rename a into s0.
  unfold KdFitIA.init in E. bind_inv E. injection E as <-.
  destruct (run_calls_spec calls _ self Hconf)
    as (_ & _ & Hh1 & _ & _ & Hin2 & _ & Hal2 & _).
  simpl in Hh1, Hin2.
  assert (Hhead : head (KdFitIA.Imin_names self) = Some "Imin_const") by auto.
  assert (Hfirst : "Imin_const" ∈ Imin_types) by (apply elem_of_cons; left; reflexivity).
  assert (Hmax : ∀ n, n ∈ KdFitIA.Imax_names self → n ∈ Imax_types).
  { intros n Hn. apply Hin2 in Hn as [Hn | Hn]; [|auto].
    apply list_elem_of_singleton in Hn as ->.
    apply elem_of_cons. right. apply elem_of_cons. left. reflexivity. }
  assert (Hpresent : "Imax_ML" ∈ KdFitIA.Imax_names self) by (apply Hin2; right; exact HML).
  assert (Hsetup : ∀ current force, current = None ∨ force = true →
            KdFitIA.setup_for_fit self imin imax None current force
            = Raise (KdFitIA.no_attribute "Imax_ML")).
  { intros c f Hfresh.
    apply (setup_for_fit_without_Imax_ML self imin imax c f "Imin_const"); assumption. }
  split; [apply Hsetup; left; reflexivity|].
  split; [apply Hsetup; right; reflexivity|].
  unfold KdFitIA.fit_all_Kds. apply M_bind_raise. unfold lift.
  rewrite Hsetup by (left; reflexivity). reflexivity.
Qed.

Lemma Imax_ML_needs_calibration_witness :
  ∃ self, @configure example_numpy example_IA 2000 example_calls = Ok self
    ∧ @KdFitIA.fit_all_Kds example_numpy example_scipy example_seqtools example_builtins
        self example_imin example_imax None None 20 example_world
      = (Raise (KdFitIA.no_attribute "Imax_ML"), example_world).
Proof.
  assert (Hrun : ∃ self, @configure example_numpy example_IA 2000 example_calls = Ok self)
    by (eexists; reflexivity).
  destruct Hrun as [self Hrun]. exists self. split; [exact Hrun|].
  assert (HML : Add_Imax "Imax_ML" ∈ example_calls) by (apply elem_of_cons; left; reflexivity).
  apply (@Imax_ML_needs_calibration example_numpy example_scipy example_seqtools
           example_builtins example_IA 2000%nat example_calls self example_imin example_imax
           None 20%nat example_world Hrun HML).
Defined.

(** The calibration never completes.  With an optimizer that evaluates its
    objective at the initial guess first, [fit_Imax_ML_given_Imin] raises
    on every input: while it builds [x0], at the assertion on the length
    of [x0], or in [minimize], where the first evaluation of the objective
    raises the [TypeError] of [params[:idx1]] on a [map] object.  So
    [fit_Imax_ML], which calls it for the first name of [Imin_names],
    raises on every input when that list is not empty. *)
Theorem ML_calibration_never_returns `{Numpy} `{Scipy} `{Seqtools} `{Builtins}
    (self : KdFitIA.t) (imin : KdFitIA.Imin_attrs)
    (Hscipy : minimize_starts_at_x0)
    (Hnames : KdFitIA.Imin_names self ≠ []) :
  (∀ imax seqs Imin w0,
     ∃ e w', KdFitIA.fit_Imax_ML_given_Imin self imin imax seqs Imin w0 = (Raise e, w'))
  ∧ (∀ imax seqs w0, ∃ e w', KdFitIA.fit_Imax_ML self imin imax seqs w0 = (Raise e, w')).
Proof.
  split.
  - intros imax seqs Imin w0. apply fit_Imax_ML_given_Imin_raises. assumption.
  - intros imax seqs w0. apply fit_Imax_ML_raises; assumption.
Qed.

Lemma ML_calibration_never_returns_witness :
  ∃ e w', @KdFitIA.fit_Imax_ML example_numpy example_scipy example_builtins
            example_self example_imin example_imax ["ACGT"] example_world = (Raise e, w').
Proof.
  assert (Hnames : KdFitIA.Imin_names example_self ≠ []) by discriminate.
  destruct (@ML_calibration_never_returns example_numpy example_scipy example_seqtools
              example_builtins example_self example_imin
              example_minimize_starts_at_x0 Hnames) as [_ Hall].
  apply Hall.
Defined.

Section Preconditions.
Context `{Numpy} `{Builtins}.

(** A loop that returns has run its body on every element. *)
Lemma py_for_inv {A S : Type} (body : S → A → res S) (l : list A) :
  ∀ s s', py_for body l s = Ok s' → ∀ a, a ∈ l → ∃ s1 s2, body s1 a = Ok s2.
Proof.
  induction l as [|a l IH]; intros s s' Hrun a' Hin.
  - apply elem_of_nil in Hin. contradiction.
  - simpl in Hrun. unfold mbind, res_mbind, res_bind in Hrun.
    destruct (body s a) as [s1|] eqn:Hbody; [|discriminate Hrun].
    apply elem_of_cons in Hin as [-> | Hin]; [eauto | eapply IH; eauto].
Qed.

End Preconditions.

(** What [model_logL] checks.  Bootstrap indices with any number of
    sequences other than one are refused, with the message of the
    assertion; an [Imax_list] that does not have one entry per
    concentration is refused, with the list as the message; and when the
    method returns, every sequence is a key of both intensity dicts. *)
Theorem model_logL_preconditions `{Numpy} `{Builtins} (self : KdFitIA.t)
    (imin : KdFitIA.Imin_attrs) (imax : KdFitIA.Imax_attrs) (seqs : list string)
    (Kds Imin_list Imax_list sigma_consts : list R) (sigI : R) (max_clust_arg : option nat)
    (bootstrap_idxs : option (list nat)) :
  (is_Some bootstrap_idxs → length seqs ≠ 1%nat →
   KdFitIA.model_logL self imin imax seqs Kds Imin_list Imax_list sigma_consts sigI
     max_clust_arg bootstrap_idxs
   = Raise (AssertionError
              (Some "Bootstrapping can only be performed on one seq at a time.")))
  ∧ (bootstrap_idxs = None ∨ length seqs = 1%nat →
     length Imax_list ≠ length (KdFitIA.concentrations self) →
     KdFitIA.model_logL self imin imax seqs Kds Imin_list Imax_list sigma_consts sigI
       max_clust_arg bootstrap_idxs
     = Raise (AssertionError (Some (KdFitIA.repr_list Imax_list))))
  ∧ (∀ logL,
       KdFitIA.model_logL self imin imax seqs Kds Imin_list Imax_list sigma_consts sigI
         max_clust_arg bootstrap_idxs = Ok logL →
       length Imax_list = length (KdFitIA.concentrations self)
       ∧ (is_Some bootstrap_idxs → length seqs = 1%nat)
       ∧ ∀ seq, seq ∈ seqs →
           is_Some (IntensityArray.intensity_loarr_given_seq (KdFitIA.IA self) !! seq)
           ∧ is_Some (IntensityArray.intensity_lol_given_seq (KdFitIA.IA self) !! seq)).
Proof.
  split; [|split].
  - intros [idxs ->] Hlen. unfold KdFitIA.model_logL, py_assert.
    rewrite (proj2 (Nat.eqb_neq _ _) Hlen). reflexivity.
  - intros Hboot Hlen. unfold KdFitIA.model_logL.
    assert (Hfirst : match bootstrap_idxs with
                     | Some _ =>
                         py_assert (length seqs =? 1)%nat
                           (Some "Bootstrapping can only be performed on one seq at a time.")
                     | None => Ok tt
                     end = Ok tt).
    { destruct Hboot as [-> | Hone]; [reflexivity|].
      destruct bootstrap_idxs; [|reflexivity]. rewrite Hone. reflexivity. }
    rewrite Hfirst. cbn [mbind res_mbind res_bind]. unfold py_assert.
    rewrite (proj2 (Nat.eqb_neq _ _) Hlen). reflexivity.
  - intros logL Hrun. unfold KdFitIA.model_logL in Hrun.
    unfold mbind, res_mbind, res_bind in Hrun.
    destruct (match bootstrap_idxs with
              | Some _ =>
                  py_assert (length seqs =? 1)%nat
                    (Some "Bootstrapping can only be performed on one seq at a time.")
              | None => Ok tt
              end) as [[]|] eqn:Hfirst; [|discriminate Hrun].
    unfold py_assert in Hrun.
    destruct (length Imax_list =? length (KdFitIA.concentrations self))%nat eqn:Hlen;
      [|discriminate Hrun].
    apply Nat.eqb_eq in Hlen.
    destruct (py_comprehension _ Kds) as [thetas|]; [|discriminate Hrun].
    destruct (KdFitIA.np_affine (KdFitIA.Imin_stdev imin) _ _ _) as [sigma_clusts|];
      [|discriminate Hrun].
    destruct (KdFitIA.np_affine Imin_list _ _ _) as [yhat|]; [|discriminate Hrun].
    match type of Hrun with
    | match ?loop with Ok _ => _ | Raise _ => _ end = _ =>
        destruct loop as [total|] eqn:Hloop; [|discriminate Hrun]
    end.
    split; [exact Hlen|]. split.
    + intros [idxs ->]. unfold py_assert in Hfirst.
      destruct (length seqs =? 1)%nat eqn:Hone; [|discriminate Hfirst].
      apply Nat.eqb_eq in Hone. exact Hone.
    + intros seq Hseq.
      assert (Hin : ∃ sidx, (sidx, seq) ∈ enumerate seqs).
      { apply list_elem_of_lookup in Hseq as [i Hi]. exists i.
        apply list_elem_of_lookup. exists i. unfold enumerate.
        apply lookup_zip_with_Some. eexists _, _. split; [reflexivity|].
        split; [|exact Hi]. apply lookup_seq_lt. apply lookup_lt_is_Some. eauto. }
      destruct Hin as [sidx Hin].
      destruct (py_for_inv _ _ _ _ Hloop _ Hin) as (s1 & s2 & Hbody).
      cbn beta iota in Hbody. unfold py_getitem in Hbody.
      destruct (IntensityArray.intensity_loarr_given_seq (KdFitIA.IA self) !! seq);
        [|discriminate Hbody].
      destruct (IntensityArray.intensity_lol_given_seq (KdFitIA.IA self) !! seq);
        [|discriminate Hbody].
      split; eauto.
Qed.

Lemma model_logL_preconditions_witness :
  @KdFitIA.model_logL example_numpy example_builtins example_self example_imin example_imax
    ["ACGT"; "TTTT"] [20; 20] [1; 1] [10; 10] [1; 1] 1 None (Some [0%nat])
  = Raise (AssertionError (Some "Bootstrapping can only be performed on one seq at a time."))
  ∧ @KdFitIA.model_logL example_numpy example_builtins example_self example_imin example_imax
      ["ACGT"] [20] [1; 1] [10] [1; 1] 1 None None
    = Raise (AssertionError (Some (@KdFitIA.repr_list example_builtins [10]))).
Proof.
  split.
  - destruct (@model_logL_preconditions example_numpy example_builtins example_self
                example_imin example_imax ["ACGT"; "TTTT"] [20; 20] [1; 1] [10; 10] [1; 1]
                1 None (Some [0%nat])) as (Hboot & _ & _).
    apply Hboot; [eexists; reflexivity | simpl; lia].
  - destruct (@model_logL_preconditions example_numpy example_builtins example_self
                example_imin example_imax ["ACGT"] [20] [1; 1] [10] [1; 1]
                1 None None) as (_ & Hlen & _).
    apply Hlen; [left; reflexivity | simpl; lia].
Defined.

(** The point fit of [ML_fit_Kd].  Without [bootstrap] the method does not
    touch the random generator, whatever happens; and it returns a Kd only
    when the optimizer reported success: the Kd is the single entry of the
    optimizer's point, nothing has been printed, and the objective that
    was minimised is the negative log-likelihood of the one sequence. *)
Theorem ML_fit_Kd_point_fit `{Numpy} `{Scipy} `{Seqtools} `{Builtins}
    (self : KdFitIA.t) (imin : KdFitIA.Imin_attrs) (imax : KdFitIA.Imax_attrs)
    (ml : KdFitIA.ML_attrs) (seq Imin_name : string) (max_clust_arg : option nat)
    (w : world) :
  gen (KdFitIA.ML_fit_Kd self imin imax ml seq Imin_name max_clust_arg false w).2 = gen w
  ∧ ∀ Kd w',
      KdFitIA.ML_fit_Kd self imin imax ml seq Imin_name max_clust_arg false w = (Ok Kd, w') →
      w' = w
      ∧ ∃ Imin Imin_list opt,
          KdFitIA.getattr_Imin imin Imin_name = Ok Imin
          ∧ list_if_scalar Imin (length (KdFitIA.concentrations self)) = Ok Imin_list
          ∧ minimize
              (KdFitIA.single_neg_log_L self imin imax ml seq Imin_name Imin_list None)
              [20] = Ok opt
          ∧ OptimizeResult.success opt = true
          ∧ OptimizeResult.x opt = [Kd].
Proof.
  assert (Hrun : KdFitIA.ML_fit_Kd self imin imax ml seq Imin_name max_clust_arg false w
                 = KdFitIA.ML_fit_Kd_with self imin imax ml seq Imin_name None w)
    by reflexivity.
  rewrite Hrun. clear Hrun.
  unfold KdFitIA.ML_fit_Kd_with, mbind, M_bind, lift.
  destruct (KdFitIA.getattr_Imin imin Imin_name) as [Imin|] eqn:HImin;
    [|split; [reflexivity | intros Kd w' Hrun; discriminate Hrun]].
  destruct (list_if_scalar Imin (length (KdFitIA.concentrations self)))
    as [Imin_list|] eqn:Hlist;
    [|split; [reflexivity | intros Kd w' Hrun; discriminate Hrun]].
  destruct (minimize _ [20]) as [opt|] eqn:Hmin;
    [|split; [reflexivity | intros Kd w' Hrun; discriminate Hrun]].
  destruct (OptimizeResult.success opt) eqn:Hsuccess; cbn.
  - split; [reflexivity|]. intros Kd w' Hrun.
    unfold KdFitIA.float_of_array in Hrun.
    destruct (OptimizeResult.x opt) as [|v [|v' rest]] eqn:Hx; try discriminate Hrun.
    injection Hrun as <- <-. split; [reflexivity|]. eauto 10.
  - split; [reflexivity|]. intros Kd w' Hrun. discriminate Hrun.
Qed.

Lemma ML_fit_Kd_point_fit_witness :
  @KdFitIA.ML_fit_Kd example_numpy converged_scipy example_seqtools example_builtins
    example_self example_imin example_imax example_ml "ACGT" "Imin_const" None false
    example_world
  = (Ok 20, example_world).
Proof.
  destruct example_objective_value as [v Hv].
  assert (Hrun : ∃ r, @KdFitIA.ML_fit_Kd example_numpy converged_scipy example_seqtools
                        example_builtins example_self example_imin example_imax example_ml
                        "ACGT" "Imin_const" None false example_world = (Ok 20, r)).
  { unfold KdFitIA.ML_fit_Kd, KdFitIA.ML_fit_Kd_with, mbind, M_bind, mret, M_ret, lift.
    cbn [KdFitIA.getattr_Imin String.eqb Ascii.eqb Bool.eqb list_if_scalar].
    simpl minimize. unfold converged_minimize.
    change (replicate (length (KdFitIA.concentrations example_self)) (KdFitIA.Imin_const example_imin))
      with [1; 1].
    rewrite Hv. cbn. eexists. reflexivity. }
  destruct Hrun as [r Hrun].
  destruct (@ML_fit_Kd_point_fit example_numpy converged_scipy example_seqtools
              example_builtins example_self example_imin example_imax example_ml
              "ACGT" "Imin_const" None example_world) as (_ & Hpoint).
  destruct (Hpoint 20 r Hrun) as (-> & _).
  exact Hrun.
Defined.

(** ** The reader, stage by stage *)

Section ReaderStages.
Context `{Builtins}.

(** Once the header is read, what is left of [__init__] is the loop over
    the data rows and the two look-ups. *)
Lemma init_after_header (text target neg_control : string) (concs imns imxs : list R)
    (rows : list string) :
  reads_header text target neg_control concs imns imxs rows →
  IAKdData.init text
  = (d ← py_for IAKdData.read_row rows empty_table;
     neg_control_Kd ← py_getitem (IAKdData.t_Kd d) neg_control;
     target_ABA ← py_getitem (IAKdData.t_ABA d) target;
     Ok {| IAKdData.concentrations := concs; IAKdData.Imin := imns; IAKdData.Imax := imxs;
           IAKdData.Kd := IAKdData.t_Kd d; IAKdData.Kd_error := IAKdData.t_Kd_error d;
           IAKdData.ABA := IAKdData.t_ABA d; IAKdData.ABA_error := IAKdData.t_ABA_error d;
           IAKdData.target := target; IAKdData.neg_control_target := neg_control;
           IAKdData.neg_control_Kd := neg_control_Kd;
           IAKdData.log_neg_control_Kd := ln neg_control_Kd;
           IAKdData.target_ABA := target_ABA |}).
Proof.
  intros (l1 & l2 & l3 & l4 & f & header & Hlines & H1 & Htarget & H2 & Hneg & H3
          & Hprofile & Hseq).
  unfold IAKdData.init. rewrite Hlines.
  cbn [next_line mbind res_mbind res_bind]. rewrite H1.
  cbn [py_assert mbind res_mbind res_bind]. rewrite Htarget.
  cbn [next_line mbind res_mbind res_bind]. rewrite H2.
  cbn [py_assert mbind res_mbind res_bind]. rewrite Hneg.
  cbn [next_line mbind res_mbind res_bind]. rewrite H3.
  cbn [py_assert next_line mbind res_mbind res_bind]. rewrite Hprofile.
  cbn [mbind res_mbind res_bind]. rewrite Hseq. reflexivity.
Qed.

Lemma py_getitem_inv {A : Type} (m : gmap string A) (k : string) (a : A) :
  py_getitem m k = Ok a → m !! k = Some a.
Proof. unfold py_getitem. destruct (m !! k); [intros [= ->]; reflexivity | discriminate]. Qed.

(** A successful read, taken apart. *)
Lemma init_inv (text : string) (d : IAKdData.t) :
  IAKdData.init text = Ok d →
  ∃ rows tbl,
    reads_header text (IAKdData.target d) (IAKdData.neg_control_target d)
      (IAKdData.concentrations d) (IAKdData.Imin d) (IAKdData.Imax d) rows
    ∧ py_for IAKdData.read_row rows empty_table = Ok tbl
    ∧ IAKdData.Kd d = IAKdData.t_Kd tbl
    ∧ IAKdData.Kd_error d = IAKdData.t_Kd_error tbl
    ∧ IAKdData.ABA d = IAKdData.t_ABA tbl
    ∧ IAKdData.ABA_error d = IAKdData.t_ABA_error tbl
    ∧ IAKdData.t_Kd tbl !! IAKdData.neg_control_target d = Some (IAKdData.neg_control_Kd d)
    ∧ IAKdData.t_ABA tbl !! IAKdData.target d = Some (IAKdData.target_ABA d)
    ∧ IAKdData.log_neg_control_Kd d = ln (IAKdData.neg_control_Kd d).
Proof.
  intros Hinit. unfold IAKdData.init in Hinit.
  bind_inv Hinit. injection Hinit as <-.
  repeat match goal with
  | E : next_line _ = Ok _ |- _ => apply next_line_inv in E
  | E : py_assert _ _ = Ok _ |- _ => apply py_assert_inv in E
  | E : py_getitem _ _ = Ok _ |- _ => apply py_getitem_inv in E
  end.
  subst. do 2 eexists. cbn.
  split.
  { unfold reads_header. do 6 eexists. repeat (split; [eassumption|]). eassumption. }
  split; [eassumption|]. repeat (split; [reflexivity|]).
  split; [eassumption|]. split; [eassumption|]. reflexivity.
Qed.

(** The three lists grow together. *)
Lemma read_profile_lengths (f : list string) :
  ∀ (line : string) (a b c : list R) (header : string) (rows : list string) (a' b' c' : list R),
    IAKdData.read_profile line f (a, b, c) = Ok (header, rows, (a', b', c')) →
    length a = length b → length b = length c →
    length a' = length b' ∧ length b' = length c'.
Proof.
  induction f as [|line' f IH]; intros line a b c header rows a' b' c' Hrun Hab Hbc;
    rewrite read_profile_unfold in Hrun;
    (destruct (startswith line "#"); [injection Hrun as _ _ <- <- <-; auto|]);
    (destruct (IAKdData.floats (split_ws (strip line))) as [vals|]; [|discriminate Hrun]);
    cbn [mbind res_mbind res_bind] in Hrun;
    destruct vals as [|x [|y [|z [|]]]]; try discriminate Hrun.
  apply IH in Hrun; [exact Hrun | |]; rewrite !length_app; simpl; lia.
Qed.

(** [map(float, words)] raises nothing but [ValueError]. *)
Lemma floats_raises (ws : list string) (e : exn) :
  IAKdData.floats ws = Raise e → e = ValueError.
Proof.
  unfold IAKdData.floats. induction ws as [|w ws IH]; simpl; [discriminate|].
  destruct (py_float w); cbn [mbind res_mbind res_bind].
  - destruct (py_comprehension _ ws); cbn [mbind res_mbind res_bind]; [discriminate|].
    intros [= <-]. apply IH. reflexivity.
  - intros [= <-]. reflexivity.
Qed.

(** What one accepted line does to the four dicts. *)
Lemma read_row_inv (d d' : IAKdData.table) (line : string) :
  IAKdData.read_row d line = Ok d' →
  (startswith line "#" = true ∧ d' = d)
  ∨ (∃ seq a b c e,
       startswith line "#" = false
       ∧ IAKdData.t_Kd d !! seq = None
       ∧ d' = {| IAKdData.t_Kd := <[seq := a]> (IAKdData.t_Kd d);
                 IAKdData.t_Kd_error := <[seq := b]> (IAKdData.t_Kd_error d);
                 IAKdData.t_ABA := <[seq := c]> (IAKdData.t_ABA d);
                 IAKdData.t_ABA_error := <[seq := e]> (IAKdData.t_ABA_error d) |}).
Proof.
  unfold IAKdData.read_row. destruct (startswith line "#") eqn:Hdata.
  - intros [= <-]. left. auto.
  - intros Hrun. right.
    destruct (split_ws (strip line)) as [|seq ws] eqn:Hwords; [discriminate Hrun|].
    cbn [py_index lookup list_lookup mbind res_mbind res_bind] in Hrun.
    destruct (bool_decide (is_Some (IAKdData.t_Kd d !! seq))) eqn:Hdec;
      [discriminate Hrun|].
    apply bool_decide_eq_false_1 in Hdec.
    cbn [negb py_assert mbind res_mbind res_bind] in Hrun.
    bind_inv Hrun. injection Hrun as <-.
    do 5 eexists. split; [reflexivity|]. split; [|reflexivity].
    destruct (IAKdData.t_Kd d !! seq) eqn:Hk; [|reflexivity].
    exfalso. apply Hdec. eauto.
Qed.

(** The four dicts keep the same keys through the loop. *)
Lemma read_rows_aligned (rows : list string) :
  ∀ d0 d : IAKdData.table,
    py_for IAKdData.read_row rows d0 = Ok d →
    dom (IAKdData.t_Kd_error d0) = dom (IAKdData.t_Kd d0) →
    dom (IAKdData.t_ABA d0) = dom (IAKdData.t_Kd d0) →
    dom (IAKdData.t_ABA_error d0) = dom (IAKdData.t_Kd d0) →
    dom (IAKdData.t_Kd_error d) = dom (IAKdData.t_Kd d)
    ∧ dom (IAKdData.t_ABA d) = dom (IAKdData.t_Kd d)
    ∧ dom (IAKdData.t_ABA_error d) = dom (IAKdData.t_Kd d).
Proof.
  induction rows as [|line rows IH]; intros d0 d Hrun He Ha Hae.
  - injection Hrun as <-. auto.
  - cbn [py_for] in Hrun.
    destruct (IAKdData.read_row d0 line) as [d1|e] eqn:Hrow; [|discriminate Hrun].
    cbn [mbind res_mbind res_bind] in Hrun.
    apply read_row_inv in Hrow as [[_ ->] | (seq & a & b & c & e & _ & _ & ->)].
    + apply (IH d0 d Hrun); assumption.
    + apply (IH _ d Hrun); cbn [IAKdData.t_Kd IAKdData.t_Kd_error IAKdData.t_ABA
                                 IAKdData.t_ABA_error];
        rewrite !dom_insert_L; congruence.
Qed.

Lemma py_for_app {A S : Type} (body : S → A → res S) (l1 l2 : list A) :
  ∀ s, py_for body (l1 ++ l2) s = (s1 ← py_for body l1 s; py_for body l2 s1).
Proof.
  induction l1 as [|a l1 IH]; intros s; simpl; [reflexivity|].
  destruct (body s a); simpl; [apply IH | reflexivity].
Qed.

(** The loop over the data rows passes over the comment lines. *)
Lemma read_rows_filter (rows : list string) :
  ∀ d0, py_for IAKdData.read_row rows d0
        = py_for IAKdData.read_row (List.filter is_data_row rows) d0.
Proof.
  induction rows as [|line rows IH]; intros d0; [reflexivity|].
  cbn [py_for List.filter]. unfold is_data_row at 1.
  destruct (startswith line "#") eqn:Hc; cbn [negb].
  - assert (Hrow : IAKdData.read_row d0 line = Ok d0)
      by (unfold IAKdData.read_row; rewrite Hc; reflexivity).
    rewrite Hrow. cbn [mbind res_mbind res_bind]. apply IH.
  - cbn [py_for]. destruct (IAKdData.read_row d0 line); cbn [mbind res_mbind res_bind];
      [apply IH | reflexivity].
Qed.

(** A line that is not a comment and is not made of three numbers stops
    the loop over the concentration lines. *)
Lemma read_profile_bad_line (line : string) (f : list string) (acc : list R * list R * list R) :
  startswith line "#" = false →
  (∀ a b c, IAKdData.floats (split_ws (strip line)) ≠ Ok [a; b; c]) →
  IAKdData.read_profile line f acc = Raise ValueError.
Proof.
  intros Hc Hbad. rewrite read_profile_unfold, Hc.
  destruct (IAKdData.floats (split_ws (strip line))) as [vals|e] eqn:Hvals.
  - cbn [mbind res_mbind res_bind].
    destruct vals as [|x [|y [|z [|]]]]; try reflexivity.
    exfalso. exact (Hbad x y z eq_refl).
  - apply floats_raises in Hvals as ->. reflexivity.
Qed.

(** Concentration lines up to the end of the file. *)
Lemma read_profile_runs_out (prows : list string) :
  ∀ (line : string) (acc : list R * list R * list R),
    Forall (λ l, startswith l "#" = false
                 ∧ ∃ a b c, IAKdData.floats (split_ws (strip l)) = Ok [a; b; c])
      (line :: prows) →
    IAKdData.read_profile line prows acc = Raise StopIteration.
Proof.
  induction prows as [|line' prows IH]; intros line [[concs imns] imxs] Hall;
    apply Forall_cons in Hall as [(Hc & a & b & c & Hvals) Hall];
    rewrite read_profile_unfold, Hc, Hvals; cbn [mbind res_mbind res_bind].
  - reflexivity.
  - apply IH. exact Hall.
Qed.

Lemma read_row_blank (d : IAKdData.table) (line : string) :
  startswith line "#" = false → split_ws (strip line) = [] →
  IAKdData.read_row d line = Raise IndexError.
Proof.
  intros Hc Hwords. unfold IAKdData.read_row. rewrite Hc, Hwords. reflexivity.
Qed.

Lemma read_row_bad_fields (d : IAKdData.table) (line seq : string) (ws : list string) :
  startswith line "#" = false → split_ws (strip line) = seq :: ws →
  IAKdData.t_Kd d !! seq = None →
  (∀ a b c e, IAKdData.floats ws ≠ Ok [a; b; c; e]) →
  IAKdData.read_row d line = Raise ValueError.
Proof.
  intros Hc Hwords Hfresh Hbad. unfold IAKdData.read_row. rewrite Hc, Hwords.
  cbn [py_index lookup list_lookup mbind res_mbind res_bind].
  rewrite bool_decide_eq_false_2 by (rewrite Hfresh; intros [? Hsome]; discriminate Hsome).
  cbn [negb py_assert mbind res_mbind res_bind drop].
  change (drop 0 ws) with ws.
  destruct (IAKdData.floats ws) as [vals|e] eqn:Hvals.
  - cbn [mbind res_mbind res_bind].
    destruct vals as [|x [|y [|z [|u [|]]]]]; try reflexivity.
    exfalso. exact (Hbad x y z u eq_refl).
  - apply floats_raises in Hvals as ->. reflexivity.
Qed.

End ReaderStages.

(** Every object the reader builds is aligned: the three lists of the
    concentration block have the same length, the four dicts have the
    same keys, the negative control and the target are among them, and
    [neg_control_Kd] and [target_ABA] are the entries found under these
    two identifiers. *)
Theorem reader_tables_aligned `{Builtins} (text : string) (d : IAKdData.t)
    (Hinit : IAKdData.init text = Ok d) :
  length (IAKdData.concentrations d) = length (IAKdData.Imin d)
  ∧ length (IAKdData.Imin d) = length (IAKdData.Imax d)
  ∧ dom (IAKdData.Kd_error d) = dom (IAKdData.Kd d)
  ∧ dom (IAKdData.ABA d) = dom (IAKdData.Kd d)
  ∧ dom (IAKdData.ABA_error d) = dom (IAKdData.Kd d)
  ∧ IAKdData.Kd d !! IAKdData.neg_control_target d = Some (IAKdData.neg_control_Kd d)
  ∧ IAKdData.ABA d !! IAKdData.target d = Some (IAKdData.target_ABA d)
  ∧ IAKdData.target d ∈ dom (IAKdData.Kd d)
  ∧ IAKdData.neg_control_target d ∈ dom (IAKdData.Kd d).
Proof.
  destruct (init_inv text d Hinit)
    as (rows & tbl & Hhead & Hrows & -> & -> & HABA & -> & Hneg & Htarget & _).
  destruct Hhead as (l1 & l2 & l3 & l4 & f & header & _ & _ & _ & _ & _ & _ & Hprofile & _).
  destruct (read_profile_lengths _ _ _ _ _ _ _ _ _ _ Hprofile eq_refl eq_refl) as [Hl1 Hl2].
  destruct (read_rows_aligned rows _ tbl Hrows eq_refl eq_refl eq_refl) as (He & Ha & Hae).
  rewrite HABA.
  split; [exact Hl1|]. split; [exact Hl2|]. split; [exact He|]. split; [exact Ha|].
  split; [exact Hae|]. split; [exact Hneg|]. split; [exact Htarget|]. split.
  - rewrite <- Ha. apply elem_of_dom. eauto.
  - apply elem_of_dom. eauto.
Qed.

Lemma reader_tables_aligned_witness :
  ∃ d, @IAKdData.init example_builtins example_file = Ok d
       ∧ length (IAKdData.concentrations d) = length (IAKdData.Imin d)
       ∧ dom (IAKdData.ABA_error d) = dom (IAKdData.Kd d)
       ∧ IAKdData.target d ∈ dom (IAKdData.Kd d).
Proof.
  destruct (@IAKdData.init example_builtins example_file) as [d|e] eqn:Hinit;
    [|vm_compute in Hinit; discriminate Hinit].
  exists d. split; [reflexivity|].
  destruct (@reader_tables_aligned example_builtins example_file d Hinit)
    as (H1 & _ & _ & _ & H5 & _ & _ & H8 & _).
  auto.
Defined.

(** A file that ends before its [# Seq] line is answered with
    [StopIteration]: the empty file, a file that ends after a good first
    or second line, and a file that ends after the concentration header
    or after any number of concentration lines. *)
Theorem reader_truncated_file `{Builtins} :
  IAKdData.init "" = Raise StopIteration
  ∧ (∀ text l1 target,
       file_lines text = [l1] → startswith l1 "# Target:" = true →
       py_index (split_sep ": " (strip l1)) 1 = Ok target →
       IAKdData.init text = Raise StopIteration)
  ∧ (∀ text l1 l2 target neg_control,
       file_lines text = [l1; l2] → startswith l1 "# Target:" = true →
       py_index (split_sep ": " (strip l1)) 1 = Ok target →
       startswith l2 "# Neg Control" = true →
       py_index (split_sep ": " (strip l2)) 1 = Ok neg_control →
       IAKdData.init text = Raise StopIteration)
  ∧ (∀ text l1 l2 l3 prows target neg_control,
       file_lines text = l1 :: l2 :: l3 :: prows → startswith l1 "# Target:" = true →
       py_index (split_sep ": " (strip l1)) 1 = Ok target →
       startswith l2 "# Neg Control" = true →
       py_index (split_sep ": " (strip l2)) 1 = Ok neg_control →
       startswith l3 IAKdData.concentration_header = true →
       Forall (λ l, startswith l "#" = false
                    ∧ ∃ a b c, IAKdData.floats (split_ws (strip l)) = Ok [a; b; c]) prows →
       IAKdData.init text = Raise StopIteration).
Proof.
  split; [reflexivity|]. split; [|split].
  - intros text l1 target Hlines H1 Htarget. unfold IAKdData.init. rewrite Hlines.
    cbn [next_line mbind res_mbind res_bind]. rewrite H1.
    cbn [py_assert mbind res_mbind res_bind]. rewrite Htarget. reflexivity.
  - intros text l1 l2 target neg Hlines H1 Htarget H2 Hneg.
    unfold IAKdData.init. rewrite Hlines.
    cbn [next_line mbind res_mbind res_bind]. rewrite H1.
    cbn [py_assert mbind res_mbind res_bind]. rewrite Htarget.
    cbn [next_line mbind res_mbind res_bind]. rewrite H2.
    cbn [py_assert mbind res_mbind res_bind]. rewrite Hneg. reflexivity.
  - intros text l1 l2 l3 prows target neg Hlines H1 Htarget H2 Hneg H3 Hrows.
    unfold IAKdData.init. rewrite Hlines.
    cbn [next_line mbind res_mbind res_bind]. rewrite H1.
    cbn [py_assert mbind res_mbind res_bind]. rewrite Htarget.
    cbn [next_line mbind res_mbind res_bind]. rewrite H2.
    cbn [py_assert mbind res_mbind res_bind]. rewrite Hneg.
    cbn [next_line mbind res_mbind res_bind]. rewrite H3.
    cbn [py_assert mbind res_mbind res_bind].
    destruct prows as [|line prows]; [reflexivity|].
    cbn [next_line mbind res_mbind res_bind].
    rewrite (read_profile_runs_out prows line _ Hrows). reflexivity.
Qed.

Lemma reader_truncated_file_witness :
  @IAKdData.init example_builtins truncated_file = Raise StopIteration.
Proof.
  destruct (@reader_truncated_file example_builtins) as (_ & _ & _ & Hcut).
  eapply Hcut; try (vm_compute; reflexivity).
  repeat constructor; eexists _, _, _; vm_compute; reflexivity.
Defined.

(** Lines the reader cannot take apart.  A first line that passes the
    prefix test but has no colon followed by a space is answered with
    [IndexError].  Among the concentration lines, a line that is not a
    comment and is not made of exactly three numbers (an empty line, for
    one) is answered with [ValueError].  Among the data rows, an empty
    line is answered with [IndexError], and a row whose new identifier is
    not followed by exactly four numbers with [ValueError]; the error of
    a row leaves [__init__] after the rows before it have been read. *)
Theorem reader_malformed_lines `{Builtins} :
  (∀ text l1 f,
     file_lines text = l1 :: f → startswith l1 "# Target:" = true →
     split_sep ": " (strip l1) = [strip l1] →
     IAKdData.init text = Raise IndexError)
  ∧ (∀ line f acc,
       startswith line "#" = false →
       (∀ a b c, IAKdData.floats (split_ws (strip line)) ≠ Ok [a; b; c]) →
       IAKdData.read_profile line f acc = Raise ValueError)
  ∧ (∀ d line,
       startswith line "#" = false → split_ws (strip line) = [] →
       IAKdData.read_row d line = Raise IndexError)
  ∧ (∀ d line seq ws,
       startswith line "#" = false → split_ws (strip line) = seq :: ws →
       IAKdData.t_Kd d !! seq = None →
       (∀ a b c e, IAKdData.floats ws ≠ Ok [a; b; c; e]) →
       IAKdData.read_row d line = Raise ValueError)
  ∧ (∀ text target neg_control concs imns imxs rows1 line rows2 tbl e,
       reads_header text target neg_control concs imns imxs (rows1 ++ line :: rows2) →
       py_for IAKdData.read_row rows1 empty_table = Ok tbl →
       IAKdData.read_row tbl line = Raise e →
       IAKdData.init text = Raise e).
Proof.
  split; [|split; [|split; [|split]]].
  - intros text l1 f Hlines H1 Hsplit. unfold IAKdData.init. rewrite Hlines.
    cbn [next_line mbind res_mbind res_bind]. rewrite H1.
    cbn [py_assert mbind res_mbind res_bind]. rewrite Hsplit. reflexivity.
  - intros line f acc. apply read_profile_bad_line.
  - intros d line. apply read_row_blank.
  - intros d line seq ws. apply read_row_bad_fields.
  - intros text target neg concs imns imxs rows1 line rows2 tbl e Hhead Hrows Hrow.
    rewrite (init_after_header _ _ _ _ _ _ _ Hhead), py_for_app, Hrows.
    cbn [py_for mbind res_mbind res_bind]. rewrite Hrow. reflexivity.
Qed.

Lemma reader_malformed_lines_witness :
  @IAKdData.init example_builtins tight_header_file = Raise IndexError
  ∧ @IAKdData.init example_builtins blank_row_file = Raise IndexError.
Proof.
  destruct (@reader_malformed_lines example_builtins) as (Hhead & _ & Hblank & _ & Hrow).
  split.
  - eapply Hhead; vm_compute; reflexivity.
  - eapply (Hrow blank_row_file _ _ _ _ _
              ["ACGT" +:+ tab +:+ "1.0" +:+ tab +:+ "1.0" +:+ tab +:+ "2.5" +:+ tab +:+ "1.0"
                 +:+ nl]
              nl).
    + unfold reads_header. do 6 eexists. repeat split; vm_compute; reflexivity.
    + vm_compute. reflexivity.
    + apply Hblank; vm_compute; reflexivity.
Defined.

(** Comment lines among the data rows are passed over: the loop over
    the rows does what it does on the rows that do not start with [#],
    and two files that agree up to the [# Seq] line and in these rows
    are read alike, whatever their comment lines hold. *)
Theorem reader_skips_comments `{Builtins} :
  (∀ rows d0,
     py_for IAKdData.read_row rows d0
     = py_for IAKdData.read_row (List.filter is_data_row rows) d0)
  ∧ (∀ text text' target neg_control concs imns imxs rows rows',
       reads_header text target neg_control concs imns imxs rows →
       reads_header text' target neg_control concs imns imxs rows' →
       List.filter is_data_row rows = List.filter is_data_row rows' →
       IAKdData.init text = IAKdData.init text').
Proof.
  split; [apply read_rows_filter|].
  intros text text' target neg concs imns imxs rows rows' Hhead Hhead' Hsame.
  rewrite (init_after_header _ _ _ _ _ _ _ Hhead), (init_after_header _ _ _ _ _ _ _ Hhead').
  rewrite (read_rows_filter rows), (read_rows_filter rows'), Hsame. reflexivity.
Qed.

Lemma reader_skips_comments_witness :
  @IAKdData.init example_builtins commented_file = @IAKdData.init example_builtins example_file.
Proof.
  destruct (@reader_skips_comments example_builtins) as [_ Hsame].
  eapply Hsame.
  - unfold reads_header. do 6 eexists. repeat split; vm_compute; reflexivity.
  - unfold reads_header. do 6 eexists. repeat split; vm_compute; reflexivity.
  - vm_compute. reflexivity.
Defined.

(** The two look-ups that end [__init__].  When the header and all the
    data rows have been read, the reader raises [KeyError] with the
    negative control if no data row has it as identifier, [KeyError] with
    the target if the negative control has a row and the target has none,
    and returns an object if both have a row. *)
Theorem reader_missing_reference `{Builtins} (text target neg_control : string)
    (concs imns imxs : list R) (rows : list string) (tbl : IAKdData.table)
    (Hhead : reads_header text target neg_control concs imns imxs rows)
    (Hrows : py_for IAKdData.read_row rows empty_table = Ok tbl) :
  (neg_control ∉ data_row_ids rows → IAKdData.init text = Raise (KeyError neg_control))
  ∧ (neg_control ∈ data_row_ids rows → target ∉ data_row_ids rows →
     IAKdData.init text = Raise (KeyError target))
  ∧ (neg_control ∈ data_row_ids rows → target ∈ data_row_ids rows →
     ∃ d, IAKdData.init text = Ok d).
Proof.
  destruct (read_rows_distinct rows _ tbl Hrows) as (_ & _ & Hkeys).
  destruct (read_rows_aligned rows _ tbl Hrows eq_refl eq_refl eq_refl) as (_ & Ha & _).
  assert (HK : ∀ id, is_Some (IAKdData.t_Kd tbl !! id) ↔ id ∈ data_row_ids rows).
  { intros id. rewrite Hkeys. cbn [IAKdData.t_Kd empty_table]. rewrite lookup_empty.
    split; [intros [[? Habs] | Hin]; [discriminate Habs | exact Hin] | auto]. }
  assert (HA : ∀ id, is_Some (IAKdData.t_ABA tbl !! id) ↔ id ∈ data_row_ids rows).
  { intros id. rewrite <- HK, <- !elem_of_dom, Ha. reflexivity. }
  rewrite (init_after_header _ _ _ _ _ _ _ Hhead), Hrows.
  cbn [mbind res_mbind res_bind]. unfold py_getitem.
  split; [|split].
  - intros Hno. destruct (IAKdData.t_Kd tbl !! neg_control) eqn:Hk; [|reflexivity].
    exfalso. apply Hno, HK. eauto.
  - intros Hneg Hno. apply HK in Hneg as [v ->]. cbn [mbind res_mbind res_bind].
    destruct (IAKdData.t_ABA tbl !! target) eqn:Hk; [|reflexivity].
    exfalso. apply Hno, HA. eauto.
  - intros Hneg Htarget. apply HK in Hneg as [v ->]. apply HA in Htarget as [u ->].
    cbn [mbind res_mbind res_bind]. eauto.
Qed.

Lemma reader_missing_reference_witness :
  @IAKdData.init example_builtins no_control_file = Raise (KeyError "TTTT").
Proof.
  eapply (@reader_missing_reference example_builtins no_control_file "ACGT" "TTTT").
  - unfold reads_header. do 6 eexists. repeat split; vm_compute; reflexivity.
  - vm_compute. reflexivity.
  - vm_compute. intros Hin. inversion Hin; subst. inversion H1.
Defined.

(** ** One file for each strategy pair *)

Section Writer.
Context `{Numpy} `{Builtins}.

Lemma insert_sorted_perm {V : Type} (kv : string * string * V)
    (l : list (string * string * V)) :
  KdFitIA.insert_sorted kv l ≡ₚ kv :: l.
Proof.
  induction l as [|kv' l IH]; simpl; [reflexivity|].
  destruct (KdFitIA.names_leb kv.1 kv'.1); [reflexivity|].
  rewrite IH. apply Permutation_swap.
Qed.

Lemma sorted_items_perm {V : Type} (d : gmap (string * string) V) :
  KdFitIA.sorted_items d ≡ₚ map_to_list d.
Proof.
  unfold KdFitIA.sorted_items. induction (map_to_list d) as [|kv l IH]; simpl; [reflexivity|].
  rewrite insert_sorted_perm, IH. reflexivity.
Qed.

(** [sorted(d.items())] visits every key once. *)
Lemma sorted_items_NoDup {V : Type} (d : gmap (string * string) V) :
  NoDup (KdFitIA.sorted_items d).*1.
Proof. rewrite sorted_items_perm. apply NoDup_fst_map_to_list. Qed.

Lemma comprehension_Forall2 {A B : Type} (f : A → res B) (l : list A) :
  ∀ out, py_comprehension f l = Ok out → Forall2 (λ a b, f a = Ok b) l out.
Proof.
  induction l as [|a l IH]; intros out Hrun; simpl in Hrun.
  - injection Hrun as <-. constructor.
  - bind_inv Hrun. injection Hrun as <-. constructor; [assumption|]. apply IH. reflexivity.
Qed.

(** The paths of the files written, in the order of writing. *)
Lemma write_results_paths (self : KdFitIA.t) (fa : KdFitIA.fit_attrs) (r : KdFitIA.results)
    (out_dir bname : string) (files : list (string * string)) :
  KdFitIA.write_results self fa r out_dir bname = Ok files →
  files.*1 = (λ k : string * string, out_fpath out_dir bname k.1 k.2)
             <$> (KdFitIA.sorted_items (KdFitIA.Imin_max_pairs_given_names fa)).*1.
Proof.
  unfold KdFitIA.write_results. intros Hrun. apply comprehension_Forall2 in Hrun.
  induction Hrun as [|[[a b] [Imin Imax]] [path text] items files Hone _ IH];
    [reflexivity|].
  cbn [fmap list_fmap fst snd]. rewrite <- IH. f_equal.
  bind_inv Hone. injection Hone as <- _. reflexivity.
Qed.

Lemma prefix_one (a c : ascii) (s : string) :
  String.prefix (String a "") (String c s) = if ascii_dec a c then true else false.
Proof. simpl. destruct (ascii_dec a c); [destruct s; reflexivity | reflexivity]. Qed.

(** [os.path.join] keeps apart two file names that begin alike. *)
Lemma os_path_join_inj (dir bname : string) (c : ascii) (s s' : string) :
  os_path_join dir (bname +:+ String c s) = os_path_join dir (bname +:+ String c s') →
  s = s'.
Proof.
  unfold os_path_join, startswith.
  assert (Hstart : String.prefix "/" (bname +:+ String c s)
                   = String.prefix "/" (bname +:+ String c s')).
  { destruct bname as [|c0 bname].
    - change ("" +:+ String c s) with (String c s).
      change ("" +:+ String c s') with (String c s'). rewrite !prefix_one. reflexivity.
    - change (String c0 bname +:+ String c s) with (String c0 (bname +:+ String c s)).
      change (String c0 bname +:+ String c s') with (String c0 (bname +:+ String c s')).
      rewrite !prefix_one. reflexivity. }
  rewrite Hstart. clear Hstart.
  assert (Hinj : ∀ p, p +:+ String c s = p +:+ String c s' → s = s').
  { intros p Heq. apply (inj (String.app p)) in Heq. congruence. }
  destruct (String.prefix "/" (bname +:+ String c s')).
  - apply Hinj.
  - destruct (is_empty dir || endswith_slash dir).
    + intros Heq. apply (inj (String.app dir)) in Heq. exact (Hinj _ Heq).
    + intros Heq. apply (inj (String.app dir)) in Heq.
      apply (inj (String.app "/")) in Heq. exact (Hinj _ Heq).
Qed.

(** No two pairs of admitted names share a file. *)
Lemma out_fpath_inj (out_dir bname a b a' b' : string) :
  a ∈ Imin_types → a' ∈ Imin_types → b ∈ Imax_types → b' ∈ Imax_types →
  out_fpath out_dir bname a b = out_fpath out_dir bname a' b' →
  a = a' ∧ b = b'.
Proof.
  intros Ha Ha' Hb Hb' Heq. unfold out_fpath in Heq.
  apply os_path_join_inj in Heq.
  unfold Imin_types, Imax_types in *.
  repeat match goal with
  | Hin : _ ∈ _ :: _ |- _ => apply elem_of_cons in Hin as [-> | Hin]
  | Hin : _ ∈ [] |- _ => apply elem_of_nil in Hin; contradiction
  end; first [split; reflexivity | vm_compute in Heq; discriminate Heq].
Qed.

Lemma NoDup_list_prod {A B : Type} (l1 : list A) (l2 : list B) :
  NoDup l1 → NoDup l2 → NoDup (list_prod l1 l2).
Proof.
  intros H1 H2. induction H1 as [|a l1 Ha _ IH]; simpl; [constructor|].
  apply NoDup_app. split; [|split; [|exact IH]].
  - apply (NoDup_fmap_2 (pair a)). exact H2.
  - intros [a' b'] Hin Hin'. apply list_elem_of_fmap in Hin as (b0 & [= -> ->] & _).
    apply list_elem_of_In, in_prod_iff in Hin' as [Hin' _].
    apply Ha, list_elem_of_In. exact Hin'.
Qed.

End Writer.

(** [write_results] writes one file for each strategy pair and none
    twice.  For an estimator set up by the constructor and the two
    methods that add strategies, whose tables [setup_for_fit] has built,
    a run of [write_results] that comes to its end has written as many
    files as there are pairs of an Imin name and an Imax name, the file
    of the pair [(a, b)] is at [out_dir/bname_a_b_Kds_and_ABAs.txt], every
    file written is the file of a pair, and the paths are distinct. *)
Theorem write_results_one_file_per_pair `{Numpy} `{Builtins}
    (IA : IntensityArray.t) (max_clust : nat) (calls : list strategy_call)
    (self : KdFitIA.t) (imin : KdFitIA.Imin_attrs) (imax : KdFitIA.Imax_attrs)
    (ml : option KdFitIA.ML_attrs) (force : bool) (fa : KdFitIA.fit_attrs)
    (r : KdFitIA.results) (out_dir bname : string) (files : list (string * string))
    (Hconf : configure IA max_clust calls = Ok self)
    (Hsetup : KdFitIA.setup_for_fit self imin imax ml None force = Ok fa)
    (Hwrite : KdFitIA.write_results self fa r out_dir bname = Ok files) :
  length files = (length (KdFitIA.Imin_names self) * length (KdFitIA.Imax_names self))%nat
  ∧ NoDup files.*1
  ∧ (∀ path, path ∈ files.*1
             ↔ ∃ a b, a ∈ KdFitIA.Imin_names self ∧ b ∈ KdFitIA.Imax_names self
                      ∧ path = os_path_join out_dir
                                 (bname +:+ "_" +:+ a +:+ "_" +:+ b +:+ "_Kds_and_ABAs.txt")).
Proof.
  (* the names are admitted and listed once *)
  unfold configure in Hconf.
  destruct (KdFitIA.init IA max_clust) as [s0|] eqn:Hinit; [|discriminate Hconf].
  cbn [mbind res_mbind res_bind] in Hconf.
  assert (Hs0 : KdFitIA.Imin_names s0 = ["Imin_const"]
                ∧ KdFitIA.Imax_names s0 = ["Imax_adjusted"]).
  { unfold KdFitIA.init in Hinit. bind_inv Hinit. injection Hinit as <-. auto. }
  destruct Hs0 as [Hmin0 Hmax0].
  destruct (run_calls_spec calls s0 self Hconf)
    as (Hnd1 & Hnd2 & _ & _ & Hin1 & Hin2 & Hadm1 & Hadm2 & _).
  assert (HN1 : NoDup (KdFitIA.Imin_names self)).
  { apply Hnd1. rewrite Hmin0. apply NoDup_singleton. }
  assert (HN2 : NoDup (KdFitIA.Imax_names self)).
  { apply Hnd2. rewrite Hmax0. apply NoDup_singleton. }
  assert (HA1 : ∀ a, a ∈ KdFitIA.Imin_names self → a ∈ Imin_types).
  { intros a Ha. apply Hin1 in Ha as [Ha | Ha]; [|apply Hadm1; exact Ha].
    rewrite Hmin0 in Ha. apply list_elem_of_singleton in Ha as ->.
    apply elem_of_cons. left. reflexivity. }
  assert (HA2 : ∀ b, b ∈ KdFitIA.Imax_names self → b ∈ Imax_types).
  { intros b Hb. apply Hin2 in Hb as [Hb | Hb]; [|apply Hadm2; exact Hb].
    rewrite Hmax0 in Hb. apply list_elem_of_singleton in Hb as ->.
    apply elem_of_cons. right. apply elem_of_cons. left. reflexivity. }
  (* the pairs visited *)
  pose proof (setup_for_fit_spec self imin imax ml None force fa Hsetup (or_introl eq_refl))
    as Hspec.
  set (keys := (KdFitIA.sorted_items (KdFitIA.Imin_max_pairs_given_names fa)).*1).
  assert (Hkeys : ∀ a b, (a, b) ∈ keys
                         ↔ a ∈ KdFitIA.Imin_names self ∧ b ∈ KdFitIA.Imax_names self).
  { intros a b. destruct (Hspec a b) as (_ & Hp & _). rewrite <- Hp. unfold keys.
    rewrite list_elem_of_fmap. split.
    - intros ([k v] & Heq & Hin). simpl in Heq. subst k.
      apply sorted_items_elem in Hin. eauto.
    - intros [v Hv]. exists ((a, b), v). split; [reflexivity|].
      apply sorted_items_elem. exact Hv. }
  assert (Hnodup : NoDup keys) by apply sorted_items_NoDup.
  assert (Hperm : keys ≡ₚ list_prod (KdFitIA.Imin_names self) (KdFitIA.Imax_names self)).
  { apply NoDup_Permutation; [exact Hnodup | apply NoDup_list_prod; assumption|].
    intros [a b]. rewrite Hkeys, elem_of_list_prod_names. reflexivity. }
  assert (Hclean : ∀ a b, a ∈ KdFitIA.Imin_names self → b ∈ KdFitIA.Imax_names self →
            out_fpath out_dir bname a b
            = os_path_join out_dir
                (bname +:+ "_" +:+ a +:+ "_" +:+ b +:+ "_Kds_and_ABAs.txt")).
  { intros a b Ha Hb. apply HA1 in Ha. apply HA2 in Hb. unfold Imin_types, Imax_types in *.
    repeat match goal with
    | Hin : _ ∈ _ :: _ |- _ => apply elem_of_cons in Hin as [-> | Hin]
    | Hin : _ ∈ [] |- _ => apply elem_of_nil in Hin; contradiction
    end; reflexivity. }
  pose proof (write_results_paths self fa r out_dir bname files Hwrite) as Hpaths.
  fold keys in Hpaths.
  split; [|split].
  - rewrite <- (length_fmap fst files), Hpaths, length_fmap, Hperm. apply length_prod.
  - rewrite Hpaths. apply NoDup_fmap_2_strong; [|exact Hnodup].
    intros [a b] [a' b'] Hin Hin' Heq. apply Hkeys in Hin as [Ha Hb].
    apply Hkeys in Hin' as [Ha' Hb']. simpl in Heq.
    apply out_fpath_inj in Heq as [-> ->]; auto.
  - intros path. rewrite Hpaths, list_elem_of_fmap. split.
    + intros ([a b] & -> & Hin). apply Hkeys in Hin as [Ha Hb].
      exists a, b. split; [exact Ha|]. split; [exact Hb|]. apply Hclean; assumption.
    + intros (a & b & Ha & Hb & ->). exists (a, b). split.
      * symmetry. apply Hclean; assumption.
      * apply Hkeys. auto.
Qed.

Lemma write_results_one_file_per_pair_witness :
  ∃ self fa files,
    @configure example_numpy example_IA 2000 example_two_calls = Ok self
    ∧ @KdFitIA.setup_for_fit example_numpy self example_imin example_imax None None false
      = Ok fa
    ∧ @KdFitIA.write_results example_numpy example_builtins self fa example_two_results
        "out" "run" = Ok files
    ∧ length files = 2%nat
    ∧ NoDup files.*1
    ∧ "out/run_Imin_neg_cont_Imax_adjusted_Kds_and_ABAs.txt" ∈ files.*1.
Proof.
  assert (Hconf : ∃ self, @configure example_numpy example_IA 2000 example_two_calls = Ok self)
    by (eexists; reflexivity).
  destruct Hconf as [self Hconf].
  assert (Hsetup : ∃ fa, @KdFitIA.setup_for_fit example_numpy self example_imin example_imax
                           None None false = Ok fa).
  { injection Hconf as <-. eexists. reflexivity. }
  destruct Hsetup as [fa Hsetup].
  assert (Hwrite : ∃ files, @KdFitIA.write_results example_numpy example_builtins self fa
                              example_two_results "out" "run" = Ok files).
  { injection Hconf as <-. injection Hsetup as <-. eexists. reflexivity. }
  destruct Hwrite as [files Hwrite].
  destruct (@write_results_one_file_per_pair example_numpy example_builtins example_IA 2000
              example_two_calls self example_imin example_imax None false fa
              example_two_results "out" "run" files Hconf Hsetup Hwrite)
    as (Hlen & Hnodup & Hpaths).
  exists self, fa, files.
  split; [exact Hconf|]. split; [exact Hsetup|]. split; [exact Hwrite|].
  split; [|split; [exact Hnodup|]].
  - rewrite Hlen. injection Hconf as <-. reflexivity.
  - apply Hpaths. exists "Imin_neg_cont", "Imax_adjusted".
    injection Hconf as <-.
    split; [apply elem_of_cons; right; apply elem_of_cons; left; reflexivity|].
    split; [apply elem_of_cons; left; reflexivity|]. reflexivity.
Defined.

(** ** An exception in a fit *)

Section Failure.
Context `{Numpy} `{Scipy} `{Seqtools} `{Builtins}.









End Failure.




(** ** The loop over the strategy pairs and the sequences *)

Section Columns.
Context `{Numpy} `{Scipy} `{Seqtools} `{Builtins}.

Let empty_at (r : KdFitIA.results) (k : string * string) : Prop :=
  KdFitIA.Kds r !! k = Some [] ∧ KdFitIA.Kd_errors r !! k = Some []
  ∧ KdFitIA.ABAs r !! k = Some [] ∧ KdFitIA.ABA_errors r !! k = Some [].

Let same_at (r r' : KdFitIA.results) (k : string * string) : Prop :=
  KdFitIA.Kds r' !! k = KdFitIA.Kds r !! k
  ∧ KdFitIA.Kd_errors r' !! k = KdFitIA.Kd_errors r !! k
  ∧ KdFitIA.ABAs r' !! k = KdFitIA.ABAs r !! k
  ∧ KdFitIA.ABA_errors r' !! k = KdFitIA.ABA_errors r !! k.

Let filled_at (n : nat) (r : KdFitIA.results) (k : string * string) : Prop :=
  ∃ kds kd_errors aba_errors neg_control_Kd,
    KdFitIA.Kds r !! k = Some kds
    ∧ KdFitIA.Kd_errors r !! k = Some kd_errors
    ∧ KdFitIA.ABAs r !! k = Some (map (λ Kd, KdFitIA.ABA Kd neg_control_Kd) kds)
    ∧ KdFitIA.ABA_errors r !! k = Some aba_errors
    ∧ length kds = n ∧ length kd_errors = n ∧ length aba_errors = n.

Lemma lift_append_to_inv (d d' : gmap (string * string) (list R)) (k : string * string)
    (v : R) (w w' : world) :
  lift (KdFitIA.append_to d k v) w = (Ok d', w') →
  ∃ l, d !! k = Some l ∧ d' = <[k := (l ++ [v])%list]> d.
Proof.
  unfold lift. intros [= Happ _]. unfold KdFitIA.append_to, py_getitem2 in Happ.
  destruct (d !! k) as [l|]; [|discriminate Happ].
  injection Happ as <-. eauto.
Qed.

(** One sequence: each column of the pair gets one more entry. *)
Lemma fit_seq_inv (fit : string → bool → M R) (n : nat) (k : string * string)
    (neg_control_Kd : R) (r r' : KdFitIA.results) (i_seq : nat * string) (w w' : world) :
  KdFitIA.fit_seq fit n k neg_control_Kd r i_seq w = (Ok r', w') →
  ∃ Kd e ae kds kd_errors abas aba_errors,
    KdFitIA.Kds r !! k = Some kds
    ∧ KdFitIA.Kd_errors r !! k = Some kd_errors
    ∧ KdFitIA.ABAs r !! k = Some abas
    ∧ KdFitIA.ABA_errors r !! k = Some aba_errors
    ∧ r' = {| KdFitIA.Kds := <[k := (kds ++ [Kd])%list]> (KdFitIA.Kds r);
              KdFitIA.Kd_errors := <[k := (kd_errors ++ [e])%list]> (KdFitIA.Kd_errors r);
              KdFitIA.ABAs :=
                <[k := (abas ++ [KdFitIA.ABA Kd neg_control_Kd])%list]> (KdFitIA.ABAs r);
              KdFitIA.ABA_errors :=
                <[k := (aba_errors ++ [ae])%list]> (KdFitIA.ABA_errors r) |}.
Proof.
  destruct i_seq as [i seq]. unfold KdFitIA.fit_seq. intros Hrun.
  apply M_bind_inv in Hrun as (u & w1 & _ & Hrun).
  apply M_bind_inv in Hrun as (Kd & w2 & _ & Hrun).
  apply M_bind_inv in Hrun as (bs & w3 & _ & Hrun).
  apply M_bind_inv in Hrun as (kds' & w4 & HK & Hrun).
  apply M_bind_inv in Hrun as (kes' & w5 & HKe & Hrun).
  apply M_bind_inv in Hrun as (abas' & w6 & HA & Hrun).
  apply M_bind_inv in Hrun as (aes' & w7 & HAe & Hrun).
  unfold mret, M_ret in Hrun. injection Hrun as <- _.
  apply lift_append_to_inv in HK as (kds & HK & ->).
  apply lift_append_to_inv in HKe as (kes & HKe & ->).
  apply lift_append_to_inv in HA as (abas & HA & ->).
  apply lift_append_to_inv in HAe as (aes & HAe & ->).
  do 7 eexists. repeat (split; [eassumption|]). reflexivity.
Qed.

(** The loop over the sequences: the columns of the pair get one entry
    for each sequence, the ABA being taken against the negative-control
    Kd of the pair, and the columns of the other pairs are not touched. *)
Lemma fit_seq_loop (fit : string → bool → M R) (n : nat) (k : string * string)
    (neg_control_Kd : R) (l : list (nat * string)) :
  ∀ (r r' : KdFitIA.results) (w w' : world) (kds kd_errors abas aba_errors : list R),
    M_for (KdFitIA.fit_seq fit n k neg_control_Kd) l r w = (Ok r', w') →
    KdFitIA.Kds r !! k = Some kds →
    KdFitIA.Kd_errors r !! k = Some kd_errors →
    KdFitIA.ABAs r !! k = Some abas →
    KdFitIA.ABA_errors r !! k = Some aba_errors →
    (∃ kds2 kes2 aes2,
       length kds2 = length l ∧ length kes2 = length l ∧ length aes2 = length l
       ∧ KdFitIA.Kds r' !! k = Some (kds ++ kds2)%list
       ∧ KdFitIA.Kd_errors r' !! k = Some (kd_errors ++ kes2)%list
       ∧ KdFitIA.ABAs r' !! k
         = Some (abas ++ map (λ Kd, KdFitIA.ABA Kd neg_control_Kd) kds2)%list
       ∧ KdFitIA.ABA_errors r' !! k = Some (aba_errors ++ aes2)%list)
    ∧ ∀ k', k' ≠ k → same_at r r' k'.
Proof.
  induction l as [|i_seq l IH]; intros r r' w w' kds kes abas aes Hrun HK HKe HA HAe.
  - unfold M_for, mret, M_ret in Hrun. injection Hrun as <- _. split.
    + exists [], [], []. simpl. rewrite !app_nil_r. auto 10.
    + intros k' _. unfold same_at. auto.
  - cbn [M_for] in Hrun. apply M_bind_inv in Hrun as (r1 & w1 & Hone & Hrest).
    apply fit_seq_inv in Hone
      as (Kd & e & ae & kds0 & kes0 & abas0 & aes0 & HK0 & HKe0 & HA0 & HAe0 & ->).
    rewrite HK in HK0. rewrite HKe in HKe0. rewrite HA in HA0. rewrite HAe in HAe0.
    injection HK0 as <-. injection HKe0 as <-. injection HA0 as <-. injection HAe0 as <-.
    destruct (IH _ r' w1 w' (kds ++ [Kd])%list (kes ++ [e])%list
                (abas ++ [KdFitIA.ABA Kd neg_control_Kd])%list (aes ++ [ae])%list Hrest)
      as [(kds2 & kes2 & aes2 & L1 & L2 & L3 & E1 & E2 & E3 & E4) Hothers];
      try (cbn; apply lookup_insert_eq).
    split.
    + exists (Kd :: kds2), (e :: kes2), (ae :: aes2). cbn [length map].
      rewrite L1, L2, L3, E1, E2, E3, E4, <- !app_assoc. auto 10.
    + intros k' Hne. destruct (Hothers k' Hne) as (S1 & S2 & S3 & S4).
      cbn in S1, S2, S3, S4.
      rewrite lookup_insert_ne in S1 by congruence.
      rewrite lookup_insert_ne in S2 by congruence.
      rewrite lookup_insert_ne in S3 by congruence.
      rewrite lookup_insert_ne in S4 by congruence.
      unfold same_at. auto.
Qed.

(** The loop over the strategy pairs. *)
Lemma fit_pairs_loop (self : KdFitIA.t) (imin : KdFitIA.Imin_attrs)
    (imax : KdFitIA.Imax_attrs) (ml : option KdFitIA.ML_attrs) (fa : KdFitIA.fit_attrs)
    (n : nat) (items : list (string * string * (profile * profile))) :
  ∀ (r r' : KdFitIA.results) (w w' : world),
    NoDup items.*1 →
    M_for
      (λ r '(names_tup, (Imin, Imax)),
         _ ← M_print (nl +:+ " {names_tup}");
         let Imin_name := names_tup.1 in
         f ← lift (py_getitem2 (KdFitIA.fit_func_given_Imin_max_names fa) names_tup);
         let fit := λ seq bootstrap,
           KdFitIA.call_fit_func self imin imax ml f seq Imin Imax Imin_name bootstrap in
         neg_control_Kd ← fit (KdFitIA.neg_control_target self) false;
         M_for (KdFitIA.fit_seq fit n names_tup neg_control_Kd)
           (enumerate (IntensityArray.seqs (KdFitIA.IA self))) r)
      items r w = (Ok r', w') →
    (∀ k, k ∈ items.*1 → empty_at r k) →
    (∀ k, k ∈ items.*1 →
          filled_at (length (IntensityArray.seqs (KdFitIA.IA self))) r' k)
    ∧ (∀ k, k ∉ items.*1 → same_at r r' k).
Proof.
  induction items as [|[k [Imin Imax]] items IH]; intros r r' w w' Hnodup Hrun Hempty.
  - unfold M_for, mret, M_ret in Hrun. injection Hrun as <- _. split.
    + intros k Hin. apply elem_of_nil in Hin. contradiction.
    + intros k _. unfold same_at. auto.
  - cbn [fmap list_fmap fst] in Hnodup, Hempty |- *.
    apply NoDup_cons in Hnodup as [Hfresh Hnodup].
    cbn [M_for] in Hrun. apply M_bind_inv in Hrun as (r1 & w1 & Hbody & Hrest).
    apply M_bind_inv in Hbody as (u & w2 & _ & Hbody).
    apply M_bind_inv in Hbody as (f & w3 & _ & Hbody).
    apply M_bind_inv in Hbody as (neg_control_Kd & w4 & _ & Hinner).
    destruct (Hempty k) as (HK & HKe & HA & HAe); [apply elem_of_cons; auto|].
    destruct (fit_seq_loop _ n k neg_control_Kd _ r r1 w4 w1 [] [] [] []
                Hinner HK HKe HA HAe)
      as [(kds2 & kes2 & aes2 & L1 & L2 & L3 & E1 & E2 & E3 & E4) Hothers].
    assert (Hlen : length (enumerate (IntensityArray.seqs (KdFitIA.IA self)))
                   = length (IntensityArray.seqs (KdFitIA.IA self))).
    { unfold enumerate. rewrite length_zip, length_seq. lia. }
    rewrite Hlen in L1, L2, L3. cbn [app] in E1, E2, E3, E4.
    destruct (IH r1 r' w1 w' Hnodup Hrest) as [Hfilled Hsame].
    { intros k' Hin. assert (Hne : k' ≠ k) by (intros ->; contradiction).
      destruct (Hothers k' Hne) as (S1 & S2 & S3 & S4).
      destruct (Hempty k') as (F1 & F2 & F3 & F4); [apply elem_of_cons; auto|].
      unfold empty_at. rewrite S1, S2, S3, S4. auto. }
    split.
    + intros k' Hin. apply elem_of_cons in Hin as [-> | Hin]; [|apply Hfilled; exact Hin].
      destruct (Hsame k Hfresh) as (S1 & S2 & S3 & S4).
      exists kds2, kes2, aes2, neg_control_Kd. rewrite S1, S2, S3, S4. auto 10.
    + intros k' Hnotin. apply not_elem_of_cons in Hnotin as [Hne Hnotin].
      destruct (Hsame k' Hnotin) as (S1 & S2 & S3 & S4).
      destruct (Hothers k' Hne) as (T1 & T2 & T3 & T4).
      unfold same_at. rewrite S1, S2, S3, S4. auto.
Qed.

End Columns.

(** The columns the loops of [fit_all_Kds] fill.  Started on the empty
    columns and on the tables of a first [setup_for_fit], the loop over
    the strategy pairs, when it comes to its end, leaves under every pair
    of an Imin name and an Imax name four columns with one entry for each
    sequence of [IA.seqs], and the ABA column is the Kd column sent
    through [ABA] with one negative-control Kd for the pair. *)
Theorem fit_pairs_columns `{Numpy} `{Scipy} `{Seqtools} `{Builtins}
    (self : KdFitIA.t) (imin : KdFitIA.Imin_attrs) (imax : KdFitIA.Imax_attrs)
    (ml : option KdFitIA.ML_attrs) (fa : KdFitIA.fit_attrs) (num_bootstraps : nat)
    (r : KdFitIA.results) (w w' : world)
    (Hsetup : KdFitIA.setup_for_fit self imin imax ml None false = Ok fa)
    (Hrun : KdFitIA.fit_pairs self imin imax ml fa num_bootstraps (empty_results fa) w
            = (Ok r, w')) :
  ∀ a b, a ∈ KdFitIA.Imin_names self → b ∈ KdFitIA.Imax_names self →
    ∃ kds kd_errors aba_errors neg_control_Kd,
      KdFitIA.Kds r !! (a, b) = Some kds
      ∧ KdFitIA.Kd_errors r !! (a, b) = Some kd_errors
      ∧ KdFitIA.ABAs r !! (a, b) = Some (map (λ Kd, KdFitIA.ABA Kd neg_control_Kd) kds)
      ∧ KdFitIA.ABA_errors r !! (a, b) = Some aba_errors
      ∧ length kds = length (IntensityArray.seqs (KdFitIA.IA self))
      ∧ length kd_errors = length (IntensityArray.seqs (KdFitIA.IA self))
      ∧ length aba_errors = length (IntensityArray.seqs (KdFitIA.IA self)).
Proof.
  intros a b Ha Hb.
  pose proof (setup_for_fit_spec self imin imax ml None false fa Hsetup (or_introl eq_refl))
    as Hspec.
  unfold KdFitIA.fit_pairs in Hrun.
  apply fit_pairs_loop in Hrun as [Hfilled _].
  - apply Hfilled. apply list_elem_of_fmap.
    destruct (Hspec a b) as (_ & Hp & _).
    destruct (proj2 Hp (conj Ha Hb)) as [v Hv].
    exists ((a, b), v). split; [reflexivity|]. apply sorted_items_elem. exact Hv.
  - apply sorted_items_NoDup.
  - intros [a' b'] Hin. apply list_elem_of_fmap in Hin as ([k v] & Heq & Hin).
    simpl in Heq. subst k. apply sorted_items_elem in Hin.
    destruct (Hspec a' b') as (Hf & Hp & _).
    assert (Hsome : is_Some (KdFitIA.fit_func_given_Imin_max_names fa !! (a', b'))).
    { apply Hf, Hp. eauto. }
    destruct Hsome as [f Hf'].
    unfold empty_results. cbn. rewrite lookup_fmap, Hf'. auto.
Qed.

Lemma fit_pairs_columns_witness :
  ∃ fa r w' kds neg_control_Kd,
    @KdFitIA.setup_for_fit example_numpy example_self_read example_imin example_imax
      None None false = Ok fa
    ∧ @KdFitIA.fit_pairs example_numpy example_scipy example_seqtools example_builtins
        example_self_read example_imin example_imax None fa 2 (empty_results fa)
        example_world = (Ok r, w')
    ∧ KdFitIA.Kds r !! ("Imin_neg_cont", "Imax_adjusted") = Some kds
    ∧ KdFitIA.ABAs r !! ("Imin_neg_cont", "Imax_adjusted")
      = Some (map (λ Kd, KdFitIA.ABA Kd neg_control_Kd) kds)
    ∧ length kds = 2%nat.
Proof.
  assert (Hsetup : ∃ fa, @KdFitIA.setup_for_fit example_numpy example_self_read example_imin
                           example_imax None None false = Ok fa)
    by (eexists; reflexivity).
  destruct Hsetup as [fa Hsetup].
  assert (Hrun : ∃ r w',
            @KdFitIA.fit_pairs example_numpy example_scipy example_seqtools example_builtins
              example_self_read example_imin example_imax None fa 2 (empty_results fa)
              example_world = (Ok r, w')).
  { injection Hsetup as <-. do 2 eexists. reflexivity. }
  destruct Hrun as (r & w' & Hrun).
  destruct (@fit_pairs_columns example_numpy example_scipy example_seqtools example_builtins
              example_self_read example_imin example_imax None fa 2 r example_world w'
              Hsetup Hrun "Imin_neg_cont" "Imax_adjusted")
    as (kds & kes & aes & neg & HK & _ & HA & _ & Hlen & _).
  - apply elem_of_cons. right. apply elem_of_cons. left. reflexivity.
  - apply elem_of_cons. left. reflexivity.
  - exists fa, r, w', kds, neg. auto.
Defined.
